(** * The evidence collection pipeline

    A shallow embedding of [EvidenceCollectionSystem] of
    [process_submission.py]: the record extractor, the translator adapter,
    the two formatters, the structured record builder and the polling loop;
    of the same methods of [EvidenceCollectionService] of [app.py]; and the
    properties of the pipeline.

    Python strings are [string]s holding the UTF-8 bytes of the text, Python
    integers are [Z], the submission dictionary with its eleven fixed keys is
    a record.  A method is a function of the object state and of the trace of
    what it did to the outside world, and returns normally or raises. *)

From Stdlib Require Import String Ascii List ZArith Lia Bool Sorted.
From Stdlib Require Import Decimal DecimalString DecimalZ DecimalPos.
Import ListNotations.

Local Open Scope string_scope.
Local Open Scope Z_scope.

(** ** Python primitives *)

Module Py.

(** The line feed written [\n] in the source. *)
Definition LF : string := String "010"%char EmptyString.

(** [str(n)] and the [{n}] of an f-string, for an [int]. *)
Definition str_of_int (n : Z) : string :=
  NilZero.string_of_int (Z.to_int n).

(** [len(l)]. *)
Definition len {A : Type} (l : list A) : Z := Z.of_nat (length l).

(** Truth value of a string: only the empty string is false. *)
Definition truthy (s : string) : bool :=
  match s with
  | EmptyString => false
  | String _ _ => true
  end.

(** A character put in front of the first piece of a split.  A split is
    never empty, so the second case does not happen. *)
Definition push (c : ascii) (pieces : list string) : list string :=
  match pieces with
  | piece :: more => String c piece :: more
  | [] => [String c EmptyString]
  end.

(** [s.split(', ')]: the pieces between the leftmost, non-overlapping
    occurrences of the two-character separator. *)
Fixpoint split_comma_space (s : string) : list string :=
  match s with
  | EmptyString => [EmptyString]
  | String c rest =>
      match rest with
      | String d rest' =>
          if ((c =? ",") && (d =? " "))%char
          then EmptyString :: split_comma_space rest'
          else push c (split_comma_space rest)
      | EmptyString => push c (split_comma_space rest)
      end
  end.

(** One-byte white space of [str.isspace]: U+0009..U+000D, U+001C..U+001F
    and U+0020. *)
Definition space1 (b : N) : bool :=
  (((9 <=? b) && (b <=? 13)) || ((28 <=? b) && (b <=? 32)))%N.

(** Two-byte white space: U+0085 and U+00A0. *)
Definition space2 (b1 b2 : N) : bool :=
  ((b1 =? 194) && ((b2 =? 133) || (b2 =? 160)))%N.

(** Three-byte white space: U+1680, U+2000..U+200A, U+2028, U+2029,
    U+202F, U+205F and U+3000. *)
Definition space3 (b1 b2 b3 : N) : bool :=
  (((b1 =? 225) && (b2 =? 154) && (b3 =? 128))
   || ((b1 =? 226) && (b2 =? 128)
       && (((128 <=? b3) && (b3 <=? 138))
           || (b3 =? 168) || (b3 =? 169) || (b3 =? 175)))
   || ((b1 =? 226) && (b2 =? 129) && (b3 =? 159))
   || ((b1 =? 227) && (b2 =? 128) && (b3 =? 128)))%N.

(** [not text or text.strip() == '']: every character of the text is
    white space. *)
Fixpoint blank (s : string) : bool :=
  match s with
  | EmptyString => true
  | String c1 rest1 =>
      if space1 (N_of_ascii c1) then blank rest1
      else
        match rest1 with
        | EmptyString => false
        | String c2 rest2 =>
            if space2 (N_of_ascii c1) (N_of_ascii c2) then blank rest2
            else
              match rest2 with
              | EmptyString => false
              | String c3 rest3 =>
                  if space3 (N_of_ascii c1) (N_of_ascii c2) (N_of_ascii c3)
                  then blank rest3
                  else false
              end
        end
  end.

(** [range(lo, hi)], as the list of its values. *)
Definition range (lo hi : Z) : list Z :=
  map (fun k => lo + Z.of_nat k) (seq 0 (Z.to_nat (hi - lo))).

End Py.

(** ** Exceptions and the method monad *)

(** An exception is kept as the text [str(error)] that the handlers print. *)
Definition exn := string.

Inductive outcome (A : Type) : Type :=
| Ret (a : A)
| Raise (e : exn).
Arguments Ret {A} a.
Arguments Raise {A} e.

(** [l[i]] on a list: negative indices count from the end, anything else out
    of range raises [IndexError]. *)
Definition getitem {A : Type} (l : list A) (i : Z) : outcome A :=
  let i' := if i <? 0 then i + Py.len l else i in
  if i' <? 0 then Raise "list index out of range"
  else
    match nth_error l (Z.to_nat i') with
    | Some a => Ret a
    | None => Raise "list index out of range"
    end.

(** ** Data model *)

(** The dictionary built by [extract_submission_data]. *)
Record Submission := mkSubmission {
  timestamp : string;
  submitter : string;
  title : string;
  aff_tags : list string;
  neg_tags : list string;
  source_url : string;
  update_date : string;
  eng_source : string;
  quote : string;
  attachment : string;
  remark : string
}.

(** The dictionary [formatted_content] of [add_to_docs]. *)
Record FormattedContent := mkFormattedContent {
  fc_title : string;
  fc_tags : string;
  fc_remark : string;
  fc_table_content : string;
  fc_attachment : string
}.

(** The dictionary built by [prepare_structured_data]. *)
Record StructuredRecord := mkStructuredRecord {
  sr_id : string;
  sr_timestamp : string;
  sr_submitter : string;
  sr_title_original : string;
  sr_title_translated : string;
  sr_quote_original : string;
  sr_quote_translated : string;
  sr_tags_affirmative : list string;
  sr_tags_negative : list string;
  sr_source_url : string;
  sr_source_update_date : string;
  sr_source_eng_source : string;
  sr_metadata_attachment : string;
  sr_metadata_remark : string;
  sr_metadata_processed_at : string
}.

(** What a run does that can be seen from outside, in order.  The last two
    constructors are not output of the program: they record the value of the
    local [formatted_content] and the entry of [process_submission], so that
    statements can speak about them. *)
Inductive event : Type :=
| Print (line : string)
| TranslateCall (source target q : string)
| HttpPost (url content : string)
| Log (level line : string)
| DocsContent (fc : FormattedContent)
| Processing (row_number : Z) (row_data : list string).

(** The object ([self]) together with the outside world: the two attributes
    that change, the number of requests made to external services so far,
    and the trace. *)
Record state := mkState {
  last_processed_row : Z;
  structured_data : list StructuredRecord;
  calls : nat;
  trace : list event
}.

(** The state of a freshly constructed [EvidenceCollectionSystem]. *)
Definition init : state := mkState 0 [] 0 [].

(** The answer of the translation service: the value of the key
    ['translations'] when the answer has it, as the list of the
    ['translatedText'] of its items (an item may lack that key). *)
Record translate_result := mkTranslateResult {
  translations : option (list (option string))
}.

(** The services the object talks to and its [discord_webhook_url].  An
    answer may depend on the request and on how many requests were made
    before it. *)
Record Env := mkEnv {
  discord_webhook_url : string;
  sheets_client : nat -> string -> string -> outcome (list (list string));
  translate_service : nat -> string -> string -> string -> outcome translate_result;
  requests_post : nat -> string -> string -> outcome Z;
  datetime_now : nat -> string
}.

Definition M (A : Type) : Type := state -> outcome A * state.

Definition ret {A : Type} (a : A) : M A := fun st => (Ret a, st).

Definition raise {A : Type} (e : exn) : M A := fun st => (Raise e, st).

Definition bind {A B : Type} (m : M A) (k : A -> M B) : M B :=
  fun st =>
    match m st with
    | (Ret a, st') => k a st'
    | (Raise e, st') => (Raise e, st')
    end.

(** [try: body  except Exception as error: handler]: what the body did
    before it raised stays done. *)
Definition try_except {A : Type} (body : M A) (handler : exn -> M A) : M A :=
  fun st =>
    match body st with
    | (Ret a, st') => (Ret a, st')
    | (Raise e, st') => handler e st'
    end.

Declare Scope py_scope.
Delimit Scope py_scope with py.
Notation "x <- m ;; k" := (bind m (fun x => k))
  (at level 61, m at next level, right associativity) : py_scope.
Notation "m ;; k" := (bind m (fun _ => k))
  (at level 61, right associativity) : py_scope.
Local Open Scope py_scope.

Definition lift {A : Type} (o : outcome A) : M A := fun st => (o, st).

Definition emit (e : event) : M unit :=
  fun st =>
    (Ret tt,
     mkState (last_processed_row st) (structured_data st) (calls st)
             (trace st ++ [e])).

Definition print (line : string) : M unit := emit (Print line).

(** A request to an external service: it is counted, and answered from the
    number of requests made before it. *)
Definition request {A : Type} (answer : nat -> outcome A) : M A :=
  fun st =>
    (answer (calls st),
     mkState (last_processed_row st) (structured_data st) (S (calls st))
             (trace st)).

Definition get_last_processed_row : M Z :=
  fun st => (Ret (last_processed_row st), st).

Definition set_last_processed_row (n : Z) : M unit :=
  fun st =>
    (Ret tt, mkState n (structured_data st) (calls st) (trace st)).

Definition append_structured_data (r : StructuredRecord) : M unit :=
  fun st =>
    (Ret tt,
     mkState (last_processed_row st) (structured_data st ++ [r]) (calls st)
             (trace st)).

(** [for x in l: body x]. *)
Fixpoint for_each {A : Type} (l : list A) (body : A -> M unit) : M unit :=
  match l with
  | [] => ret tt
  | x :: rest => body x ;; for_each rest body
  end.

(** ** The program *)

Section Program.

Variable env : Env.

(** *** [translate_text] *)

Definition translations_list (source_lang target_lang text : string)
  : M translate_result :=
  emit (TranslateCall source_lang target_lang text) ;;
  request (fun n => translate_service env n source_lang target_lang text).

Definition translate_text (text source_lang target_lang : string)
  : M string :=
  if Py.blank text then ret text
  else
    try_except
      (result <- translations_list source_lang target_lang text ;;
       match translations result with
       | Some (first :: _) =>
           match first with
           | Some translatedText => ret translatedText
           | None => raise "'translatedText'"
           end
       | Some [] => ret text
       | None => ret text
       end)
      (fun error => print ("Translation error: " ++ error) ;; ret text).

(** *** [extract_submission_data] *)

(** [row_data[i].split(', ') if row_data[i] else []]. *)
Definition parse_tags (field : string) : list string :=
  if Py.truthy field then Py.split_comma_space field else [].

(** The body of the [try] of [extract_submission_data]. *)
Definition extract_body (row_data : list string) : M (option Submission) :=
  if Py.len row_data <? 11 then
    print ("Insufficient data in row: " ++ Py.str_of_int (Py.len row_data)
           ++ " columns") ;;
    ret None
  else
    f3 <- lift (getitem row_data 3) ;;
    f4 <- lift (getitem row_data 4) ;;
    f0 <- lift (getitem row_data 0) ;;
    f1 <- lift (getitem row_data 1) ;;
    f2 <- lift (getitem row_data 2) ;;
    f5 <- lift (getitem row_data 5) ;;
    f6 <- lift (getitem row_data 6) ;;
    f7 <- lift (getitem row_data 7) ;;
    f8 <- lift (getitem row_data 8) ;;
    f9 <- lift (getitem row_data 9) ;;
    f10 <- lift (getitem row_data 10) ;;
    ret (Some (mkSubmission f0 f1 f2 (parse_tags f3) (parse_tags f4)
                            f5 f6 f7 f8 f9 f10)).

Definition extract_submission_data (row_data : list string)
  : M (option Submission) :=
  try_except
    (extract_body row_data)
    (fun error =>
       print ("Error extracting submission data: " ++ error) ;; ret None).

(** *** Formatting *)

(** [data[tags] and data[tags][0]]. *)
Definition tags_present (tags : list string) : bool :=
  match tags with
  | [] => false
  | first :: _ => Py.truthy first
  end.

(** [f"{entry_number}. {data['title']} ({data['submitter']})"], which both
    outputs start with. *)
Definition title_line (entry_number : Z) (data : Submission) : string :=
  Py.str_of_int entry_number ++ ". " ++ title data
    ++ " (" ++ submitter data ++ ")".

(** [tags_content] of [add_to_docs]. *)
Definition docs_tags_content (data : Submission) : string :=
  let tags_content := "#" ++ submitter data in
  let tags_content :=
    if tags_present (aff_tags data) then
      fold_left (fun acc tag => acc ++ " #" ++ tag) (aff_tags data)
                (tags_content ++ " [AFF]")
    else tags_content in
  let tags_content :=
    if tags_present (neg_tags data) then
      fold_left (fun acc tag => acc ++ " #" ++ tag) (neg_tags data)
                (tags_content ++ " [NEG]")
    else tags_content in
  tags_content.

(** [table_content] of [add_to_docs]. *)
Definition docs_table_content (entry_number : Z) (data : Submission)
           (original_quote translated_quote : string) : string :=
  "[資料番号:" ++ Py.str_of_int entry_number ++ "] " ++ update_date data
    ++ ": " ++ eng_source data ++ Py.LF
    ++ source_url data ++ Py.LF ++ Py.LF
    ++ "【Original (Japanese)】" ++ Py.LF ++ original_quote
    ++ Py.LF ++ Py.LF
    ++ "【English Translation】" ++ Py.LF ++ translated_quote.

Definition docs_formatted_content (entry_number : Z) (data : Submission)
           (original_quote translated_quote : string) : FormattedContent :=
  mkFormattedContent
    (title_line entry_number data)
    (docs_tags_content data)
    (remark data)
    (docs_table_content entry_number data original_quote translated_quote)
    (attachment data).

(** [tags_text] of [send_discord_notification]. *)
Definition discord_tags_text (data : Submission) : string :=
  let tags_text := EmptyString in
  let tags_text :=
    if tags_present (aff_tags data) then
      fold_left (fun acc tag => acc ++ "#" ++ tag ++ " ") (aff_tags data)
                (tags_text ++ "[AFF]")
    else tags_text in
  let tags_text :=
    if tags_present (aff_tags data) && tags_present (neg_tags data)
    then tags_text ++ Py.LF
    else tags_text in
  let tags_text :=
    if tags_present (neg_tags data) then
      fold_left (fun acc tag => acc ++ "#" ++ tag ++ " ") (neg_tags data)
                (tags_text ++ "[NEG]")
    else tags_text in
  tags_text.

Definition discord_attachment_text (data : Submission) : string :=
  let attachment_text := Py.LF ++ "添付ファイル：" ++ Py.LF in
  if Py.truthy (attachment data)
  then attachment_text ++ attachment data
  else attachment_text ++ "なし".

Definition discord_remark_text (data : Submission) : string :=
  if Py.truthy (remark data) then Py.LF ++ "※" ++ remark data
  else EmptyString.

Definition discord_message_content (data : Submission)
           (original_quote translated_quote : string) : string :=
  Py.LF ++ discord_tags_text data ++ Py.LF ++ Py.LF
    ++ "```" ++ original_quote ++ "```" ++ Py.LF ++ Py.LF
    ++ "**English Translation:**" ++ Py.LF
    ++ "```" ++ translated_quote ++ "```"
    ++ discord_remark_text data
    ++ discord_attachment_text data ++ Py.LF ++ Py.LF
    ++ "【投稿者】" ++ submitter data ++ Py.LF
    ++ "【引用元】" ++ update_date data ++ Py.LF
    ++ source_url data.

(** The ['content'] of [discord_payload]. *)
Definition discord_payload_content (entry_number : Z) (data : Submission)
           (original_quote translated_quote : string) : string :=
  title_line entry_number data ++ Py.LF
    ++ discord_message_content data original_quote translated_quote.

(** *** [add_to_docs] *)

Definition add_to_docs (entry_number : Z) (data : Submission) : M unit :=
  try_except
    (let original_quote := quote data in
     translated_quote <- translate_text original_quote "ja" "en" ;;
     let formatted_content :=
       docs_formatted_content entry_number data
                              original_quote translated_quote in
     emit (DocsContent formatted_content) ;;
     print ("Content prepared for Google Docs: " ++ title data))
    (fun error => print ("Error adding to docs: " ++ error)).

(** *** [send_discord_notification] *)

Definition post_webhook (content : string) : M Z :=
  emit (HttpPost (discord_webhook_url env) content) ;;
  request (fun n => requests_post env n (discord_webhook_url env) content).

Definition send_discord_notification (entry_number : Z) (data : Submission)
  : M unit :=
  try_except
    (let original_quote := quote data in
     translated_quote <- translate_text original_quote "ja" "en" ;;
     status_code <-
       post_webhook (discord_payload_content entry_number data
                       original_quote translated_quote) ;;
     if status_code =? 204 then
       print ("Discord notification sent successfully for: " ++ title data)
     else
       print ("Discord notification failed: "
              ++ Py.str_of_int status_code))
    (fun error => print ("Error sending Discord notification: " ++ error)).

(** *** [prepare_structured_data] *)

Definition now_isoformat : M string :=
  request (fun n => Ret (datetime_now env n)).

Definition prepare_structured_data (data : Submission) (row_number : Z)
  : M StructuredRecord :=
  translated_title <- translate_text (title data) "ja" "en" ;;
  translated_quote <- translate_text (quote data) "ja" "en" ;;
  processed_at <- now_isoformat ;;
  ret (mkStructuredRecord
         ("entry_" ++ Py.str_of_int row_number)
         (timestamp data)
         (submitter data)
         (title data) translated_title
         (quote data) translated_quote
         (aff_tags data) (neg_tags data)
         (source_url data) (update_date data) (eng_source data)
         (attachment data) (remark data) processed_at).

(** *** [process_submission] *)

Definition process_submission (row_data : list string) (row_number : Z)
  : M unit :=
  emit (Processing row_number row_data) ;;
  try_except
    (submission_data <- extract_submission_data row_data ;;
     match submission_data with
     | None => ret tt
     | Some data =>
         add_to_docs (row_number - 1) data ;;
         send_discord_notification (row_number - 1) data ;;
         structured_entry <- prepare_structured_data data row_number ;;
         append_structured_data structured_entry
     end)
    (fun error =>
       print ("Error processing submission at row "
              ++ Py.str_of_int row_number ++ ": " ++ error)).

(** *** [monitor_spreadsheet] *)

(** [open_by_key(spreadsheet_id).worksheet(sheet_name).get_all_values()]. *)
Definition get_all_values (spreadsheet_id sheet_name : string)
  : M (list (list string)) :=
  request (fun n => sheets_client env n spreadsheet_id sheet_name).

Definition monitor_spreadsheet (spreadsheet_id sheet_name : string)
  : M unit :=
  try_except
    (all_rows <- get_all_values spreadsheet_id sheet_name ;;
     if Py.len all_rows <=? 1 then ret tt
     else
       let current_row_count := Py.len all_rows in
       last <- get_last_processed_row ;;
       if current_row_count >? last then
         for_each
           (Py.range (Z.max 2 (last + 1)) (current_row_count + 1))
           (fun row_index =>
              row_data <- lift (getitem all_rows (row_index - 1)) ;;
              process_submission row_data row_index) ;;
         set_last_processed_row current_row_count
       else ret tt)
    (fun error => print ("Error monitoring spreadsheet: " ++ error)).

(** [n] turns of the [while True] of [run_monitoring_loop], with the
    default sheet name; the sleep between two turns has no effect on the
    state. *)
Fixpoint monitoring_cycles (n : nat) (spreadsheet_id : string) : M unit :=
  match n with
  | O => ret tt
  | S n' =>
      monitor_spreadsheet spreadsheet_id "Responses" ;;
      monitoring_cycles n' spreadsheet_id
  end.

End Program.

(** ** The web service of [app.py]

    [EvidenceCollectionService] has the same extractor, translator and
    texts; it writes to a logger instead of printing, its two delivery
    methods return a success flag, and [process_submission] takes an
    extracted submission and returns a result. *)

Module App.

(** The dictionary returned by [process_submission]. *)
Inductive result : Type :=
| Success (entry_number : Z) (docs_added discord_sent : bool)
          (structured_data : StructuredRecord)
| Failure (error : string).

Definition log (level line : string) : M unit := emit (Log level line).

Section Service.

Variable env : Env.

Definition translate_text (text source_lang target_lang : string)
  : M string :=
  if Py.blank text then ret text
  else
    try_except
      (result <- translations_list env source_lang target_lang text ;;
       match translations result with
       | Some (first :: _) =>
           match first with
           | Some translatedText => ret translatedText
           | None => raise "'translatedText'"
           end
       | Some [] => ret text
       | None => ret text
       end)
      (fun error =>
         log "ERROR" ("Translation error: " ++ error) ;; ret text).

(** The body of the [try] of [extract_submission_data]. *)
Definition extract_body (row_data : list string)
  : M (option Submission) :=
  if Py.len row_data <? 11 then
    log "WARNING"
        ("Insufficient data in row: " ++ Py.str_of_int (Py.len row_data)
         ++ " columns") ;;
    ret None
  else
    f3 <- lift (getitem row_data 3) ;;
    f4 <- lift (getitem row_data 4) ;;
    f0 <- lift (getitem row_data 0) ;;
    f1 <- lift (getitem row_data 1) ;;
    f2 <- lift (getitem row_data 2) ;;
    f5 <- lift (getitem row_data 5) ;;
    f6 <- lift (getitem row_data 6) ;;
    f7 <- lift (getitem row_data 7) ;;
    f8 <- lift (getitem row_data 8) ;;
    f9 <- lift (getitem row_data 9) ;;
    f10 <- lift (getitem row_data 10) ;;
    ret (Some (mkSubmission f0 f1 f2 (parse_tags f3) (parse_tags f4)
                            f5 f6 f7 f8 f9 f10)).

Definition extract_submission_data (row_data : list string)
  : M (option Submission) :=
  try_except
    (extract_body row_data)
    (fun error =>
       log "ERROR" ("Error extracting submission data: " ++ error) ;;
       ret None).

Definition add_to_docs (entry_number : Z) (data : Submission) : M bool :=
  try_except
    (let original_quote := quote data in
     translated_quote <- translate_text original_quote "ja" "en" ;;
     let title_content := title_line entry_number data in
     let tags_content := docs_tags_content data in
     let table_content :=
       docs_table_content entry_number data
                          original_quote translated_quote in
     log "INFO" ("Formatted content for Google Docs: " ++ title data) ;;
     ret true)
    (fun error =>
       log "ERROR" ("Error adding to docs: " ++ error) ;; ret false).

(** [discord_webhook_url] comes from the process environment: it may be
    missing, which counts as empty here, the test [not url] being true of
    both. *)
Definition send_discord_notification (entry_number : Z)
           (data : Submission) : M bool :=
  try_except
    (if negb (Py.truthy (discord_webhook_url env)) then
       log "WARNING" "Discord webhook URL not configured" ;; ret false
     else
       let original_quote := quote data in
       translated_quote <- translate_text original_quote "ja" "en" ;;
       status_code <-
         post_webhook env (discord_payload_content entry_number data
                             original_quote translated_quote) ;;
       if status_code =? 204 then
         log "INFO" ("Discord notification sent successfully for: "
                     ++ title data) ;;
         ret true
       else
         log "ERROR" ("Discord notification failed: "
                      ++ Py.str_of_int status_code) ;;
         ret false)
    (fun error =>
       log "ERROR" ("Error sending Discord notification: " ++ error) ;;
       ret false).

Definition prepare_structured_data (data : Submission) (entry_number : Z)
  : M StructuredRecord :=
  translated_title <- translate_text (title data) "ja" "en" ;;
  translated_quote <- translate_text (quote data) "ja" "en" ;;
  processed_at <- now_isoformat env ;;
  ret (mkStructuredRecord
         ("entry_" ++ Py.str_of_int entry_number)
         (timestamp data)
         (submitter data)
         (title data) translated_title
         (quote data) translated_quote
         (aff_tags data) (neg_tags data)
         (source_url data) (update_date data) (eng_source data)
         (attachment data) (remark data) processed_at).

Definition process_submission (submission_data : Submission)
           (entry_number : Z) : M result :=
  try_except
    (docs_result <- add_to_docs entry_number submission_data ;;
     discord_result <-
       send_discord_notification entry_number submission_data ;;
     structured_entry <-
       prepare_structured_data submission_data entry_number ;;
     append_structured_data structured_entry ;;
     ret (Success entry_number docs_result discord_result
                  structured_entry))
    (fun error =>
       log "ERROR" ("Error processing submission: " ++ error) ;;
       ret (Failure error)).

End Service.

End App.

(** ** Reading traces *)

(** The values taken by [formatted_content], in order. *)
Definition docs_of (tr : list event) : list FormattedContent :=
  flat_map (fun e => match e with DocsContent fc => [fc] | _ => [] end) tr.

(** The webhook posts, as pairs of the address and the message. *)
Definition posts_of (tr : list event) : list (string * string) :=
  flat_map (fun e => match e with HttpPost u c => [(u, c)] | _ => [] end) tr.

(** The calls of [process_submission], as pairs of the row number and the
    row, in order. *)
Definition handled_of (tr : list event) : list (Z * list string) :=
  flat_map (fun e => match e with Processing n row => [(n, row)] | _ => [] end)
           tr.

(** The row numbers [process_submission] was called with, in order. *)
Definition processed_of (tr : list event) : list Z :=
  map fst (handled_of tr).

(** The texts sent to the translation service. *)
Definition translated_of (tr : list event) : list string :=
  flat_map (fun e => match e with TranslateCall _ _ q => [q] | _ => [] end) tr.

(** A piece of trace with neither a document entry, nor a post, nor a call
    of [process_submission]. *)
Definition quiet (tr : list event) : Prop :=
  docs_of tr = [] /\ posts_of tr = [] /\ handled_of tr = [].

(** What was added to the trace between two states. *)
Definition new_events (st st' : state) : list event :=
  skipn (length (trace st)) (trace st').

(** The state reached from [st] by appending [recs] to the accumulator,
    making [k] requests and doing [tr]. *)
Definition advance (st : state) (recs : list StructuredRecord) (k : nat)
           (tr : list event) : state :=
  mkState (last_processed_row st) (structured_data st ++ recs)
          (calls st + k) (trace st ++ tr).

(** The answers of the translation service after which [translate_text]
    falls back on the text it was given: the request raised, or the answer
    has no ['translations'], or an empty one. *)
Definition provider_failed (answer : outcome translate_result) : Prop :=
  match answer with
  | Raise _ => True
  | Ret result =>
      match translations result with
      | None => True
      | Some [] => True
      | Some (_ :: _) => False
      end
  end.

(** All the strings of a list, one after the other. *)
Definition flatten (pieces : list string) : string :=
  fold_right append EmptyString pieces.

(** The group of tags as the notification shows it, after the spec: the
    marker, then every tag with [#] before it and a blank after it. *)
Definition notification_group (marker : string) (tags : list string) : string :=
  marker ++ flatten (map (fun tag => "#" ++ tag ++ " ") tags).

(** The group of tags as the document entry shows it: a blank and the
    marker, then every tag with a blank and [#] before it. *)
Definition document_group (marker : string) (tags : list string) : string :=
  " " ++ marker ++ flatten (map (fun tag => " #" ++ tag) tags).

(** The tags of a submission as the notification shows them: the groups
    that show, with a line feed between them when both do. *)
Definition notification_tags (data : Submission) : string :=
  (if tags_present (aff_tags data)
   then notification_group "[AFF]" (aff_tags data) else EmptyString)
  ++ (if tags_present (aff_tags data) && tags_present (neg_tags data)
      then Py.LF else EmptyString)
  ++ (if tags_present (neg_tags data)
      then notification_group "[NEG]" (neg_tags data) else EmptyString).

(** The tag line of a submission in the document entry: the submitter, then
    the groups that show, with nothing between them. *)
Definition document_tags (data : Submission) : string :=
  "#" ++ submitter data
  ++ (if tags_present (aff_tags data)
      then document_group "[AFF]" (aff_tags data) else EmptyString)
  ++ (if tags_present (neg_tags data)
      then document_group "[NEG]" (neg_tags data) else EmptyString).

(** The field of a row at a position, the empty string past the end. *)
Definition field (row_data : list string) (i : nat) : string :=
  nth i row_data EmptyString.

(** The submission the spec describes for a row: its fields taken by
    position, the two tag fields split. *)
Definition positional_submission (row_data : list string) : Submission :=
  mkSubmission (field row_data 0) (field row_data 1) (field row_data 2)
               (parse_tags (field row_data 3)) (parse_tags (field row_data 4))
               (field row_data 5) (field row_data 6) (field row_data 7)
               (field row_data 8) (field row_data 9) (field row_data 10).

(** Whether a string starts with a blank. *)
Definition starts_with_space (s : string) : bool :=
  match s with
  | EmptyString => false
  | String c _ => (c =? " ")%char
  end.

(** [sep in s]: the two-character separator occurs in the string. *)
Fixpoint has_comma_space (s : string) : bool :=
  match s with
  | EmptyString => false
  | String c rest =>
      match rest with
      | String d _ => ((c =? ",")%char && (d =? " ")%char) || has_comma_space rest
      | EmptyString => false
      end
  end.

(** Whether a string has a line feed in it. *)
Fixpoint has_line_feed (s : string) : bool :=
  match s with
  | EmptyString => false
  | String c rest => (c =? "010")%char || has_line_feed rest
  end.

(** The string [s] starts with [p]. *)
Definition starts_with (p s : string) : Prop := exists rest, s = p ++ rest.

(** Strictly increasing lists of row numbers. *)
Definition increasing (l : list Z) : Prop := StronglySorted Z.lt l.

(** The row of the sheet with a 1-based number, the empty row when there is
    none. *)
Definition row_at (all_rows : list (list string)) (row_index : Z)
  : list string :=
  nth (Z.to_nat (row_index - 1)) all_rows [].

(** The rows of the sheet that have their eleven fields. *)
Definition extractable (all_rows : list (list string)) (row_index : Z) : bool :=
  11 <=? Py.len (row_at all_rows row_index).

(** The export id the spec gives to a sequence number. *)
Definition entry_id (n : Z) : string := "entry_" ++ Py.str_of_int n.

(** An environment whose translation service answers the first request with
    one text and every later one with another; the webhook accepts. *)
Definition two_answers_env : Env :=
  mkEnv "https://discord.example/hook"
        (fun _ _ _ => Ret [])
        (fun n _ _ _ =>
           match n with
           | O => Ret (mkTranslateResult (Some [Some "first answer"]))
           | S _ => Ret (mkTranslateResult (Some [Some "second answer"]))
           end)
        (fun _ _ _ => Ret 204)
        (fun _ => "2024-01-01T00:00:00").

(** An environment in which every service fails: the translation service
    and the webhook raise. *)
Definition failing_env : Env :=
  mkEnv "https://discord.example/hook"
        (fun _ _ _ => Raise "sheets unavailable")
        (fun _ _ _ _ => Raise "translate unavailable")
        (fun _ _ _ => Raise "connection refused")
        (fun _ => "2024-01-01T00:00:00").

(** The row of scenario A of the spec. *)
Definition row_A : list string :=
  ["2024-01-01"; "Alice"; "Title1"; "t1, t2"; EmptyString; "http://x";
   "2024-01-01"; "Src"; "原文"; EmptyString; "備考"].

(** One number for display and for the export id: after [process_submission]
    on a row, some [n] starts the title of the document entry and the
    notification, and is the number in the id of the appended record. *)
Definition one_number_for_display_and_id
           (env : Env) (row_data : list string) (row_number : Z) (st : state)
  : Prop :=
  let st' := snd (process_submission env row_data row_number st) in
  exists n fc url content r,
    docs_of (new_events st st') = [fc]
    /\ starts_with (Py.str_of_int n ++ ". ") (fc_title fc)
    /\ posts_of (new_events st st') = [(url, content)]
    /\ starts_with (Py.str_of_int n ++ ". ") content
    /\ structured_data st' = (structured_data st ++ [r])%list
    /\ sr_id r = entry_id n.

(** Formatting without translation of its own: from any two states the two
    operations produce the same texts for the same entry number and
    submission, and the document operation sends nothing to the translation
    service. *)
Definition formatting_is_pure
           (env : Env) (entry_number : Z) (data : Submission) : Prop :=
  forall st1 st2,
    docs_of (new_events st1 (snd (add_to_docs env entry_number data st1)))
    = docs_of (new_events st2 (snd (add_to_docs env entry_number data st2)))
    /\ posts_of (new_events st1 (snd (send_discord_notification
                                        env entry_number data st1)))
       = posts_of (new_events st2 (snd (send_discord_notification
                                          env entry_number data st2)))
    /\ translated_of
         (new_events st1 (snd (add_to_docs env entry_number data st1)))
       = [].

(** A state in which one request, and one in which two requests, were made
    to the services. *)
Definition after_one_request : state := mkState 0 [] 1 [].
Definition after_two_requests : state := mkState 0 [] 2 [].

(** A submission with one tag on each side. *)
Definition data_both : Submission :=
  mkSubmission "2024-01-03" "Alice" "Title3" ["a"]%string ["b"]%string
               "http://z" "2024-01-03" "Src3" "引用" EmptyString EmptyString.

(** A row with nine fields. *)
Definition row_short : list string :=
  ["2024-01-02"; "Bob"; "Title2"; "t3"; EmptyString; "http://y";
   "2024-01-02"; "Src2"; "短い"].

(** A sheet with its header, the row of scenario A and a row of nine
    fields, and an environment that serves it; its translation service and
    its webhook fail. *)
Definition sheet_rows : list (list string) :=
  [["Timestamp"; "Name"]; row_A; row_short].

Definition sheet_env : Env :=
  mkEnv "https://discord.example/hook"
        (fun _ _ _ => Ret sheet_rows)
        (fun _ _ _ _ => Raise "translate unavailable")
        (fun _ _ _ => Ret 500)
        (fun _ => "2024-01-01T00:00:00").

(** Both deliveries attempted by the web service for a submission: the
    document step has prepared its entry and the notification step has
    posted a message. *)
Definition both_deliveries_attempted
           (env : Env) (data : Submission) (entry_number : Z) (s : state)
  : Prop :=
  let s' := snd (App.process_submission env data entry_number s) in
  In (Log "INFO" ("Formatted content for Google Docs: " ++ title data))
     (new_events s s')
  /\ posts_of (new_events s s') <> []%list.

(** A web service started without a webhook address; its other services
    work. *)
Definition no_webhook_env : Env :=
  mkEnv EmptyString
        (fun _ _ _ => Ret sheet_rows)
        (fun _ _ _ _ => Ret (mkTranslateResult (Some [Some "a quote"])))
        (fun _ _ _ => Ret 204)
        (fun _ => "2024-01-01T00:00:00").

(** A sheet that grows: the first request finds the header and the row of
    scenario A, every later one finds two more rows after them. *)
Definition first_rows : list (list string) := [["Timestamp"; "Name"]; row_A].

Definition added_rows : list (list string) := [row_short; row_A].

Definition growing_env : Env :=
  mkEnv "https://discord.example/hook"
        (fun n _ _ =>
           match n with
           | O => Ret first_rows
           | S _ => Ret (first_rows ++ added_rows)%list
           end)
        (fun _ _ _ _ => Raise "translate unavailable")
        (fun _ _ _ => Ret 204)
        (fun _ => "2024-01-01T00:00:00").

(** ** More of Python: slices and characters *)

Module PyText.

(** [l[start:]]: a negative start counts from the end, and a start outside
    the list is brought back to its nearest end. *)
Definition slice_from {A : Type} (l : list A) (start : Z) : list A :=
  let start :=
    if start <? 0 then Z.max (start + Py.len l) 0
    else Z.min start (Py.len l) in
  skipn (Z.to_nat start) l.

(** The bytes 10xxxxxx, which continue a character of a UTF-8 text. *)
Definition continuation (c : ascii) : bool :=
  ((128 <=? N_of_ascii c) && (N_of_ascii c <? 192))%N.

(** [len(s)] for a text: the number of its characters, each one byte that is
    not a continuation followed by its continuations. *)
Fixpoint char_len (s : string) : Z :=
  match s with
  | EmptyString => 0
  | String c rest =>
      if continuation c then char_len rest else 1 + char_len rest
  end.

(** [s[:n]] for a text and [n] at least 0: its first [n] characters. *)
Fixpoint take_chars (n : nat) (s : string) : string :=
  match s with
  | EmptyString => EmptyString
  | String c rest =>
      if continuation c then String c (take_chars n rest)
      else
        match n with
        | O => EmptyString
        | S n' => String c (take_chars n' rest)
        end
  end.

End PyText.

(** ** The rest of the web service of [app.py] *)

Module Web.

(** A submission dictionary with the key ['row_number'] that
    [get_latest_submissions] adds to it. *)
Record Latest := mkLatest {
  latest_data : Submission;
  latest_row_number : Z
}.

(** The body of a request to the form webhook, for the payloads of Google
    Forms.  [InvalidBody] is a body on which [get_json] or the test
    ['namedValues' in data] raises (no JSON, [null], a number), with the
    error.  [JsonObject None] is an object without the key ['namedValues'].
    [JsonObject (Some named_values)] is an object whose ['namedValues'] is
    a dictionary from question titles to lists of strings, the format in
    which the forms send their answers; it is kept as its lookup.  Other
    JSON values (a list as body, an answer that is not a list of strings)
    have no counterpart in this type, and nothing is stated about them. *)
Inductive webhook_body : Type :=
| InvalidBody (error : string)
| JsonObject (namedValues : option (string -> option (list string))).

(** What a route answers: the JSON of a batch, the JSON of one result, or
    an error with its status. *)
Inductive response : Type :=
| BatchDone (processed : Z) (results : list App.result) (timestamp : string)
| Processed (result : App.result)
| ErrorResponse (status : Z) (error : string).

Section Service.

Variable env : Env.

(** [self.spreadsheet_id]. *)
Variable spreadsheet_id : string.

(** The loop of [get_latest_submissions] over [enumerate(latest_rows,
    start=i)], with the list built so far. *)
Fixpoint collect_latest (latest_rows : list (list string)) (i : Z)
         (submissions : list Latest) : M (list Latest) :=
  match latest_rows with
  | [] => ret submissions
  | row_data :: rest =>
      submission <- App.extract_submission_data row_data ;;
      match submission with
      | Some data =>
          collect_latest rest (i + 1) (submissions ++ [mkLatest data i])%list
      | None => collect_latest rest (i + 1) submissions
      end
  end.

Definition get_latest_submissions (limit : Z) : M (list Latest) :=
  try_except
    (all_rows <- get_all_values env spreadsheet_id "Responses" ;;
     if Py.len all_rows <=? 1 then ret []
     else
       let latest_rows :=
         if Py.len all_rows >? limit
         then PyText.slice_from all_rows (- limit)
         else PyText.slice_from all_rows 1 in
       collect_latest latest_rows
                      (Py.len all_rows - Py.len latest_rows + 1) [])
    (fun error =>
       App.log "ERROR" ("Error getting latest submissions: " ++ error) ;;
       ret []).

(** The loop of [batch_process_submissions], with the results so far. *)
Fixpoint process_all (submissions : list Latest) (results : list App.result)
  : M (list App.result) :=
  match submissions with
  | [] => ret results
  | submission :: rest =>
      result <- App.process_submission env (latest_data submission)
                                       (latest_row_number submission) ;;
      process_all rest (results ++ [result])%list
  end.

(** The route [/api/submissions/batch-process]; the argument tells whether
    the global [evidence_service] was built. *)
Definition batch_process_submissions (service_initialized : bool)
  : M response :=
  if negb service_initialized
  then ret (ErrorResponse 500 "Service not initialized")
  else
    try_except
      (submissions <- get_latest_submissions 10 ;;
       results <- process_all submissions [] ;;
       timestamp <- now_isoformat env ;;
       ret (BatchDone (Py.len results) results timestamp))
      (fun error =>
         App.log "ERROR" ("Error in batch_process_submissions: " ++ error) ;;
         ret (ErrorResponse 500 error)).

(** [named_values.get(key, [''])[0]]. *)
Definition first_answer (named_values : string -> option (list string))
           (key : string) : outcome string :=
  getitem (match named_values key with
           | Some answers => answers
           | None => [EmptyString]
           end) 0.

(** The route [/api/webhook/form-submit]. *)
Definition form_submit_webhook (service_initialized : bool)
           (body : webhook_body) : M response :=
  if negb service_initialized
  then ret (ErrorResponse 500 "Service not initialized")
  else
    try_except
      (match body with
       | InvalidBody error => raise error
       | JsonObject None =>
           ret (ErrorResponse 400 "Invalid webhook data format")
       | JsonObject (Some named_values) =>
           f0 <- lift (first_answer named_values "タイムスタンプ") ;;
           f1 <- lift (first_answer named_values "名前") ;;
           f2 <- lift (first_answer named_values "title") ;;
           f3 <- lift (first_answer named_values "AFF tags") ;;
           f4 <- lift (first_answer named_values "NEG tags") ;;
           f5 <- lift (first_answer named_values "URL of the Quotation") ;;
           f6 <- lift (first_answer named_values
                         "The source, Update date, and Time(引用元・更新日時)") ;;
           f7 <- lift (first_answer named_values "Eng Source") ;;
           f8 <- lift (first_answer named_values "Quoted text(引用本文)") ;;
           f9 <- lift (first_answer named_values "Attachments(添付ファイル)") ;;
           f10 <- lift (first_answer named_values "Remarks(備考)") ;;
           let row_data := [f0; f1; f2; f3; f4; f5; f6; f7; f8; f9; f10] in
           submission_data <- App.extract_submission_data row_data ;;
           match submission_data with
           | Some data =>
               result <- App.process_submission env data 1 ;;
               ret (Processed result)
           | None =>
               ret (ErrorResponse 400 "Failed to extract submission data")
           end
       end)
      (fun error =>
         App.log "ERROR" ("Error in form_submit_webhook: " ++ error) ;;
         ret (ErrorResponse 500 error)).

End Service.

End Web.

(** ** Reading the latest submissions *)

(** The submission of a row of the sheet with its row number, when the row
    has its eleven fields. *)
Definition latest_at (all_rows : list (list string)) (i : Z)
  : list Web.Latest :=
  if extractable all_rows i
  then [Web.mkLatest (positional_submission (row_at all_rows i)) i]
  else [].

(** The submissions of the rows numbered [lo] to the last, in order. *)
Definition latest_between (all_rows : list (list string)) (lo : Z)
  : list Web.Latest :=
  flat_map (latest_at all_rows) (Py.range lo (Py.len all_rows + 1)).

(** The number of the first row that a limit lets through. *)
Definition window_start (all_rows : list (list string)) (limit : Z) : Z :=
  if limit <=? 0 then Z.min (- limit) (Py.len all_rows) + 1
  else Z.max 2 (Py.len all_rows - limit + 1).

(** A piece of trace with nothing but output lines in it. *)
Definition only_logs (tr : list event) : Prop :=
  quiet tr /\ translated_of tr = []%list.

(** The question titles the form webhook looks up, in the order of the
    fields of a row. *)
Definition webhook_keys : list string :=
  ["タイムスタンプ"; "名前"; "title"; "AFF tags"; "NEG tags";
   "URL of the Quotation";
   "The source, Update date, and Time(引用元・更新日時)";
   "Eng Source"; "Quoted text(引用本文)"; "Attachments(添付ファイル)";
   "Remarks(備考)"].

(** The first answer to a question, the empty string when the question is
    missing. *)
Definition answer (named_values : string -> option (list string))
           (key : string) : string :=
  match named_values key with
  | Some (first :: _) => first
  | Some [] => EmptyString
  | None => EmptyString
  end.

(** A question that is there with an empty list of answers. *)
Definition no_answer (named_values : string -> option (list string))
           (key : string) : bool :=
  match named_values key with
  | Some [] => true
  | Some (_ :: _) => false
  | None => false
  end.

(** The answers of a form that has a name, a title, one tag and a quote. *)
Definition sample_form (key : string) : option (list string) :=
  if (key =? "名前")%string then Some ["Alice"]
  else if (key =? "title")%string then Some ["Title1"]
  else if (key =? "AFF tags")%string then Some ["t1, t2"]
  else if (key =? "Quoted text(引用本文)")%string then Some ["原文"]
  else None.

(** The same form with an empty list of answers for the title. *)
Definition broken_form (key : string) : option (list string) :=
  if (key =? "title")%string then Some [] else sample_form key.

(** A sheet whose header has eleven columns, followed by the row of
    scenario A, and an environment that serves it. *)
Definition wide_header : list string :=
  ["Timestamp"; "Name"; "Title"; "AFF"; "NEG"; "URL"; "Date"; "Source";
   "Quote"; "Attachment"; "Remark"].

Definition wide_rows : list (list string) := [wide_header; row_A].

Definition wide_env : Env :=
  mkEnv "https://discord.example/hook"
        (fun _ _ _ => Ret wide_rows)
        (fun _ _ _ _ => Raise "translate unavailable")
        (fun _ _ _ => Ret 204)
        (fun _ => "2024-01-01T00:00:00").

(** What [translate_text] sends to the translation service for a text:
    the text itself, or nothing when the text is blank. *)
Definition requests_of (text : string) : list string :=
  if Py.blank text then [] else [text].

(** A translation service that raises on every request. *)
Definition translation_down (env : Env) : Prop :=
  forall n source target q,
    exists e, translate_service env n source target q = Raise e.

(** ** The chat bot of [bot.py] *)

Module Bot.

(** A field of an embed, as [add_field] is given it. *)
Record EmbedField := mkField {
  field_name : string;
  field_value : string;
  field_inline : bool
}.

(** A [discord.Embed]. *)
Record Embed := mkEmbed {
  embed_title : string;
  embed_description : string;
  embed_color : Z;
  embed_timestamp : string;
  embed_fields : list EmbedField
}.

(** What the bot asks the channel to do: send an embed, send a text, or
    show the typing indicator. *)
Inductive outgoing : Type :=
| SendEmbed (embed : Embed)
| SendText (content : string)
| Typing.

(** The state of the service together with what the channel was asked, in
    order, accepted or not. *)
Record bot_state := mkBotState {
  core : state;
  outbox : list outgoing
}.

Definition B (A : Type) : Type := bot_state -> outcome A * bot_state.

Definition bret {A : Type} (a : A) : B A := fun bs => (Ret a, bs).

Definition bbind {A B' : Type} (m : B A) (k : A -> B B') : B B' :=
  fun bs =>
    match m bs with
    | (Ret a, bs') => k a bs'
    | (Raise e, bs') => (Raise e, bs')
    end.

Definition btry {A : Type} (body : B A) (handler : exn -> B A) : B A :=
  fun bs =>
    match body bs with
    | (Ret a, bs') => (Ret a, bs')
    | (Raise e, bs') => handler e bs'
    end.

(** A method of the service, run inside the bot. *)
Definition blift {A : Type} (m : M A) : B A :=
  fun bs =>
    match m (core bs) with
    | (o, st') => (o, mkBotState st' (outbox bs))
    end.

Declare Scope bot_scope.
Delimit Scope bot_scope with bot.
Notation "x <- m ;; k" := (bbind m (fun x => k))
  (at level 61, m at next level, right associativity) : bot_scope.
Notation "m ;; k" := (bbind m (fun _ => k))
  (at level 61, right associativity) : bot_scope.

Section Commands.

Variable env : Env.

(** Whether [self.credentials] was set when the bot was built. *)
Variable credentials : bool.

(** [self.spreadsheet_id]. *)
Variable spreadsheet_id : string.

(** The channel: its answer to a request may depend on the number of
    requests made before. *)
Variable channel_send : nat -> outgoing -> outcome unit.

(** [await channel.send(...)], [await ctx.send(...)] and the entry of
    [ctx.typing()]. *)
Definition send (x : outgoing) : B unit :=
  fun bs =>
    (channel_send (calls (core bs)) x,
     mkBotState
       (mkState (last_processed_row (core bs)) (structured_data (core bs))
                (S (calls (core bs))) (trace (core bs)))
       (outbox bs ++ [x])%list).

Definition translate_text (text source_lang target_lang : string)
  : M string :=
  if Py.blank text || negb credentials then ret text
  else
    try_except
      (result <- translations_list env source_lang target_lang text ;;
       match translations result with
       | Some (first :: _) =>
           match first with
           | Some translatedText => ret translatedText
           | None => raise "'translatedText'"
           end
       | Some [] => ret text
       | None => ret text
       end)
      (fun error =>
         App.log "ERROR" ("Translation error: " ++ error) ;; ret text).

(** The [try] of this method and the extractor it calls are those of the
    web service, line for line. *)
Definition get_latest_submissions (limit : Z) : M (list Web.Latest) :=
  if negb credentials then ret []
  else Web.get_latest_submissions env spreadsheet_id limit.

(** [tags_text] of [process_evidence_notification]. *)
Definition tags_text (data : Submission) : string :=
  let tags_text := EmptyString in
  let tags_text :=
    if tags_present (aff_tags data) then
      fold_left (fun acc tag => acc ++ "#" ++ tag ++ " ") (aff_tags data)
                (tags_text ++ "[AFF] ")
    else tags_text in
  let tags_text :=
    if tags_present (aff_tags data) && tags_present (neg_tags data)
    then tags_text ++ Py.LF
    else tags_text in
  let tags_text :=
    if tags_present (neg_tags data) then
      fold_left (fun acc tag => acc ++ "#" ++ tag ++ " ") (neg_tags data)
                (tags_text ++ "[NEG] ")
    else tags_text in
  tags_text.

(** The value of a quote field: the first 1000 characters of the text
    between code fences, with three dots when the text is longer. *)
Definition quote_block (text : string) : string :=
  "```" ++ PyText.take_chars 1000 text
    ++ (if PyText.char_len text >? 1000 then "..." else EmptyString)
    ++ "```".

(** The fields added to the embed, in order. *)
Definition build_fields (data : Submission)
           (original_quote translated_quote : string) : list EmbedField :=
  let fields := []%list in
  let fields :=
    if Py.truthy (tags_text data)
    then (fields ++ [mkField "Tags" (tags_text data) false])%list
    else fields in
  let fields :=
    if Py.truthy original_quote
    then (fields ++ [mkField "Original Quote (Japanese)"
                             (quote_block original_quote) false])%list
    else fields in
  let fields :=
    if Py.truthy translated_quote
       && negb (translated_quote =? original_quote)%string
    then (fields ++ [mkField "English Translation"
                             (quote_block translated_quote) false])%list
    else fields in
  let fields :=
    (fields ++ [mkField "Source" (eng_source data) true])%list in
  let fields :=
    (fields ++ [mkField "Update Date" (update_date data) true])%list in
  let fields :=
    if Py.truthy (source_url data)
    then (fields ++ [mkField "URL" (source_url data) false])%list
    else fields in
  let fields :=
    if Py.truthy (attachment data)
    then (fields ++ [mkField "Attachments" (attachment data) false])%list
    else fields in
  let fields :=
    if Py.truthy (remark data)
    then (fields ++ [mkField "Remarks" ("‚Äª" ++ remark data) false])%list
    else fields in
  fields.

(** [datetime.now()]. *)
Definition now : M string := request (fun n => Ret (datetime_now env n)).

Definition process_evidence_notification (entry_number : Z)
           (data : Submission) : B unit :=
  btry
    ((let original_quote := quote data in
      translated_quote <-
        blift (translate_text original_quote "ja" "en") ;;
      timestamp <- blift now ;;
      send (SendEmbed
              (mkEmbed
                 (Py.str_of_int entry_number ++ ". " ++ title data)
                 ("**Submitter:** " ++ submitter data)
                 65280
                 timestamp
                 (build_fields data original_quote translated_quote))))%bot)
    (fun error =>
       (blift (App.log "ERROR"
                       ("Error sending evidence notification: " ++ error)) ;;
        send (SendText ("Error processing evidence notification: "
                        ++ error)))%bot).

(** The loop of the command [!latest]. *)
Fixpoint notify_all (submissions : list Web.Latest) : B unit :=
  match submissions with
  | [] => bret tt
  | submission :: rest =>
      (process_evidence_notification (Web.latest_row_number submission)
                                     (Web.latest_data submission) ;;
       notify_all rest)%bot
  end.

(** The command [!latest]; of [ctx.typing()] only the request made on
    entry is kept. *)
Definition get_latest_evidence (limit : Z) : B unit :=
  let limit := if limit >? 10 then 10 else limit in
  (send Typing ;;
   submissions <- blift (get_latest_submissions limit) ;;
   match submissions with
   | [] =>
       send (SendText
               "No submissions found or Google Sheets access not configured.")
   | _ :: _ => notify_all submissions
   end)%bot.

End Commands.

End Bot.

(** The title of the embed of a submission read from the sheet. *)
Definition latest_title (s : Web.Latest) : string :=
  Py.str_of_int (Web.latest_row_number s) ++ ". "
    ++ title (Web.latest_data s).

(** A channel that accepts every request. *)
Definition accepting (channel_send : nat -> Bot.outgoing -> outcome unit)
  : Prop :=
  forall k x, channel_send k x = Ret tt.

(** A channel that accepts everything, one that refuses everything, and a
    bot about to run on the sheet of [wide_env]. *)
Definition open_channel (k : nat) (x : Bot.outgoing) : outcome unit := Ret tt.

Definition closed_channel (k : nat) (x : Bot.outgoing) : outcome unit :=
  Raise "Missing Permissions".

Definition fresh_bot : Bot.bot_state := Bot.mkBotState init [].

(** A text as a quote field shows it: whole between code fences when it
    has at most 1000 characters, and otherwise its first 1000 characters
    followed by three dots, between code fences. *)
Definition shown_quote (text : string) : string :=
  if PyText.char_len text <=? 1000 then "```" ++ text ++ "```"
  else "```" ++ PyText.take_chars 1000 text ++ "..." ++ "```".

(** The values of the fields of an embed that have a given name. *)
Definition values_named (name : string) (embed : Bot.Embed) : list string :=
  map Bot.field_value
      (filter (fun f => (Bot.field_name f =? name)%string)
              (Bot.embed_fields embed)).

(** A quote of 1001 characters, of three bytes each. *)
Definition long_quote : string :=
  flatten (repeat "引" 1001).

Definition data_long : Submission :=
  mkSubmission "2024-01-04" "Carol" "Title4" []%list []%list
               "http://w" "2024-01-04" "Src4" long_quote
               EmptyString EmptyString.

(** * Properties *)

Local Open Scope list_scope.

(** ** Lists, strings and traces *)

Lemma string_app_assoc (s1 s2 s3 : string) :
  ((s1 ++ s2) ++ s3 = s1 ++ (s2 ++ s3))%string.
Proof.
  induction s1 as [|c s1 IH]; cbn [append]; [reflexivity |].
  rewrite IH. reflexivity.
Qed.

Lemma string_app_nil_r (s : string) : (s ++ EmptyString)%string = s.
Proof.
  induction s as [|c s IH]; cbn [append]; [reflexivity |].
  rewrite IH. reflexivity.
Qed.

(** The loop [for tag in tags: text += f(tag)]. *)
Lemma fold_left_append (f : string -> string) (tags : list string)
      (text : string) :
  fold_left (fun acc tag => (acc ++ f tag)%string) tags text
  = (text ++ flatten (map f tags))%string.
Proof.
  revert text. induction tags as [|tag tags IH]; intros text; cbn.
  - rewrite string_app_nil_r. reflexivity.
  - rewrite IH, string_app_assoc. reflexivity.
Qed.

Lemma str_of_int_inj (a b : Z) :
  Py.str_of_int a = Py.str_of_int b -> a = b.
Proof.
  assert (back : forall z,
             NilZero.int_of_string (Py.str_of_int z) = Some (Z.to_int z)).
  { intros z. unfold Py.str_of_int. apply NilZero.isi.
    - destruct z as [|q|q]; cbn; try discriminate.
      intros E. injection E as E. exact (Unsigned.to_uint_nonnil q E).
    - destruct z as [|q|q]; cbn; try discriminate.
      intros E. injection E as E. exact (Unsigned.to_uint_nonnil q E). }
  intros H. apply to_int_inj.
  pose proof (back a) as Ha. rewrite H, back in Ha. congruence.
Qed.

Lemma entry_id_inj (a b : Z) : entry_id a = entry_id b -> a = b.
Proof.
  unfold entry_id. cbn [append]. intros H. injection H as H.
  apply str_of_int_inj, H.
Qed.

(** Induction over a string that follows the cases of
    [Py.split_comma_space]. *)
Lemma split_two_steps (P : string -> Prop) :
  P EmptyString ->
  (forall c, P (String c EmptyString)) ->
  (forall c d rest,
      ((c =? ",") && (d =? " "))%char = true ->
      P rest -> P (String c (String d rest))) ->
  (forall c d rest,
      ((c =? ",") && (d =? " "))%char = false ->
      P (String d rest) -> P (String c (String d rest))) ->
  forall s, P s.
Proof.
  intros H0 H1 Hsep Hchar s.
  assert (H : P s /\ forall c, P (String c s)).
  { induction s as [|d s [IHs IHc]].
    - split; [exact H0 | exact H1].
    - split; [apply IHc |]. intros c.
      destruct ((c =? ",") && (d =? " "))%char eqn:E.
      + apply Hsep; assumption.
      + apply Hchar; [assumption | apply IHc]. }
  apply H.
Qed.

(** A split has a first piece; joining the pieces with the separator gives
    the string back; no piece holds the separator; the first piece starts
    with a blank only if the string does. *)
Lemma split_comma_space_spec s :
  exists piece more,
    Py.split_comma_space s = piece :: more
    /\ String.concat ", " (piece :: more) = s
    /\ Forall (fun p => has_comma_space p = false) (piece :: more)
    /\ (starts_with_space piece = true -> starts_with_space s = true).
Proof.
  induction s as [| c | c d rest E IH | c d rest E IH] using split_two_steps.
  - exists EmptyString, [].
    split; [reflexivity |]. split; [reflexivity |].
    split; [repeat constructor | discriminate].
  - exists (String c EmptyString), [].
    split; [reflexivity |]. split; [reflexivity |].
    split; [repeat constructor | trivial].
  - destruct IH as (piece & more & S & C & F & _).
    exists EmptyString, (piece :: more).
    cbn [Py.split_comma_space]. rewrite E, S.
    apply andb_true_iff in E. destruct E as [Ec Ed].
    apply Ascii.eqb_eq in Ec, Ed. subst c d.
    split; [reflexivity |]. split.
    + change (String.concat ", " (EmptyString :: piece :: more))
        with (", " ++ String.concat ", " (piece :: more))%string.
      rewrite C. reflexivity.
    + split; [constructor; [reflexivity | exact F] | discriminate].
  - destruct IH as (piece & more & S & C & F & B).
    exists (String c piece), more.
    change (Py.split_comma_space (String c (String d rest)))
      with (if ((c =? ",") && (d =? " "))%char
            then EmptyString :: Py.split_comma_space rest
            else Py.push c (Py.split_comma_space (String d rest))).
    rewrite E, S. cbn [Py.push].
    split; [reflexivity |]. split; [| split].
    + rewrite <- C. destruct more; reflexivity.
    + apply Forall_cons_iff in F. destruct F as [Fp Fm].
      constructor; [| exact Fm].
      cbn [has_comma_space]. destruct piece as [|e piece']; [reflexivity |].
      rewrite Fp, orb_false_r.
      destruct (c =? ",")%char eqn:Ec; [| reflexivity].
      cbn [andb] in *. cbn [starts_with_space] in B.
      destruct (e =? " ")%char eqn:Ee; [| reflexivity].
      specialize (B eq_refl). cbn in B. congruence.
    + cbn [starts_with_space]. tauto.
Qed.

Lemma field_firstn row_data i :
  (i < 11)%nat -> field (firstn 11 row_data) i = field row_data i.
Proof.
  intros Hi. unfold field. rewrite nth_firstn.
  destruct (i <? 11)%nat eqn:E; [reflexivity |].
  apply Nat.ltb_ge in E. lia.
Qed.

Lemma positional_submission_firstn row_data :
  positional_submission (firstn 11 row_data) = positional_submission row_data.
Proof.
  unfold positional_submission. rewrite !field_firstn by lia. reflexivity.
Qed.

Lemma docs_of_app tr1 tr2 : docs_of (tr1 ++ tr2) = docs_of tr1 ++ docs_of tr2.
Proof. apply flat_map_app. Qed.

Lemma posts_of_app tr1 tr2 : posts_of (tr1 ++ tr2) = posts_of tr1 ++ posts_of tr2.
Proof. apply flat_map_app. Qed.

Lemma handled_of_app tr1 tr2 :
  handled_of (tr1 ++ tr2) = handled_of tr1 ++ handled_of tr2.
Proof. apply flat_map_app. Qed.

Lemma processed_of_app tr1 tr2 :
  processed_of (tr1 ++ tr2) = processed_of tr1 ++ processed_of tr2.
Proof. unfold processed_of. rewrite handled_of_app. apply map_app. Qed.

(** The row numbers of a trace that handled the rows of a sheet. *)
Lemma processed_of_rows all_rows idxs tr :
  handled_of tr = map (fun i => (i, row_at all_rows i)) idxs ->
  processed_of tr = idxs.
Proof.
  intros H. unfold processed_of. rewrite H, map_map. cbn [fst].
  apply map_id.
Qed.

Lemma processed_of_quiet tr : quiet tr -> processed_of tr = [].
Proof. intros (_ & _ & H). unfold processed_of. rewrite H. reflexivity. Qed.

Lemma translated_of_app tr1 tr2 :
  translated_of (tr1 ++ tr2) = translated_of tr1 ++ translated_of tr2.
Proof. apply flat_map_app. Qed.

Lemma quiet_nil : quiet [].
Proof. repeat split. Qed.

Lemma quiet_app tr1 tr2 : quiet tr1 -> quiet tr2 -> quiet (tr1 ++ tr2).
Proof.
  intros (d1 & p1 & r1) (d2 & p2 & r2). unfold quiet.
  rewrite docs_of_app, posts_of_app, handled_of_app.
  rewrite d1, d2, p1, p2, r1, r2. repeat split.
Qed.

Lemma new_events_advance st recs k tr :
  new_events st (advance st recs k tr) = tr.
Proof.
  unfold new_events, advance. cbn [trace].
  rewrite skipn_app, skipn_all, Nat.sub_diag. reflexivity.
Qed.

Lemma new_events_app st st' tr :
  trace st' = trace st ++ tr -> new_events st st' = tr.
Proof.
  intros H. unfold new_events. rewrite H.
  rewrite skipn_app, skipn_all, Nat.sub_diag. reflexivity.
Qed.

Lemma new_events_mkState st l sd c tr :
  new_events st (mkState l sd c (trace st ++ tr)) = tr.
Proof. apply new_events_app. reflexivity. Qed.

Lemma increasing_app l1 l2 b :
  increasing l1 -> increasing l2 ->
  Forall (fun i => i <= b) l1 -> Forall (fun i => b < i) l2 ->
  increasing (l1 ++ l2).
Proof.
  unfold increasing. intros S1 S2 B1 B2.
  induction S1 as [|a l1 S1 IH F1]; [exact S2 |].
  apply Forall_cons_iff in B1. destruct B1 as [Ba B1].
  cbn [app]. constructor; [apply IH, B1 |].
  apply Forall_app. split; [exact F1 |].
  apply Forall_forall. intros x Hx.
  rewrite Forall_forall in B2. specialize (B2 x Hx). lia.
Qed.

Lemma increasing_NoDup l : increasing l -> NoDup l.
Proof.
  unfold increasing. induction 1 as [|a l S IH F]; constructor; [| exact IH].
  intros Hin. rewrite Forall_forall in F. specialize (F a Hin). lia.
Qed.

Lemma advance_nil st : advance st [] 0 [] = st.
Proof.
  destruct st as [l sd c tr]. unfold advance. cbn.
  rewrite !app_nil_r, Nat.add_0_r. reflexivity.
Qed.

Lemma advance_advance st recs1 k1 tr1 recs2 k2 tr2 :
  advance (advance st recs1 k1 tr1) recs2 k2 tr2
  = advance st (recs1 ++ recs2) (k1 + k2) (tr1 ++ tr2).
Proof.
  unfold advance. cbn. rewrite !app_assoc, Nat.add_assoc. reflexivity.
Qed.

Lemma last_processed_row_advance st recs k tr :
  last_processed_row (advance st recs k tr) = last_processed_row st.
Proof. reflexivity. Qed.

Lemma try_except_ret {A : Type} (body : M A) handler st a st' :
  body st = (Ret a, st') -> try_except body handler st = (Ret a, st').
Proof. intros H. unfold try_except. rewrite H. reflexivity. Qed.

Lemma emit_advance e st : emit e st = (Ret tt, advance st [] 0 [e]).
Proof.
  unfold emit, advance. rewrite app_nil_r, Nat.add_0_r. reflexivity.
Qed.

Lemma request_advance {A : Type} (answer : nat -> outcome A) st :
  request answer st = (answer (calls st), advance st [] 1 []).
Proof.
  unfold request, advance. rewrite !app_nil_r, Nat.add_1_r. reflexivity.
Qed.

Lemma append_structured_data_advance r st :
  append_structured_data r st = (Ret tt, advance st [r] 0 []).
Proof.
  unfold append_structured_data, advance.
  rewrite app_nil_r, Nat.add_0_r. reflexivity.
Qed.

(** ** One step at a time *)

Ltac run :=
  unfold bind, try_except, print, App.log, ret, raise, lift;
  repeat (first [ rewrite emit_advance
                | rewrite request_advance
                | rewrite append_structured_data_advance
                | rewrite advance_advance ];
          cbv beta iota).

Section Steps.

Variable env : Env.

Lemma getitem_field (row_data : list string) (i : nat) :
  (i < length row_data)%nat ->
  getitem row_data (Z.of_nat i) = Ret (field row_data i).
Proof.
  intros Hi. unfold getitem, field.
  destruct (Z.of_nat i <? 0) eqn:Hneg; [apply Z.ltb_lt in Hneg; lia |].
  rewrite Hneg, Nat2Z.id.
  rewrite (nth_error_nth' row_data EmptyString Hi). reflexivity.
Qed.

Lemma extract_body_short row_data st :
  Py.len row_data < 11 ->
  extract_body row_data st
  = (Ret None,
     advance st [] 0
             [Print ("Insufficient data in row: "
                     ++ Py.str_of_int (Py.len row_data) ++ " columns")]).
Proof.
  intros H. unfold extract_body.
  apply Z.ltb_lt in H. rewrite H. run. reflexivity.
Qed.

Lemma extract_body_long row_data st :
  11 <= Py.len row_data ->
  extract_body row_data st
  = (Ret (Some (positional_submission row_data)), st).
Proof.
  intros H. unfold extract_body.
  destruct (Py.len row_data <? 11) eqn:Hlt; [apply Z.ltb_lt in Hlt; lia |].
  unfold Py.len in H.
  unfold bind, lift, ret.
  change 3 with (Z.of_nat 3). change 4 with (Z.of_nat 4).
  change 0 with (Z.of_nat 0). change 1 with (Z.of_nat 1).
  change 2 with (Z.of_nat 2). change 5 with (Z.of_nat 5).
  change 6 with (Z.of_nat 6). change 7 with (Z.of_nat 7).
  change 8 with (Z.of_nat 8). change 9 with (Z.of_nat 9).
  change 10 with (Z.of_nat 10).
  rewrite !getitem_field by lia. reflexivity.
Qed.

Lemma extract_short row_data st :
  Py.len row_data < 11 ->
  extract_submission_data row_data st
  = (Ret None,
     advance st [] 0
             [Print ("Insufficient data in row: "
                     ++ Py.str_of_int (Py.len row_data) ++ " columns")]).
Proof.
  intros H. unfold extract_submission_data.
  apply try_except_ret, extract_body_short, H.
Qed.

Lemma extract_long row_data st :
  11 <= Py.len row_data ->
  extract_submission_data row_data st
  = (Ret (Some (positional_submission row_data)), st).
Proof.
  intros H. unfold extract_submission_data.
  apply try_except_ret, extract_body_long, H.
Qed.

Lemma translate_text_returns text s t st :
  exists r k tr,
    translate_text env text s t st = (Ret r, advance st [] k tr)
    /\ quiet tr.
Proof.
  unfold translate_text. destruct (Py.blank text).
  - exists text, 0%nat, []. unfold ret. rewrite advance_nil.
    split; [reflexivity | apply quiet_nil].
  - unfold translations_list. run. cbn [calls advance].
    destruct (translate_service env (calls st + 0) s t text)
      as [[[[|[r|] l]|]]|e]; cbn [translations]; run;
      do 3 eexists; (split; [reflexivity | repeat split]).
Qed.

Lemma translate_text_trace text s t st :
  exists r k tr,
    translate_text env text s t st = (Ret r, advance st [] k tr)
    /\ quiet tr
    /\ translated_of tr = if Py.blank text then [] else [text].
Proof.
  unfold translate_text. destruct (Py.blank text).
  - exists text, 0%nat, []. unfold ret. rewrite advance_nil.
    split; [reflexivity |]. split; [apply quiet_nil | reflexivity].
  - unfold translations_list. run. cbn [calls advance].
    destruct (translate_service env (calls st + 0) s t text)
      as [[[[|[r|] l]|]]|e]; cbn [translations]; run;
      do 3 eexists; (split; [reflexivity | repeat split]).
Qed.

Lemma add_to_docs_run n data st tq st1 :
  translate_text env (quote data) "ja" "en" st = (Ret tq, st1) ->
  add_to_docs env n data st
  = (Ret tt,
     advance st1 [] 0
             [DocsContent (docs_formatted_content n data (quote data) tq);
              Print ("Content prepared for Google Docs: " ++ title data)]).
Proof.
  intros H. unfold add_to_docs, try_except, bind. rewrite H. run.
  reflexivity.
Qed.

Lemma send_discord_notification_run n data st tq st1 :
  translate_text env (quote data) "ja" "en" st = (Ret tq, st1) ->
  exists line,
    send_discord_notification env n data st
    = (Ret tt,
       advance st1 [] 1
               [HttpPost (discord_webhook_url env)
                         (discord_payload_content n data (quote data) tq);
                Print line]).
Proof.
  intros H. unfold send_discord_notification, try_except, bind.
  rewrite H. unfold post_webhook. run. cbn [calls advance].
  destruct (requests_post env (calls st1 + 0) (discord_webhook_url env)
              (discord_payload_content n data (quote data) tq))
    as [status_code|e].
  - destruct (status_code =? 204); run; eexists; reflexivity.
  - run. eexists; reflexivity.
Qed.

Lemma prepare_structured_data_run data n st :
  exists translated_title translated_quote processed_at k tr,
    prepare_structured_data env data n st
    = (Ret (mkStructuredRecord
              ("entry_" ++ Py.str_of_int n) (timestamp data)
              (submitter data) (title data) translated_title
              (quote data) translated_quote
              (aff_tags data) (neg_tags data)
              (source_url data) (update_date data) (eng_source data)
              (attachment data) (remark data) processed_at),
       advance st [] k tr)
    /\ quiet tr.
Proof.
  unfold prepare_structured_data.
  destruct (translate_text_returns (title data) "ja" "en" st)
    as (r1 & k1 & tr1 & E1 & Q1).
  destruct (translate_text_returns (quote data) "ja" "en"
              (advance st [] k1 tr1))
    as (r2 & k2 & tr2 & E2 & Q2).
  unfold bind. rewrite E1, E2. unfold now_isoformat. run.
  exists r1, r2. do 3 eexists. split; [reflexivity |].
  rewrite app_nil_r. apply quiet_app; assumption.
Qed.

(** What [process_submission] does with a row that has too few fields. *)
Lemma process_submission_short row_data n st :
  Py.len row_data < 11 ->
  process_submission env row_data n st
  = (Ret tt,
     advance st [] 0
             [Processing n row_data;
              Print ("Insufficient data in row: "
                     ++ Py.str_of_int (Py.len row_data) ++ " columns")]).
Proof.
  intros H. unfold process_submission, bind, try_except.
  rewrite emit_advance, (extract_short _ _ H). run. reflexivity.
Qed.

(** What [process_submission] does with a row that has its eleven fields,
    whatever the services answer. *)
Lemma process_submission_long row_data n st :
  11 <= Py.len row_data ->
  let data := positional_submission row_data in
  exists tq_docs tq_post r k tr,
    process_submission env row_data n st = (Ret tt, advance st [r] k tr)
    /\ docs_of tr = [docs_formatted_content (n - 1) data (quote data) tq_docs]
    /\ posts_of tr = [(discord_webhook_url env,
                       discord_payload_content (n - 1) data (quote data)
                                               tq_post)]
    /\ handled_of tr = [(n, row_data)]
    /\ sr_id r = ("entry_" ++ Py.str_of_int n)%string
    /\ sr_title_original r = title data
    /\ sr_quote_original r = quote data.
Proof.
  intros H data. unfold process_submission, bind, try_except.
  rewrite emit_advance, (extract_long _ _ H). fold data.
  destruct (translate_text_returns (quote data) "ja" "en"
              (advance st [] 0 [Processing n row_data]))
    as (tq1 & k1 & tr1 & E1 & (D1 & P1 & R1)).
  rewrite (add_to_docs_run (n - 1) data _ tq1 _ E1). run.
  match goal with
  | |- context [send_discord_notification env _ _ ?s] =>
      destruct (translate_text_returns (quote data) "ja" "en" s)
        as (tq2 & k2 & tr2 & E2 & (D2 & P2 & R2));
      destruct (send_discord_notification_run (n - 1) data s tq2 _ E2)
        as (line & E3)
  end.
  rewrite E3. run.
  match goal with
  | |- context [prepare_structured_data env _ _ ?s] =>
      destruct (prepare_structured_data_run data n s)
        as (tt' & tq3 & at' & k3 & tr3 & E4 & (D3 & P3 & R3))
  end.
  rewrite E4. run.
  exists tq1, tq2. do 3 eexists. split; [reflexivity |].
  rewrite !docs_of_app, !posts_of_app, !handled_of_app.
  rewrite D1, D2, D3, P1, P2, P3, R1, R2, R3. cbn.
  repeat split.
Qed.

(** *** The loop over the new rows *)

Lemma getitem_row (all_rows : list (list string)) (i : Z) :
  1 <= i <= Py.len all_rows ->
  getitem all_rows (i - 1) = Ret (row_at all_rows i).
Proof.
  intros Hi. unfold getitem, row_at, Py.len in *.
  destruct (i - 1 <? 0) eqn:Hneg; [apply Z.ltb_lt in Hneg; lia |].
  rewrite Hneg.
  rewrite (nth_error_nth' all_rows []) by lia. reflexivity.
Qed.

Lemma rows_loop all_rows idxs st :
  Forall (fun i => 1 <= i <= Py.len all_rows) idxs ->
  exists recs k tr,
    for_each idxs
      (fun row_index =>
         bind (lift (getitem all_rows (row_index - 1)))
              (fun row_data => process_submission env row_data row_index))
      st
    = (Ret tt, advance st recs k tr)
    /\ handled_of tr = map (fun i => (i, row_at all_rows i)) idxs
    /\ map sr_id recs = map entry_id (filter (extractable all_rows) idxs)
    /\ length (docs_of tr) = length recs
    /\ length (posts_of tr) = length recs.
Proof.
  intros Hall. revert st.
  induction Hall as [|i idxs Hi _ IH]; intros st.
  - exists [], 0%nat, []. cbn [for_each]. unfold ret.
    rewrite advance_nil. repeat split.
  - cbn [for_each]. unfold bind at 1. unfold bind at 1. unfold lift at 1.
    rewrite (getitem_row _ _ Hi). cbn [filter].
    unfold extractable at 1.
    destruct (11 <=? Py.len (row_at all_rows i)) eqn:Hlen.
    + apply Z.leb_le in Hlen.
      destruct (process_submission_long (row_at all_rows i) i st Hlen)
        as (tq1 & tq2 & r & k & tr & E & D & P & R & I & _).
      rewrite E.
      destruct (IH (advance st [r] k tr))
        as (recs & k' & tr' & E' & R' & I' & D' & P').
      rewrite E', advance_advance.
      do 3 eexists. split; [reflexivity |].
      rewrite handled_of_app, docs_of_app, posts_of_app, !length_app.
      rewrite R, R', D, P, D', P', map_app. cbn [map app length].
      rewrite I, I'. repeat split.
    + apply Z.leb_gt in Hlen.
      rewrite (process_submission_short _ i st Hlen).
      match goal with
      | |- context [for_each _ _ ?s] =>
          destruct (IH s) as (recs & k' & tr' & E' & R' & I' & D' & P')
      end.
      rewrite E', advance_advance.
      do 3 eexists. split; [reflexivity |].
      rewrite handled_of_app, docs_of_app, posts_of_app, !length_app.
      rewrite R', D', P'. cbn. rewrite I'. repeat split.
Qed.

(** *** One polling cycle *)

Lemma range_In lo hi i : In i (Py.range lo hi) <-> lo <= i < hi.
Proof.
  unfold Py.range. rewrite in_map_iff. split.
  - intros (k & <- & Hk). apply in_seq in Hk. lia.
  - intros H. exists (Z.to_nat (i - lo)). split; [lia |].
    apply in_seq. lia.
Qed.

Lemma range_increasing lo hi : increasing (Py.range lo hi).
Proof.
  unfold increasing, Py.range.
  generalize (Z.to_nat (hi - lo)) as n. generalize 0%nat as s.
  intros s n. revert s.
  induction n as [|n IH]; intros s; cbn [seq map]; constructor.
  - apply IH.
  - apply Forall_forall. intros x Hx.
    apply in_map_iff in Hx. destruct Hx as (k & <- & Hk).
    apply in_seq in Hk. lia.
Qed.

(** A cycle that finds rows after the offset. *)
Lemma monitor_spreadsheet_active id name st all_rows :
  sheets_client env (calls st) id name = Ret all_rows ->
  1 < Py.len all_rows ->
  last_processed_row st < Py.len all_rows ->
  let new_rows :=
    Py.range (Z.max 2 (last_processed_row st + 1)) (Py.len all_rows + 1) in
  exists recs k tr,
    monitor_spreadsheet env id name st
    = (Ret tt,
       mkState (Py.len all_rows) (structured_data st ++ recs)
               (calls st + k) (trace st ++ tr))
    /\ handled_of tr = map (fun i => (i, row_at all_rows i)) new_rows
    /\ map sr_id recs = map entry_id (filter (extractable all_rows) new_rows)
    /\ length (docs_of tr) = length recs
    /\ length (posts_of tr) = length recs.
Proof.
  intros Hfetch Hdata Hnew new_rows.
  unfold monitor_spreadsheet, try_except, get_all_values.
  unfold bind at 1. rewrite request_advance, Hfetch.
  destruct (Py.len all_rows <=? 1) eqn:H1; [apply Z.leb_le in H1; lia |].
  unfold bind at 1. unfold get_last_processed_row.
  rewrite last_processed_row_advance.
  rewrite Z.gtb_ltb.
  destruct (last_processed_row st <? Py.len all_rows) eqn:H2;
    [| apply Z.ltb_ge in H2; lia].
  fold new_rows.
  assert (Hrange : Forall (fun i => 1 <= i <= Py.len all_rows) new_rows).
  { apply Forall_forall. intros i Hi. apply range_In in Hi. lia. }
  destruct (rows_loop all_rows new_rows (advance st [] 1 []) Hrange)
    as (recs & k & tr & E & R & I & D & P).
  unfold bind at 1. rewrite E. unfold set_last_processed_row.
  exists recs, (1 + k)%nat, tr. split; [| repeat split; assumption].
  unfold advance. cbn [last_processed_row structured_data calls trace].
  rewrite !app_nil_r, Nat.add_assoc. reflexivity.
Qed.

(** A cycle that finds nothing to do: the sheet cannot be read, or has at
    most its header, or has no row after the offset. *)
Lemma monitor_spreadsheet_idle id name st :
  match sheets_client env (calls st) id name with
  | Raise _ => True
  | Ret all_rows =>
      Py.len all_rows <= 1 \/ Py.len all_rows <= last_processed_row st
  end ->
  exists tr,
    monitor_spreadsheet env id name st = (Ret tt, advance st [] 1 tr)
    /\ quiet tr /\ translated_of tr = [].
Proof.
  intros H.
  unfold monitor_spreadsheet, try_except, get_all_values.
  unfold bind at 1. rewrite request_advance.
  destruct (sheets_client env (calls st) id name) as [all_rows|e].
  - destruct (Py.len all_rows <=? 1) eqn:H1.
    + exists []. unfold ret. repeat split.
    + apply Z.leb_gt in H1.
      unfold bind at 1. unfold get_last_processed_row.
      rewrite last_processed_row_advance, Z.gtb_ltb.
      destruct (last_processed_row st <? Py.len all_rows) eqn:H2;
        [apply Z.ltb_lt in H2; lia |].
      exists []. unfold ret. repeat split.
  - run. eexists. split; [reflexivity | repeat split].
Qed.

(** Whatever the sheet service answers, a cycle returns, never lowers the
    offset, and handles row numbers in increasing order, all of them after
    the old offset and none after the new one. *)
Lemma monitor_spreadsheet_summary id name st :
  exists st' tr,
    monitor_spreadsheet env id name st = (Ret tt, st')
    /\ trace st' = trace st ++ tr
    /\ last_processed_row st <= last_processed_row st'
    /\ increasing (processed_of tr)
    /\ Forall (fun i => last_processed_row st < i <= last_processed_row st')
              (processed_of tr).
Proof.
  destruct (sheets_client env (calls st) id name) as [all_rows|e] eqn:Hfetch.
  - destruct (Z_lt_le_dec 1 (Py.len all_rows)) as [Hdata|Hhead];
      [destruct (Z_lt_le_dec (last_processed_row st) (Py.len all_rows))
        as [Hnew|Hold] |].
    + destruct (monitor_spreadsheet_active id name st all_rows
                  Hfetch Hdata Hnew) as (recs & k & tr & E & R & _).
      do 2 eexists. split; [exact E |]. cbn [trace last_processed_row].
      split; [reflexivity |]. split; [lia |].
      rewrite (processed_of_rows _ _ _ R).
      split; [apply range_increasing |].
      apply Forall_forall. intros i Hi. apply range_In in Hi. lia.
    + destruct (monitor_spreadsheet_idle id name st) as (tr & E & Q & _).
      { rewrite Hfetch. right. exact Hold. }
      apply processed_of_quiet in Q. rename Q into R.
      do 2 eexists. split; [exact E |]. cbn [trace advance last_processed_row].
      split; [reflexivity |]. split; [lia |]. rewrite R.
      split; constructor.
    + destruct (monitor_spreadsheet_idle id name st) as (tr & E & Q & _).
      { rewrite Hfetch. left. exact Hhead. }
      apply processed_of_quiet in Q. rename Q into R.
      do 2 eexists. split; [exact E |]. cbn [trace advance last_processed_row].
      split; [reflexivity |]. split; [lia |]. rewrite R.
      split; constructor.
  - destruct (monitor_spreadsheet_idle id name st) as (tr & E & Q & _).
    { rewrite Hfetch. exact Logic.I. }
    apply processed_of_quiet in Q. rename Q into R.
    do 2 eexists. split; [exact E |]. cbn [trace advance last_processed_row].
    split; [reflexivity |]. split; [lia |]. rewrite R.
    split; constructor.
Qed.

(** The same over any number of cycles. *)
Lemma monitoring_cycles_summary n id st :
  exists st' tr,
    monitoring_cycles env n id st = (Ret tt, st')
    /\ trace st' = trace st ++ tr
    /\ last_processed_row st <= last_processed_row st'
    /\ increasing (processed_of tr)
    /\ Forall (fun i => last_processed_row st < i <= last_processed_row st')
              (processed_of tr).
Proof.
  revert st. induction n as [|n IH]; intros st.
  - exists st, []. cbn [monitoring_cycles]. unfold ret.
    rewrite app_nil_r. repeat split; try lia; constructor.
  - cbn [monitoring_cycles].
    destruct (monitor_spreadsheet_summary id "Responses" st)
      as (st1 & tr1 & E1 & T1 & L1 & S1 & F1).
    destruct (IH st1) as (st2 & tr2 & E2 & T2 & L2 & S2 & F2).
    exists st2, (tr1 ++ tr2). unfold bind. rewrite E1, E2.
    split; [reflexivity |].
    split; [rewrite T2, T1, app_assoc; reflexivity |].
    split; [lia |]. rewrite processed_of_app.
    split.
    + apply (increasing_app _ _ (last_processed_row st1)); try assumption.
      * eapply Forall_impl; [| exact F1]. cbn. intros; lia.
      * eapply Forall_impl; [| exact F2]. cbn. intros; lia.
    + apply Forall_app. split.
      * eapply Forall_impl; [| exact F1]. cbn. intros; lia.
      * eapply Forall_impl; [| exact F2]. cbn. intros; lia.
Qed.

End Steps.

(** ** The steps of the web service *)

Section AppSteps.

Variable env : Env.

Lemma app_translate_text_returns text s t st :
  exists r k tr,
    App.translate_text env text s t st = (Ret r, advance st [] k tr)
    /\ quiet tr.
Proof.
  unfold App.translate_text. destruct (Py.blank text).
  - exists text, 0%nat, []. unfold ret. rewrite advance_nil.
    split; [reflexivity | apply quiet_nil].
  - unfold translations_list. run. cbn [calls advance].
    destruct (translate_service env (calls st + 0) s t text)
      as [[[[|[r|] l]|]]|e]; cbn [translations]; run;
      do 3 eexists; (split; [reflexivity | repeat split]).
Qed.

Lemma app_extract_body_short row_data st :
  Py.len row_data < 11 ->
  App.extract_body row_data st
  = (Ret None,
     advance st [] 0
             [Log "WARNING"
                  ("Insufficient data in row: "
                   ++ Py.str_of_int (Py.len row_data) ++ " columns")]).
Proof.
  intros H. unfold App.extract_body.
  apply Z.ltb_lt in H. rewrite H. run. reflexivity.
Qed.

Lemma app_extract_body_long row_data st :
  11 <= Py.len row_data ->
  App.extract_body row_data st
  = (Ret (Some (positional_submission row_data)), st).
Proof.
  intros H. unfold App.extract_body.
  destruct (Py.len row_data <? 11) eqn:Hlt; [apply Z.ltb_lt in Hlt; lia |].
  unfold Py.len in H.
  unfold bind, lift, ret.
  change 3 with (Z.of_nat 3). change 4 with (Z.of_nat 4).
  change 0 with (Z.of_nat 0). change 1 with (Z.of_nat 1).
  change 2 with (Z.of_nat 2). change 5 with (Z.of_nat 5).
  change 6 with (Z.of_nat 6). change 7 with (Z.of_nat 7).
  change 8 with (Z.of_nat 8). change 9 with (Z.of_nat 9).
  change 10 with (Z.of_nat 10).
  rewrite !getitem_field by lia. reflexivity.
Qed.

Lemma app_add_to_docs_run n data st :
  exists k tr,
    App.add_to_docs env n data st = (Ret true, advance st [] k tr)
    /\ posts_of tr = []
    /\ In (Log "INFO" ("Formatted content for Google Docs: " ++ title data))
          tr.
Proof.
  destruct (app_translate_text_returns (quote data) "ja" "en" st)
    as (tq & k & tr & E & (_ & P & _)).
  unfold App.add_to_docs, try_except, bind. rewrite E. run.
  do 2 eexists. split; [reflexivity |].
  rewrite posts_of_app, P. split; [reflexivity |].
  apply in_or_app. right. left. reflexivity.
Qed.

Lemma app_send_discord_notification_run n data st :
  exists sent k tr,
    App.send_discord_notification env n data st
    = (Ret sent, advance st [] k tr)
    /\ (Py.truthy (discord_webhook_url env) = true ->
        exists tq,
          posts_of tr
          = [(discord_webhook_url env,
              discord_payload_content n data (quote data) tq)])
    /\ (Py.truthy (discord_webhook_url env) = false ->
        sent = false
        /\ tr = [Log "WARNING" "Discord webhook URL not configured"]).
Proof.
  unfold App.send_discord_notification, try_except.
  destruct (Py.truthy (discord_webhook_url env)) eqn:U; cbn [negb].
  - destruct (app_translate_text_returns (quote data) "ja" "en" st)
      as (tq & k & tr & E & (_ & P & _)).
    unfold bind at 1. rewrite E. unfold post_webhook. run.
    cbn [calls advance].
    destruct (requests_post env _ (discord_webhook_url env)
                (discord_payload_content n data (quote data) tq))
      as [status_code|e].
    + destruct (status_code =? 204); run;
        (do 3 eexists; split; [reflexivity |];
         split; [intros _; exists tq | discriminate];
         rewrite !posts_of_app, P; reflexivity).
    + run. do 3 eexists. split; [reflexivity |].
      split; [intros _; exists tq | discriminate].
      rewrite !posts_of_app, P. reflexivity.
  - run. do 3 eexists. split; [reflexivity |].
    split; [discriminate | intros _; split; reflexivity].
Qed.

Lemma app_prepare_structured_data_run data n st :
  exists r k tr,
    App.prepare_structured_data env data n st = (Ret r, advance st [] k tr)
    /\ quiet tr
    /\ sr_id r = entry_id n
    /\ sr_title_original r = title data
    /\ sr_quote_original r = quote data.
Proof.
  unfold App.prepare_structured_data.
  destruct (app_translate_text_returns (title data) "ja" "en" st)
    as (r1 & k1 & tr1 & E1 & Q1).
  destruct (app_translate_text_returns (quote data) "ja" "en"
              (advance st [] k1 tr1))
    as (r2 & k2 & tr2 & E2 & Q2).
  unfold bind. rewrite E1, E2. unfold now_isoformat. run.
  do 3 eexists. split; [reflexivity |].
  split; [rewrite app_nil_r; apply quiet_app; assumption |].
  repeat split.
Qed.

(** What the service does with an extracted submission, whatever the
    services answer. *)
Lemma app_process_submission_run data n st :
  exists sent r k tr,
    App.process_submission env data n st
    = (Ret (App.Success n true sent r), advance st [r] k tr)
    /\ sr_id r = entry_id n
    /\ In (Log "INFO" ("Formatted content for Google Docs: " ++ title data))
          tr
    /\ (Py.truthy (discord_webhook_url env) = true ->
        exists tq,
          posts_of tr
          = [(discord_webhook_url env,
              discord_payload_content n data (quote data) tq)])
    /\ (Py.truthy (discord_webhook_url env) = false ->
        sent = false
        /\ posts_of tr = []
        /\ In (Log "WARNING" "Discord webhook URL not configured") tr).
Proof.
  unfold App.process_submission, try_except.
  destruct (app_add_to_docs_run n data st) as (k1 & tr1 & E1 & P1 & L1).
  destruct (app_send_discord_notification_run n data (advance st [] k1 tr1))
    as (sent & k2 & tr2 & E2 & On & Off).
  unfold bind at 1. rewrite E1. unfold bind at 1. rewrite E2.
  rewrite advance_advance. unfold bind at 1.
  match goal with
  | |- context [App.prepare_structured_data env _ _ ?s] =>
      destruct (app_prepare_structured_data_run data n s)
        as (r & k3 & tr3 & E3 & (_ & P3 & _) & I & _)
  end.
  rewrite E3. run.
  exists sent, r. do 2 eexists. split; [reflexivity |].
  split; [exact I |]. split.
  { rewrite !in_app_iff. tauto. }
  rewrite !posts_of_app, P1, P3. cbn [app posts_of flat_map].
  rewrite !app_nil_r. split.
  - intros U. destruct (On U) as (tq & Ptq). exists tq. exact Ptq.
  - intros U. destruct (Off U) as (-> & ->).
    split; [reflexivity |]. split; [reflexivity |].
    rewrite !in_app_iff. cbn [In]. tauto.
Qed.

End AppSteps.

Lemma app_prepare_structured_data_record env data n st :
  exists translated_title translated_quote processed_at k tr,
    App.prepare_structured_data env data n st
    = (Ret (mkStructuredRecord
              ("entry_" ++ Py.str_of_int n) (timestamp data)
              (submitter data) (title data) translated_title
              (quote data) translated_quote
              (aff_tags data) (neg_tags data)
              (source_url data) (update_date data) (eng_source data)
              (attachment data) (remark data) processed_at),
       advance st [] k tr)
    /\ quiet tr.
Proof.
  unfold App.prepare_structured_data.
  destruct (app_translate_text_returns env (title data) "ja" "en" st)
    as (r1 & k1 & tr1 & E1 & Q1).
  destruct (app_translate_text_returns env (quote data) "ja" "en"
              (advance st [] k1 tr1))
    as (r2 & k2 & tr2 & E2 & Q2).
  unfold bind. rewrite E1, E2. unfold now_isoformat. run.
  exists r1, r2. do 3 eexists. split; [reflexivity |].
  rewrite app_nil_r. apply quiet_app; assumption.
Qed.

(** The record that the web service appends for a submission. *)
Lemma app_process_submission_record env data n st :
  exists sent translated_title translated_quote processed_at k tr,
    let r :=
      mkStructuredRecord
        ("entry_" ++ Py.str_of_int n) (timestamp data)
        (submitter data) (title data) translated_title
        (quote data) translated_quote
        (aff_tags data) (neg_tags data)
        (source_url data) (update_date data) (eng_source data)
        (attachment data) (remark data) processed_at in
    App.process_submission env data n st
    = (Ret (App.Success n true sent r), advance st [r] k tr).
Proof.
  unfold App.process_submission, try_except.
  destruct (app_add_to_docs_run env n data st) as (k1 & tr1 & E1 & _).
  destruct (app_send_discord_notification_run
              env n data (advance st [] k1 tr1))
    as (sent & k2 & tr2 & E2 & _).
  unfold bind at 1. rewrite E1. unfold bind at 1. rewrite E2.
  rewrite advance_advance. unfold bind at 1.
  match goal with
  | |- context [App.prepare_structured_data env _ _ ?s] =>
      destruct (app_prepare_structured_data_record env data n s)
        as (tt' & tq & at' & k3 & tr3 & E3 & _)
  end.
  rewrite E3. run.
  exists sent, tt', tq, at'. do 2 eexists. cbv zeta. reflexivity.
Qed.

(** ** Extraction *)

(** C4.  A row with at least eleven fields is extracted, without any output,
    into the submission whose attributes are the fields 0 to 10 in order,
    the fields 3 and 4 split on the separator: the empty field gives no tag
    ([a, b] gives two tags, [a] gives one), and the tags of any other field
    are pieces that hold no separator and give the field back when joined
    with it. *)
Theorem extraction_is_positional (row_data : list string) (st : state) :
  11 <= Py.len row_data ->
  extract_submission_data row_data st
  = (Ret (Some (mkSubmission
                  (field row_data 0) (field row_data 1) (field row_data 2)
                  (parse_tags (field row_data 3))
                  (parse_tags (field row_data 4))
                  (field row_data 5) (field row_data 6) (field row_data 7)
                  (field row_data 8) (field row_data 9) (field row_data 10))),
     st)
  /\ parse_tags EmptyString = []
  /\ parse_tags "a, b" = ["a"; "b"]%string
  /\ parse_tags "a" = ["a"]%string
  /\ (forall raw,
         raw <> EmptyString ->
         parse_tags raw <> []
         /\ String.concat ", " (parse_tags raw) = raw
         /\ Forall (fun tag => has_comma_space tag = false) (parse_tags raw)).
Proof.
  intros H. split; [apply extract_long, H |].
  split; [reflexivity |]. split; [reflexivity |]. split; [reflexivity |].
  intros raw Hraw. unfold parse_tags.
  destruct raw as [|c raw']; [congruence |]. cbn [Py.truthy].
  destruct (split_comma_space_spec (String c raw'))
    as (piece & more & S & C & F & _).
  rewrite S. split; [discriminate |]. split; [exact C | exact F].
Qed.

Lemma extraction_is_positional_witness :
  11 <= Py.len row_A
  /\ fst (extract_submission_data row_A init)
     = Ret (Some (mkSubmission "2024-01-01" "Alice" "Title1"
                               ["t1"; "t2"]%string [] "http://x"
                               "2024-01-01" "Src" "原文" EmptyString "備考")).
Proof.
  split; [vm_compute; discriminate |].
  rewrite (proj1 (extraction_is_positional row_A init
                    ltac:(vm_compute; discriminate))).
  reflexivity.
Defined.

(** C5.  A row with fewer than eleven fields is not extracted: the result is
    [None], nothing changes but the output, and the one line written reports
    insufficient columns together with the number of fields of the row (on
    the standard output in the script, as a warning in the web service). *)
Theorem short_rows_are_rejected (row_data : list string) (st : state) :
  Py.len row_data < 11 ->
  extract_submission_data row_data st
  = (Ret None,
     mkState (last_processed_row st) (structured_data st) (calls st)
             (trace st
              ++ [Print ("Insufficient data in row: "
                         ++ Py.str_of_int (Py.len row_data) ++ " columns")]))
  /\ App.extract_submission_data row_data st
     = (Ret None,
        mkState (last_processed_row st) (structured_data st) (calls st)
                (trace st
                 ++ [Log "WARNING"
                         ("Insufficient data in row: "
                          ++ Py.str_of_int (Py.len row_data) ++ " columns")])).
Proof.
  intros H. split.
  - rewrite (extract_short _ st H). unfold advance.
    rewrite app_nil_r, Nat.add_0_r. reflexivity.
  - unfold App.extract_submission_data.
    rewrite (try_except_ret _ _ _ _ _ (app_extract_body_short _ st H)).
    unfold advance. rewrite app_nil_r, Nat.add_0_r. reflexivity.
Qed.

Lemma short_rows_are_rejected_witness :
  Py.len row_short < 11
  /\ extract_submission_data row_short init
     = (Ret None,
        mkState 0 [] 0 [Print "Insufficient data in row: 9 columns"]).
Proof.
  split; [vm_compute; reflexivity |].
  rewrite (proj1 (short_rows_are_rejected row_short init
                    ltac:(vm_compute; reflexivity))).
  reflexivity.
Defined.

(** C10.  Extraction is total: on every list of strings the body of the
    [try] returns, so the handler never runs and the method returns what the
    body returns, a submission or [None]; and fields after the eleventh are
    ignored, the result and the output being those of the first eleven
    fields.  The same holds for the extractor of the web service. *)
Theorem extraction_is_total (row_data : list string) (st : state) :
  (exists result st', extract_body row_data st = (Ret result, st'))
  /\ extract_submission_data row_data st = extract_body row_data st
  /\ extract_submission_data row_data st
     = extract_submission_data (firstn 11 row_data) st
  /\ (exists result st', App.extract_body row_data st = (Ret result, st'))
  /\ App.extract_submission_data row_data st = App.extract_body row_data st
  /\ App.extract_submission_data row_data st
     = App.extract_submission_data (firstn 11 row_data) st.
Proof.
  assert (Hfirst : 11 <= Py.len row_data ->
                   11 <= Py.len (firstn 11 row_data)).
  { unfold Py.len. rewrite length_firstn. lia. }
  assert (Hsame : Py.len row_data < 11 -> firstn 11 row_data = row_data).
  { unfold Py.len. intros H. apply firstn_all2. lia. }
  unfold extract_submission_data, App.extract_submission_data.
  destruct (Z_lt_le_dec (Py.len row_data) 11) as [Hshort|Hlong].
  - rewrite (Hsame Hshort).
    rewrite !(try_except_ret _ _ _ _ _ (extract_body_short _ st Hshort)).
    rewrite !(try_except_ret _ _ _ _ _ (app_extract_body_short _ st Hshort)).
    rewrite (extract_body_short _ st Hshort).
    rewrite (app_extract_body_short _ st Hshort).
    repeat split; do 2 eexists; reflexivity.
  - rewrite !(try_except_ret _ _ _ _ _ (extract_body_long _ st Hlong)).
    rewrite !(try_except_ret _ _ _ _ _ (app_extract_body_long _ st Hlong)).
    rewrite !(try_except_ret _ _ _ _ _
                (extract_body_long _ st (Hfirst Hlong))).
    rewrite !(try_except_ret _ _ _ _ _
                (app_extract_body_long _ st (Hfirst Hlong))).
    rewrite (extract_body_long _ st Hlong).
    rewrite (app_extract_body_long _ st Hlong).
    rewrite positional_submission_firstn.
    repeat split; do 2 eexists; reflexivity.
Qed.

(** ** Translation *)

(** C6.  When the request to the translation service raises, or its answer
    has no ['translations'] or an empty one, [translate_text] returns the
    text it was given, and returns normally: the failure does not reach the
    caller, and neither the offset nor the accumulator changes.  The same
    holds in the web service. *)
Theorem translate_text_falls_back
        (env : Env) (text source_lang target_lang : string) (st : state) :
  provider_failed
    (translate_service env (calls st) source_lang target_lang text) ->
  (exists st',
      translate_text env text source_lang target_lang st = (Ret text, st')
      /\ last_processed_row st' = last_processed_row st
      /\ structured_data st' = structured_data st)
  /\ (exists st',
         App.translate_text env text source_lang target_lang st
         = (Ret text, st')
         /\ last_processed_row st' = last_processed_row st
         /\ structured_data st' = structured_data st).
Proof.
  intros H. unfold translate_text, App.translate_text.
  destruct (Py.blank text).
  - split; exists st; repeat split.
  - unfold translations_list. run. cbn [calls advance].
    rewrite Nat.add_0_r.
    destruct (translate_service env (calls st) source_lang target_lang text)
      as [[[[|first more]|]]|e]; cbn [provider_failed translations] in H;
      try contradiction; cbn [translations]; run;
      (split; eexists; (split; [reflexivity |]);
       cbn [last_processed_row structured_data advance];
       rewrite ?app_nil_r; split; reflexivity).
Qed.

Lemma translate_text_falls_back_witness :
  provider_failed (translate_service failing_env (calls init) "ja" "en" "原文")
  /\ exists st', translate_text failing_env "原文" "ja" "en" init
                 = (Ret "原文", st').
Proof.
  split; [exact Logic.I |].
  destruct (translate_text_falls_back failing_env "原文" "ja" "en" init
              Logic.I) as [(st' & E & _) _].
  exists st'. exact E.
Defined.

(** ** Tags *)

(** The tag texts the two methods build are the groups that show, put
    together as each output does. *)
Lemma tags_as_built (data : Submission) :
  discord_tags_text data = notification_tags data
  /\ docs_tags_content data = document_tags data.
Proof.
  split.
  - unfold discord_tags_text, notification_tags, notification_group.
    destruct (tags_present (aff_tags data)), (tags_present (neg_tags data));
      cbn [andb]; rewrite ?fold_left_append, ?string_app_assoc,
                          ?string_app_nil_r; reflexivity.
  - unfold docs_tags_content, document_tags, document_group.
    destruct (tags_present (aff_tags data)), (tags_present (neg_tags data));
      rewrite ?fold_left_append, ?string_app_assoc, ?string_app_nil_r;
      reflexivity.
Qed.

(** What the two methods put out for a submission, from any state. *)
Lemma formatting_outputs env n data st :
  exists tq1 tq2,
    docs_of (new_events st (snd (add_to_docs env n data st)))
    = [docs_formatted_content n data (quote data) tq1]
    /\ posts_of (new_events st (snd (send_discord_notification env n data st)))
       = [(discord_webhook_url env,
           discord_payload_content n data (quote data) tq2)].
Proof.
  destruct (translate_text_trace env (quote data) "ja" "en" st)
    as (tq & k & tr & E & (D & P & _) & _).
  destruct (send_discord_notification_run env n data st tq _ E)
    as (line & E').
  exists tq, tq.
  rewrite (add_to_docs_run env n data st tq _ E), E'. cbn [snd].
  rewrite !advance_advance, !new_events_advance.
  rewrite !docs_of_app, !posts_of_app, D, P. cbn. split; reflexivity.
Qed.

(** C7, as the code has it.  A group of tags shows when the sequence has a
    first tag and that tag is not empty.  The message that
    [send_discord_notification] posts has, after its title line and an
    empty line, the groups that show, each as its marker followed by every
    tag between [#] and a blank, with a line feed between two shown groups;
    the quote follows after an empty line.  The tag line of the document
    entry that [add_to_docs] prepares is [#] and the submitter followed, on
    the same line, by the groups that show, each as a blank, the marker, and
    every tag after a blank and [#]; nothing but that is put between two
    groups.  The field [, b] gives an empty first tag, so its group shows
    in neither output. *)
Theorem tag_groups_as_rendered
        (env : Env) (entry_number : Z) (data : Submission) (st : state) :
  let docs :=
    docs_of (new_events st (snd (add_to_docs env entry_number data st))) in
  let posts :=
    posts_of (new_events st (snd (send_discord_notification
                                    env entry_number data st))) in
  (exists fc,
      docs = [fc]
      /\ fc_tags fc
         = ("#" ++ submitter data
            ++ (if tags_present (aff_tags data)
                then document_group "[AFF]" (aff_tags data) else EmptyString)
            ++ (if tags_present (neg_tags data)
                then document_group "[NEG]" (neg_tags data)
                else EmptyString))%string)
  /\ (exists rest,
         posts
         = [(discord_webhook_url env,
             (title_line entry_number data ++ Py.LF ++ Py.LF
              ++ ((if tags_present (aff_tags data)
                   then notification_group "[AFF]" (aff_tags data)
                   else EmptyString)
                  ++ (if tags_present (aff_tags data)
                         && tags_present (neg_tags data)
                      then Py.LF else EmptyString)
                  ++ (if tags_present (neg_tags data)
                      then notification_group "[NEG]" (neg_tags data)
                      else EmptyString))
              ++ Py.LF ++ Py.LF ++ "```" ++ quote data ++ "```"
              ++ rest)%string)])
  /\ (forall tags,
         tags_present tags = true
         <-> exists first more, tags = first :: more /\ first <> EmptyString)
  /\ parse_tags ", b" = [EmptyString; "b"]%string
  /\ tags_present (parse_tags ", b") = false
  /\ (aff_tags data = parse_tags ", b" -> neg_tags data = [] ->
      (exists fc, docs = [fc] /\ fc_tags fc = ("#" ++ submitter data)%string)
      /\ (exists rest,
             posts
             = [(discord_webhook_url env,
                 (title_line entry_number data ++ Py.LF ++ Py.LF
                  ++ Py.LF ++ Py.LF ++ "```" ++ quote data ++ "```"
                  ++ rest)%string)])).
Proof.
  intros docs posts.
  destruct (formatting_outputs env entry_number data st)
    as (tq1 & tq2 & D & P).
  destruct (tags_as_built data) as (N & T).
  assert (Hdocs :
            exists fc, docs = [fc] /\ fc_tags fc = document_tags data).
  { eexists. split; [exact D |]. cbn [docs_formatted_content fc_tags].
    exact T. }
  assert (Hposts :
            exists rest,
              posts
              = [(discord_webhook_url env,
                  (title_line entry_number data ++ Py.LF ++ Py.LF
                   ++ notification_tags data
                   ++ Py.LF ++ Py.LF ++ "```" ++ quote data ++ "```"
                   ++ rest)%string)]).
  { subst posts. rewrite P.
    unfold discord_payload_content, discord_message_content.
    rewrite N. eexists. reflexivity. }
  split; [exact Hdocs |]. split; [exact Hposts |].
  split.
  { intros tags. split.
    - destruct tags as [|first more]; [discriminate |].
      intros H. exists first, more. split; [reflexivity |].
      intros ->. discriminate.
    - intros (first & more & -> & Hfirst).
      destruct first; [congruence | reflexivity]. }
  split; [reflexivity |]. split; [reflexivity |].
  intros Haff Hneg.
  destruct Hdocs as (fc & Efc & Tfc). destruct Hposts as (rest & Erest).
  unfold document_tags in Tfc. unfold notification_tags in Erest.
  rewrite Haff, Hneg in Tfc, Erest.
  split.
  - exists fc. split; [exact Efc |]. rewrite Tfc.
    cbn [tags_present parse_tags Py.truthy].
    change (tags_present (parse_tags ", b")) with false.
    cbv iota. rewrite !string_app_nil_r. reflexivity.
  - exists rest. rewrite Erest.
    change (tags_present (parse_tags ", b")) with false.
    cbn [tags_present andb]. cbv iota. reflexivity.
Qed.

Lemma tag_groups_as_rendered_witness :
  (exists fc,
      docs_of (new_events init (snd (add_to_docs failing_env 1 data_both init)))
      = [fc]
      /\ fc_tags fc = "#Alice [AFF] #a [NEG] #b"%string)
  /\ (exists rest,
         posts_of (new_events init
                     (snd (send_discord_notification
                             failing_env 1 data_both init)))
         = [("https://discord.example/hook"%string,
             ("1. Title3 (Alice)" ++ Py.LF ++ Py.LF
              ++ "[AFF]#a " ++ Py.LF ++ "[NEG]#b "
              ++ Py.LF ++ Py.LF ++ "```引用```" ++ rest)%string)]).
Proof.
  destruct (tag_groups_as_rendered failing_env 1 data_both init)
    as (D & P & _).
  split; [exact D | exact P].
Defined.

(** C7 as stated fails for the document entry: with one tag on each side
    both groups show, and the tag line of the entry that [add_to_docs]
    prepares is one line, without a line feed between the groups. *)
Lemma document_groups_share_a_line :
  tags_present (aff_tags data_both) = true
  /\ tags_present (neg_tags data_both) = true
  /\ map fc_tags
         (docs_of (new_events init
                     (snd (add_to_docs failing_env 1 data_both init))))
     = ["#Alice [AFF] #a [NEG] #b"%string]
  /\ ~ (forall fc,
           In fc (docs_of (new_events init
                             (snd (add_to_docs failing_env 1 data_both
                                               init)))) ->
           has_line_feed (fc_tags fc) = true).
Proof.
  split; [reflexivity |]. split; [reflexivity |]. split; [reflexivity |].
  intros H.
  specialize (H (docs_formatted_content 1 data_both "引用" "引用")
                (or_introl eq_refl)).
  discriminate H.
Qed.

(** ** Formatting *)

Lemma formatting_at env n data st tq s :
  translate_text env (quote data) "ja" "en" st = (Ret tq, s) ->
  docs_of (new_events st (snd (add_to_docs env n data st)))
  = [docs_formatted_content n data (quote data) tq]
  /\ posts_of (new_events st (snd (send_discord_notification env n data st)))
     = [(discord_webhook_url env,
         discord_payload_content n data (quote data) tq)]
  /\ translated_of (new_events st (snd (add_to_docs env n data st)))
     = (if Py.blank (quote data) then [] else [quote data])
  /\ translated_of
       (new_events st (snd (send_discord_notification env n data st)))
     = (if Py.blank (quote data) then [] else [quote data]).
Proof.
  intros H.
  destruct (translate_text_trace env (quote data) "ja" "en" st)
    as (r & k & tr & E & (D & P & _) & T).
  rewrite E in H. injection H as -> <-.
  destruct (send_discord_notification_run env n data st tq _ E)
    as (line & E').
  rewrite (add_to_docs_run env n data st tq _ E), E'. cbn [snd].
  rewrite !advance_advance, !new_events_advance.
  rewrite !docs_of_app, !posts_of_app, !translated_of_app, D, P, T.
  cbn. rewrite !app_nil_r. repeat split.
Qed.

(** C3, as the code has it.  The two operations translate the quote
    themselves, with one call of [translate_text] each, and the notification
    operation posts its message itself.  The texts they produce are the
    fixed formats applied to the entry number, the submission and the
    translation that call returned: two calls with the same entry number and
    submission whose translations are the same produce the same document
    entry and the same notification. *)
Theorem formatting_follows_translation
        (env : Env) (entry_number : Z) (data : Submission)
        (st1 st2 : state) (translated_quote : string) (s1 s2 : state) :
  translate_text env (quote data) "ja" "en" st1 = (Ret translated_quote, s1) ->
  translate_text env (quote data) "ja" "en" st2 = (Ret translated_quote, s2) ->
  let docs st :=
    docs_of (new_events st (snd (add_to_docs env entry_number data st))) in
  let posts st :=
    posts_of (new_events st (snd (send_discord_notification
                                    env entry_number data st))) in
  docs st1 = [docs_formatted_content entry_number data (quote data)
                                     translated_quote]
  /\ docs st2 = docs st1
  /\ posts st1 = [(discord_webhook_url env,
                   discord_payload_content entry_number data (quote data)
                                           translated_quote)]
  /\ posts st2 = posts st1
  /\ translated_of
       (new_events st1 (snd (add_to_docs env entry_number data st1)))
     = (if Py.blank (quote data) then [] else [quote data])
  /\ translated_of
       (new_events st1 (snd (send_discord_notification
                               env entry_number data st1)))
     = (if Py.blank (quote data) then [] else [quote data]).
Proof.
  intros H1 H2 docs posts. subst docs posts. cbv beta.
  destruct (formatting_at env entry_number data st1 _ _ H1)
    as (D1 & P1 & T1 & T1').
  destruct (formatting_at env entry_number data st2 _ _ H2)
    as (D2 & P2 & _).
  rewrite D1, D2, P1, P2, T1, T1'. repeat split.
Qed.

Lemma formatting_follows_translation_witness :
  docs_of (new_events after_two_requests
             (snd (add_to_docs two_answers_env 1 data_both
                               after_two_requests)))
  = docs_of (new_events after_one_request
               (snd (add_to_docs two_answers_env 1 data_both
                                 after_one_request))).
Proof.
  exact (proj1 (proj2 (formatting_follows_translation
                         two_answers_env 1 data_both
                         after_one_request after_two_requests
                         "second answer"
                         (mkState 0 [] 2 [TranslateCall "ja" "en" "引用"])
                         (mkState 0 [] 3 [TranslateCall "ja" "en" "引用"])
                         eq_refl eq_refl))).
Defined.

(** C3 as stated fails: the translation service answering differently in two
    states, the same entry number and submission give two document
    entries. *)
Lemma formatting_is_not_pure :
  ~ formatting_is_pure two_answers_env 1 data_both.
Proof.
  intros H. destruct (H init after_one_request) as (D & _ & _).
  vm_compute in D. discriminate D.
Qed.

(** ** Numbering *)

(** C1, as the code has it.  For a row with its eleven fields handled as
    spreadsheet row [row_number], the title of the document entry and the
    first line of the notification start with the ordinal [row_number - 1],
    and the id of the appended record is [entry_] followed by [row_number]:
    the number in the id is the row number, one more than the ordinal
    shown, and the two are never written the same. *)
Theorem display_number_and_export_id
        (env : Env) (row_data : list string) (row_number : Z) (st : state) :
  11 <= Py.len row_data ->
  let data := positional_submission row_data in
  let st' := snd (process_submission env row_data row_number st) in
  let shown :=
    (Py.str_of_int (row_number - 1) ++ ". " ++ title data
       ++ " (" ++ submitter data ++ ")")%string in
  exists fc content r,
    fst (extract_submission_data row_data st) = Ret (Some data)
    /\ docs_of (new_events st st') = [fc]
    /\ fc_title fc = shown
    /\ posts_of (new_events st st') = [(discord_webhook_url env, content)]
    /\ starts_with (shown ++ Py.LF) content
    /\ structured_data st' = structured_data st ++ [r]
    /\ sr_id r = ("entry_" ++ Py.str_of_int row_number)%string
    /\ Py.str_of_int (row_number - 1) <> Py.str_of_int row_number.
Proof.
  intros H data st' shown.
  destruct (process_submission_long env row_data row_number st H)
    as (tq1 & tq2 & r & k & tr & E & D & P & _ & I & _).
  fold data in D, P.
  subst st'. rewrite E. cbn [snd]. rewrite new_events_advance.
  do 3 eexists.
  split; [rewrite (extract_long _ st H); reflexivity |].
  split; [exact D |]. split; [reflexivity |].
  split; [exact P |]. split.
  { exists (discord_message_content data (quote data) tq2).
    unfold discord_payload_content, title_line, shown.
    rewrite !string_app_assoc. reflexivity. }
  split; [reflexivity |]. split; [exact I |].
  intros Hsame. apply str_of_int_inj in Hsame. lia.
Qed.

Lemma display_number_and_export_id_witness :
  11 <= Py.len row_A
  /\ exists fc r,
       docs_of (new_events init
                  (snd (process_submission two_answers_env row_A 2 init)))
       = [fc]
       /\ fc_title fc = "1. Title1 (Alice)"%string
       /\ structured_data
            (snd (process_submission two_answers_env row_A 2 init))
          = [r]
       /\ sr_id r = "entry_2"%string.
Proof.
  split; [vm_compute; discriminate |].
  destruct (display_number_and_export_id two_answers_env row_A 2 init
              ltac:(vm_compute; discriminate))
    as (fc & content & r & _ & D & T & _ & _ & S & I & _).
  exists fc, r. repeat split; assumption.
Defined.

(** C1 as stated fails: at row 2 the titles start with 1 and the id is
    [entry_2], so no number is both. *)
Lemma display_and_id_numbers_differ :
  ~ one_number_for_display_and_id two_answers_env row_A 2 init.
Proof.
  intros (n & fc & url & content & r & D & T & _ & _ & S & I).
  vm_compute in D. vm_compute in S.
  injection D as <-. injection S as <-.
  unfold entry_id in I. cbn [sr_id append] in I.
  injection I as I.
  destruct T as (rest & T). rewrite <- I in T.
  cbn [fc_title append] in T. discriminate T.
Qed.


(** ** The offset *)

(** A cycle that finds nothing to do handles no row and keeps the offset. *)
Lemma idle_cycle env id name st :
  match sheets_client env (calls st) id name with
  | Raise _ => True
  | Ret all_rows =>
      Py.len all_rows <= 1 \/ Py.len all_rows <= last_processed_row st
  end ->
  let st' := snd (monitor_spreadsheet env id name st) in
  fst (monitor_spreadsheet env id name st) = Ret tt
  /\ handled_of (new_events st st') = []
  /\ docs_of (new_events st st') = []
  /\ posts_of (new_events st st') = []
  /\ last_processed_row st' = last_processed_row st
  /\ structured_data st' = structured_data st.
Proof.
  intros H st'.
  destruct (monitor_spreadsheet_idle env id name st H)
    as (tr & E & (D & P & R) & _).
  subst st'. rewrite E. cbn [fst snd]. rewrite new_events_advance.
  cbn [advance last_processed_row structured_data]. rewrite app_nil_r.
  repeat split; assumption.
Qed.

(** C2.  The offset starts at 0.  A cycle returns and never lowers the
    offset.  When the sheet is read, the cycle handles exactly the row
    numbers after the offset, up to the row count and from 2 on, each once
    and in increasing order, each with the row the sheet has at that
    number; if there is such a row the offset becomes the row count; and a
    following cycle that reads a sheet of the same row count handles no row
    and keeps the offset.  Over any number of cycles
    the offset never goes down and the row numbers handled are strictly
    increasing, so none is handled twice. *)
Theorem offset_discipline
        (env : Env) (id name : string) (st : state)
        (all_rows : list (list string)) (n : nat) :
  sheets_client env (calls st) id name = Ret all_rows ->
  let current_row_count := Py.len all_rows in
  let st1 := snd (monitor_spreadsheet env id name st) in
  let st2 := snd (monitor_spreadsheet env id name st1) in
  let stn := snd (monitoring_cycles env n id st) in
  last_processed_row init = 0
  /\ fst (monitor_spreadsheet env id name st) = Ret tt
  /\ last_processed_row st <= last_processed_row st1
  /\ (forall i,
         In i (processed_of (new_events st st1))
         <-> (last_processed_row st < i <= current_row_count /\ 2 <= i))
  /\ increasing (processed_of (new_events st st1))
  /\ handled_of (new_events st st1)
     = map (fun i => (i, row_at all_rows i))
           (processed_of (new_events st st1))
  /\ (last_processed_row st < current_row_count ->
      2 <= current_row_count ->
      last_processed_row st1 = current_row_count)
  /\ (forall all_rows',
         sheets_client env (calls st1) id name = Ret all_rows' ->
         Py.len all_rows' = current_row_count ->
         handled_of (new_events st1 st2) = []
         /\ last_processed_row st2 = last_processed_row st1)
  /\ fst (monitoring_cycles env n id st) = Ret tt
  /\ last_processed_row st <= last_processed_row stn
  /\ increasing (processed_of (new_events st stn))
  /\ NoDup (processed_of (new_events st stn)).
Proof.
  intros Hfetch current_row_count st1 st2 stn.
  split; [reflexivity |].
  assert (Hcycles :
            fst (monitoring_cycles env n id st) = Ret tt
            /\ last_processed_row st <= last_processed_row stn
            /\ increasing (processed_of (new_events st stn))
            /\ NoDup (processed_of (new_events st stn))).
  { subst stn.
    destruct (monitoring_cycles_summary env n id st)
      as (st' & tr & E & T & L & S & _).
    rewrite E. cbn [fst snd]. rewrite (new_events_app _ _ _ T).
    repeat split; try assumption. apply increasing_NoDup, S. }
  assert (Hcase : (1 < current_row_count
                   /\ last_processed_row st < current_row_count)
                  \/ (current_row_count <= 1
                      \/ current_row_count <= last_processed_row st))
    by lia.
  destruct Hcase as [[Hdata Hnew]|Hidle].
  - destruct (monitor_spreadsheet_active env id name st all_rows
                Hfetch Hdata Hnew) as (recs & k & tr & E & R & _).
    subst st2. subst st1. rewrite E. cbn [fst snd].
    rewrite new_events_mkState, (processed_of_rows _ _ _ R).
    cbn [last_processed_row calls].
    split; [reflexivity |]. split; [fold current_row_count; lia |].
    split; [intros i; rewrite range_In; fold current_row_count; lia |].
    split; [apply range_increasing |].
    split; [exact R |].
    split; [reflexivity |].
    split; [| exact Hcycles].
    intros all_rows' Hfetch' Hlen.
    match goal with
    | |- context [monitor_spreadsheet env id name ?s] =>
        destruct (idle_cycle env id name s) as (_ & R' & _ & _ & L' & _)
    end.
    { cbn [calls]. rewrite Hfetch'. right.
      cbn [last_processed_row]. fold current_row_count. lia. }
    split; [exact R' | exact L'].
  - destruct (idle_cycle env id name st) as (F & R & _ & _ & L & _).
    { rewrite Hfetch. exact Hidle. }
    fold st1 in R, L. unfold processed_of. rewrite F, R, L.
    split; [reflexivity |]. split; [lia |].
    split; [intros i; cbn [In map]; lia |].
    split; [constructor |].
    split; [reflexivity |].
    split; [lia |].
    split; [| exact Hcycles].
    intros all_rows' Hfetch' Hlen.
    destruct (idle_cycle env id name st1) as (_ & R' & _ & _ & L' & _).
    { rewrite Hfetch', L, Hlen. exact Hidle. }
    split; [exact R' | exact (eq_trans L' L)].
Qed.

Lemma offset_discipline_witness :
  sheets_client sheet_env (calls init) "sheet" "Responses" = Ret sheet_rows
  /\ last_processed_row
       (snd (monitor_spreadsheet sheet_env "sheet" "Responses" init))
     = 3
  /\ NoDup (processed_of
              (new_events init
                 (snd (monitoring_cycles sheet_env 2 "sheet" init)))).
Proof.
  split; [reflexivity |].
  destruct (offset_discipline sheet_env "sheet" "Responses" init
                              sheet_rows 2 eq_refl)
    as (_ & _ & _ & _ & _ & _ & L & _ & _ & _ & _ & N).
  split; [| exact N].
  apply L; vm_compute; [reflexivity | discriminate].
Defined.

(** ** Rows that cannot be extracted *)

(** C8.  Take a cycle that reads the sheet and a new row of it with fewer
    than eleven fields.  Handling that row returns normally from any state,
    appends no record, attempts no delivery and no translation, and leaves
    the offset alone.  The cycle returns, handles every new row of the
    sheet, that row among them and those after it, and ends with the offset
    at the row count.  The records appended by the cycle are those of the
    new rows that have their eleven fields, one document entry and one post
    for each: none has the id of the short row. *)
Theorem short_row_is_skipped_and_counted
        (env : Env) (id name : string) (st : state)
        (all_rows : list (list string)) (i : Z) :
  sheets_client env (calls st) id name = Ret all_rows ->
  Z.max 2 (last_processed_row st + 1) <= i <= Py.len all_rows ->
  Py.len (row_at all_rows i) < 11 ->
  let new_rows :=
    Py.range (Z.max 2 (last_processed_row st + 1)) (Py.len all_rows + 1) in
  let st' := snd (monitor_spreadsheet env id name st) in
  (forall s,
      let s' := snd (process_submission env (row_at all_rows i) i s) in
      fst (process_submission env (row_at all_rows i) i s) = Ret tt
      /\ structured_data s' = structured_data s
      /\ last_processed_row s' = last_processed_row s
      /\ docs_of (new_events s s') = []
      /\ posts_of (new_events s s') = []
      /\ translated_of (new_events s s') = [])
  /\ fst (monitor_spreadsheet env id name st) = Ret tt
  /\ last_processed_row st' = Py.len all_rows
  /\ handled_of (new_events st st')
     = map (fun j => (j, row_at all_rows j)) new_rows
  /\ In i new_rows
  /\ (forall j, i < j <= Py.len all_rows -> In j new_rows)
  /\ exists recs,
      structured_data st' = structured_data st ++ recs
      /\ map sr_id recs = map entry_id (filter (extractable all_rows) new_rows)
      /\ ~ In (entry_id i) (map sr_id recs)
      /\ length (docs_of (new_events st st')) = length recs
      /\ length (posts_of (new_events st st')) = length recs.
Proof.
  intros Hfetch Hi Hshort new_rows st'.
  split.
  { intros s s'. subst s'.
    rewrite (process_submission_short env _ i s Hshort). cbn [fst snd].
    rewrite new_events_advance.
    cbn [advance structured_data last_processed_row].
    rewrite app_nil_r. repeat split. }
  destruct (monitor_spreadsheet_active env id name st all_rows Hfetch)
    as (recs & k & tr & E & R & I & D & P); [lia | lia |].
  fold new_rows in R, I.
  subst st'. rewrite E. cbn [fst snd last_processed_row structured_data].
  rewrite new_events_mkState.
  split; [reflexivity |]. split; [reflexivity |]. split; [exact R |].
  split; [apply range_In; lia |].
  split; [intros j Hj; apply range_In; lia |].
  exists recs. split; [reflexivity |]. split; [exact I |].
  split; [| split; assumption].
  rewrite I. intros Hin. apply in_map_iff in Hin.
  destruct Hin as (j & Hid & Hj).
  apply entry_id_inj in Hid. subst j. apply filter_In in Hj. destruct Hj as [_ Hj].
  unfold extractable in Hj. apply Z.leb_le in Hj. lia.
Qed.

Lemma short_row_is_skipped_and_counted_witness :
  Py.len (row_at sheet_rows 3) < 11
  /\ last_processed_row
       (snd (monitor_spreadsheet sheet_env "sheet" "Responses" init))
     = 3
  /\ exists recs,
      structured_data
        (snd (monitor_spreadsheet sheet_env "sheet" "Responses" init))
      = recs
      /\ map sr_id recs = ["entry_2"]%string.
Proof.
  split; [vm_compute; reflexivity |].
  destruct (short_row_is_skipped_and_counted
              sheet_env "sheet" "Responses" init sheet_rows 3 eq_refl
              ltac:(vm_compute; split; discriminate)
              ltac:(vm_compute; reflexivity))
    as (_ & _ & L & _ & _ & _ & recs & S & I & _).
  split; [exact L |].
  exists recs. split; [exact S | exact I].
Defined.

(** ** Deliveries *)

(** C9, as the code has it.  For a row with its eleven fields, whatever the
    translation service and the webhook do (raise, refuse, answer
    anything), handling the row returns normally, the document entry is
    prepared once, the message is posted to the webhook once, and the
    record of the row is appended, under the id of the row.  In the web
    service, for any extracted submission, the result is a success that
    carries the outcome of both deliveries and the record, the document
    step has run and logged, and the record appended is that of the
    submission under the id of the entry.  The notification step of the web
    service posts once when a webhook address is set; when none is set it
    posts nothing and reports failure, which changes neither the document
    step nor the record. *)
Theorem deliveries_are_independent
        (env : Env) (row_data : list string) (row_number : Z) (st : state) :
  11 <= Py.len row_data ->
  let data := positional_submission row_data in
  let st' := snd (process_submission env row_data row_number st) in
  fst (process_submission env row_data row_number st) = Ret tt
  /\ (exists fc, docs_of (new_events st st') = [fc])
  /\ (exists content,
         posts_of (new_events st st') = [(discord_webhook_url env, content)])
  /\ (exists r,
         structured_data st' = structured_data st ++ [r]
         /\ sr_id r = entry_id row_number
         /\ sr_title_original r = title data
         /\ sr_quote_original r = quote data)
  /\ (forall entry_number s,
         let s' := snd (App.process_submission env data entry_number s) in
         exists discord_sent translated_title translated_quote processed_at,
           let r :=
             mkStructuredRecord
               (entry_id entry_number) (timestamp data)
               (submitter data) (title data) translated_title
               (quote data) translated_quote
               (aff_tags data) (neg_tags data)
               (source_url data) (update_date data) (eng_source data)
               (attachment data) (remark data) processed_at in
           fst (App.process_submission env data entry_number s)
           = Ret (App.Success entry_number true discord_sent r)
           /\ structured_data s' = structured_data s ++ [r]
           /\ In (Log "INFO"
                      ("Formatted content for Google Docs: " ++ title data))
                 (new_events s s')
           /\ (Py.truthy (discord_webhook_url env) = true ->
               exists content,
                 posts_of (new_events s s')
                 = [(discord_webhook_url env, content)])
           /\ (Py.truthy (discord_webhook_url env) = false ->
               discord_sent = false
               /\ posts_of (new_events s s') = []
               /\ In (Log "WARNING" "Discord webhook URL not configured")
                     (new_events s s'))).
Proof.
  intros H data st'.
  destruct (process_submission_long env row_data row_number st H)
    as (tq1 & tq2 & r & k & tr & E & D & P & _ & I & T & Q).
  subst st'. rewrite E. cbn [fst snd]. rewrite new_events_advance.
  split; [reflexivity |].
  split; [eexists; exact D |].
  split; [eexists; exact P |].
  split; [exists r; repeat split; assumption |].
  intros entry_number s.
  destruct (app_process_submission_run env data entry_number s)
    as (sent & r' & k' & tr' & E' & _ & L' & On & Off).
  destruct (app_process_submission_record env data entry_number s)
    as (sent2 & tt' & tq & at' & k2 & tr2 & E2).
  cbv zeta in E2. rewrite E' in E2.
  injection E2 as Esent Er _. subst r'.
  rewrite E'. cbn [fst snd]. rewrite new_events_advance.
  exists sent, tt', tq, at'. cbv zeta. unfold entry_id.
  split; [reflexivity |]. split; [reflexivity |].
  split; [exact L' |]. split; [| exact Off].
  intros U. destruct (On U) as (tq' & Ptq). eexists. exact Ptq.
Qed.

Lemma deliveries_are_independent_witness :
  11 <= Py.len row_A
  /\ fst (process_submission failing_env row_A 2 init) = Ret tt
  /\ (exists content,
         posts_of (new_events init
                     (snd (process_submission failing_env row_A 2 init)))
         = [("https://discord.example/hook"%string, content)])
  /\ length (structured_data
               (snd (process_submission failing_env row_A 2 init)))
     = 1%nat.
Proof.
  split; [vm_compute; discriminate |].
  destruct (deliveries_are_independent failing_env row_A 2 init
              ltac:(vm_compute; discriminate))
    as (F & _ & P & (r & S & _) & _).
  split; [exact F |]. split; [exact P |].
  rewrite S. reflexivity.
Defined.

(** C9 as stated fails for the web service: started without a webhook
    address, it handles an extracted submission with success, with the
    document step done and the record appended, and the notification is
    not attempted: nothing is posted. *)
Lemma notification_is_not_always_attempted :
  ~ both_deliveries_attempted no_webhook_env (positional_submission row_A)
                              1 init
  /\ (exists r,
         fst (App.process_submission no_webhook_env
                                     (positional_submission row_A) 1 init)
         = Ret (App.Success 1 true false r)
         /\ structured_data
              (snd (App.process_submission no_webhook_env
                                           (positional_submission row_A)
                                           1 init))
            = [r])
  /\ posts_of
       (new_events init
          (snd (App.process_submission no_webhook_env
                                       (positional_submission row_A) 1 init)))
     = [].
Proof.
  split; [| split].
  - intros [_ H]. apply H. vm_compute. reflexivity.
  - eexists. split; vm_compute; reflexivity.
  - vm_compute. reflexivity.
Qed.

(** * The rest of the web service *)

(** ** The latest submissions *)

Lemma app_extract_short row_data st :
  Py.len row_data < 11 ->
  App.extract_submission_data row_data st
  = (Ret None,
     advance st [] 0
             [Log "WARNING"
                  ("Insufficient data in row: "
                   ++ Py.str_of_int (Py.len row_data) ++ " columns")]).
Proof.
  intros H. unfold App.extract_submission_data.
  apply try_except_ret, app_extract_body_short, H.
Qed.

Lemma app_extract_long row_data st :
  11 <= Py.len row_data ->
  App.extract_submission_data row_data st
  = (Ret (Some (positional_submission row_data)), st).
Proof.
  intros H. unfold App.extract_submission_data.
  apply try_except_ret, app_extract_body_long, H.
Qed.

Lemma range_nil lo hi : hi <= lo -> Py.range lo hi = [].
Proof.
  intros H. unfold Py.range.
  replace (Z.to_nat (hi - lo)) with 0%nat by lia. reflexivity.
Qed.

Lemma range_cons lo hi : lo < hi -> Py.range lo hi = lo :: Py.range (lo + 1) hi.
Proof.
  intros H. unfold Py.range.
  replace (Z.to_nat (hi - lo)) with (S (Z.to_nat (hi - (lo + 1)))) by lia.
  cbn [seq map]. f_equal; [lia |].
  rewrite <- seq_shift, map_map. apply map_ext. intros k. lia.
Qed.

Lemma skipn_cons_nth {A : Type} (d : A) (l : list A) (k : nat) :
  (k < length l)%nat -> skipn k l = nth k l d :: skipn (S k) l.
Proof.
  revert k. induction l as [|a l IH]; intros k H; cbn [length] in H.
  - lia.
  - destruct k as [|k]; [reflexivity |].
    cbn [skipn nth]. apply IH. lia.
Qed.

Lemma only_logs_app tr1 tr2 :
  only_logs tr1 -> only_logs tr2 -> only_logs (tr1 ++ tr2).
Proof.
  intros [Q1 T1] [Q2 T2]. split; [apply quiet_app; assumption |].
  rewrite translated_of_app, T1, T2. reflexivity.
Qed.

(** The loop over the rows of the sheet from the one after the [k]th. *)
Lemma collect_latest_rows all_rows n :
  forall k acc st,
    length all_rows = (k + n)%nat ->
    exists tr,
      Web.collect_latest (skipn k all_rows) (Z.of_nat k + 1) acc st
      = (Ret (acc ++ latest_between all_rows (Z.of_nat k + 1)),
         advance st [] 0 tr)
      /\ only_logs tr.
Proof.
  unfold latest_between, Py.len.
  induction n as [|n IH]; intros k acc st Hlen.
  - exists []. rewrite skipn_all2 by lia. rewrite range_nil by lia.
    cbn [Web.collect_latest flat_map]. unfold ret.
    rewrite advance_nil, app_nil_r. repeat split.
  - rewrite (skipn_cons_nth [] all_rows k) by lia.
    rewrite range_cons by lia. cbn [Web.collect_latest flat_map].
    replace (nth k all_rows []) with (row_at all_rows (Z.of_nat k + 1)).
    2:{ unfold row_at. f_equal. lia. }
    unfold latest_at at 1, extractable. unfold bind at 1.
    destruct (11 <=? Py.len (row_at all_rows (Z.of_nat k + 1))) eqn:E.
    + apply Z.leb_le in E. rewrite (app_extract_long _ st E).
      destruct (IH (S k)
                  (acc ++ [Web.mkLatest
                             (positional_submission
                                (row_at all_rows (Z.of_nat k + 1)))
                             (Z.of_nat k + 1)])
                  st ltac:(lia)) as (tr & R & L).
      replace (Z.of_nat (S k) + 1) with (Z.of_nat k + 1 + 1) in R by lia.
      rewrite R. exists tr. rewrite <- app_assoc. split; [reflexivity | exact L].
    + apply Z.leb_gt in E. rewrite (app_extract_short _ st E).
      match goal with
      | |- context [Web.collect_latest _ _ _ ?s] =>
          destruct (IH (S k) acc s ltac:(lia)) as (tr & R & L)
      end.
      replace (Z.of_nat (S k) + 1) with (Z.of_nat k + 1 + 1) in R by lia.
      rewrite R, advance_advance. eexists. split; [reflexivity |].
      apply only_logs_app; [repeat split | exact L].
Qed.

(** What [get_latest_submissions] does, by the answer of the sheet
    service. *)
Lemma get_latest_submissions_run env sid limit st :
  match sheets_client env (calls st) sid "Responses" with
  | Raise e =>
      Web.get_latest_submissions env sid limit st
      = (Ret [],
         advance st [] 1
                 [Log "ERROR" ("Error getting latest submissions: " ++ e)])
  | Ret all_rows =>
      exists tr,
        Web.get_latest_submissions env sid limit st
        = (Ret (if Py.len all_rows <=? 1 then []
                else latest_between all_rows (window_start all_rows limit)),
           advance st [] 1 tr)
        /\ only_logs tr
  end.
Proof.
  destruct (sheets_client env (calls st) sid "Responses")
    as [all_rows|e] eqn:Hfetch;
    unfold Web.get_latest_submissions, try_except, get_all_values;
    unfold bind at 1; rewrite request_advance, Hfetch.
  - destruct (Py.len all_rows <=? 1) eqn:H1.
    + exists []. unfold ret. repeat split.
    + apply Z.leb_gt in H1.
      assert (Hstart :
                exists k,
                  (k <= length all_rows)%nat
                  /\ (if Py.len all_rows >? limit
                      then PyText.slice_from all_rows (- limit)
                      else PyText.slice_from all_rows 1)
                     = skipn k all_rows
                  /\ window_start all_rows limit = Z.of_nat k + 1).
      { unfold window_start, PyText.slice_from, Py.len in *.
        rewrite Z.gtb_ltb.
        destruct (limit <? Z.of_nat (length all_rows)) eqn:Hl;
          [apply Z.ltb_lt in Hl | apply Z.ltb_ge in Hl].
        - destruct (limit <=? 0) eqn:H0;
            [apply Z.leb_le in H0 | apply Z.leb_gt in H0].
          + destruct (- limit <? 0) eqn:Hn;
              [apply Z.ltb_lt in Hn; lia |].
            exists (Z.to_nat (Z.min (- limit) (Z.of_nat (length all_rows)))).
            split; [lia |]. split; [reflexivity | lia].
          + destruct (- limit <? 0) eqn:Hn;
              [| apply Z.ltb_ge in Hn; lia].
            exists (Z.to_nat (Z.max (- limit + Z.of_nat (length all_rows)) 0)).
            split; [lia |]. split; [reflexivity | lia].
        - destruct (limit <=? 0) eqn:H0; [apply Z.leb_le in H0; lia |].
          exists 1%nat. split; [lia |]. split; [| lia].
          cbn [Z.ltb Z.compare]. f_equal. lia. }
      destruct Hstart as (k & Hk & -> & ->).
      destruct (collect_latest_rows all_rows (length all_rows - k) k []
                  (advance st [] 1 []) ltac:(lia)) as (tr & R & L).
      replace (Py.len all_rows - Py.len (skipn k all_rows) + 1)
        with (Z.of_nat k + 1).
      2:{ unfold Py.len. rewrite length_skipn. lia. }
      rewrite R, advance_advance. exists tr. split; [reflexivity | exact L].
  - run. reflexivity.
Qed.

Lemma latest_between_numbers all_rows lo :
  map Web.latest_row_number (latest_between all_rows lo)
  = filter (extractable all_rows) (Py.range lo (Py.len all_rows + 1)).
Proof.
  unfold latest_between.
  induction (Py.range lo (Py.len all_rows + 1)) as [|i l IH];
    [reflexivity |].
  cbn [flat_map filter]. rewrite map_app, IH. unfold latest_at.
  destruct (extractable all_rows i); reflexivity.
Qed.

Lemma latest_between_In all_rows lo s :
  In s (latest_between all_rows lo) ->
  lo <= Web.latest_row_number s <= Py.len all_rows
  /\ 11 <= Py.len (row_at all_rows (Web.latest_row_number s))
  /\ Web.latest_data s
     = positional_submission (row_at all_rows (Web.latest_row_number s)).
Proof.
  unfold latest_between. rewrite in_flat_map.
  intros (i & Hi & Hs). apply range_In in Hi. unfold latest_at in Hs.
  destruct (extractable all_rows i) eqn:E; [| contradiction].
  destruct Hs as [<- | []]. cbn [Web.latest_row_number Web.latest_data].
  unfold extractable in E. apply Z.leb_le in E.
  split; [lia |]. split; [exact E | reflexivity].
Qed.

Lemma filter_length_le {A : Type} (f : A -> bool) (l : list A) :
  (length (filter f l) <= length l)%nat.
Proof.
  induction l as [|a l IH]; cbn [filter length]; [lia |].
  destruct (f a); cbn [length]; lia.
Qed.

Lemma increasing_filter (f : Z -> bool) (l : list Z) :
  increasing l -> increasing (filter f l).
Proof.
  unfold increasing. induction 1 as [|a l S IH F]; cbn [filter].
  - constructor.
  - destruct (f a); [| exact IH]. constructor; [exact IH |].
    rewrite Forall_forall in *. intros x Hx. apply filter_In in Hx.
    apply F, Hx.
Qed.

Lemma range_length lo hi : length (Py.range lo hi) = Z.to_nat (hi - lo).
Proof. unfold Py.range. rewrite length_map, length_seq. reflexivity. Qed.

(** X1.  With a limit of at least 1, on a sheet that has rows after its
    header, [get_latest_submissions] returns, for each of the last [limit]
    rows after the header in order, the submission of the row when the row
    has its eleven fields, with the number of the row in the sheet: at most
    [limit] submissions, none for the header, numbered increasingly. *)
Theorem latest_submissions_window
        (env : Env) (sid : string) (limit : Z) (st : state)
        (all_rows : list (list string)) :
  sheets_client env (calls st) sid "Responses" = Ret all_rows ->
  1 < Py.len all_rows ->
  1 <= limit ->
  exists subs,
    fst (Web.get_latest_submissions env sid limit st) = Ret subs
    /\ subs = latest_between all_rows (Z.max 2 (Py.len all_rows - limit + 1))
    /\ Py.len subs <= limit
    /\ increasing (map Web.latest_row_number subs)
    /\ Forall (fun s =>
                 2 <= Web.latest_row_number s <= Py.len all_rows
                 /\ Py.len all_rows - limit < Web.latest_row_number s
                 /\ 11 <= Py.len (row_at all_rows (Web.latest_row_number s))
                 /\ Web.latest_data s
                    = positional_submission
                        (row_at all_rows (Web.latest_row_number s)))
              subs.
Proof.
  intros Hfetch Hdata Hlimit.
  pose proof (get_latest_submissions_run env sid limit st) as H.
  rewrite Hfetch in H. destruct H as (tr & E & _).
  destruct (Py.len all_rows <=? 1) eqn:H1; [apply Z.leb_le in H1; lia |].
  unfold window_start in E.
  destruct (limit <=? 0) eqn:H0; [apply Z.leb_le in H0; lia |].
  eexists. rewrite E. split; [reflexivity |]. split; [reflexivity |].
  split; [| split].
  - unfold Py.len at 1. rewrite <- (length_map Web.latest_row_number).
    rewrite latest_between_numbers.
    pose proof (filter_length_le (extractable all_rows)
                  (Py.range (Z.max 2 (Py.len all_rows - limit + 1))
                            (Py.len all_rows + 1))) as L.
    rewrite range_length in L. lia.
  - rewrite latest_between_numbers.
    apply increasing_filter, range_increasing.
  - apply Forall_forall. intros s Hs.
    apply latest_between_In in Hs. destruct Hs as (R & L & D).
    repeat split; try assumption; lia.
Qed.

Lemma latest_submissions_window_witness :
  exists data,
    fst (Web.get_latest_submissions sheet_env "sheet" 1 init) = Ret []
    /\ fst (Web.get_latest_submissions sheet_env "sheet" 2 init)
       = Ret [Web.mkLatest data 2]
    /\ title data = "Title1"%string.
Proof.
  destruct (latest_submissions_window sheet_env "sheet" 1 init sheet_rows
              eq_refl ltac:(vm_compute; reflexivity)
              ltac:(vm_compute; discriminate))
    as (subs1 & E1 & S1 & _).
  destruct (latest_submissions_window sheet_env "sheet" 2 init sheet_rows
              eq_refl ltac:(vm_compute; reflexivity)
              ltac:(vm_compute; discriminate))
    as (subs2 & E2 & S2 & _).
  exists (positional_submission row_A).
  rewrite E1, E2, S1, S2. repeat split.
Defined.

(** X2.  A limit of 0 or less does not return nothing: on a sheet that has
    rows after its header, a limit [-k] returns the submissions of all the
    rows after the first [k], numbered from [k + 1].  With the limit 0 that
    is the whole sheet, and the header itself comes back as submission
    number 1 when it has eleven columns. *)
Theorem latest_submissions_nonpositive_limit
        (env : Env) (sid : string) (limit : Z) (st : state)
        (all_rows : list (list string)) :
  sheets_client env (calls st) sid "Responses" = Ret all_rows ->
  1 < Py.len all_rows ->
  limit <= 0 ->
  exists subs,
    fst (Web.get_latest_submissions env sid limit st) = Ret subs
    /\ subs = latest_between all_rows (Z.min (- limit) (Py.len all_rows) + 1)
    /\ (limit = 0 ->
        map Web.latest_row_number subs
        = filter (extractable all_rows) (Py.range 1 (Py.len all_rows + 1)))
    /\ (limit = 0 ->
        11 <= Py.len (row_at all_rows 1) ->
        exists more,
          subs = Web.mkLatest (positional_submission (row_at all_rows 1)) 1
                 :: more).
Proof.
  intros Hfetch Hdata Hlimit.
  pose proof (get_latest_submissions_run env sid limit st) as H.
  rewrite Hfetch in H. destruct H as (tr & E & _).
  destruct (Py.len all_rows <=? 1) eqn:H1; [apply Z.leb_le in H1; lia |].
  unfold window_start in E.
  destruct (limit <=? 0) eqn:H0; [| apply Z.leb_gt in H0; lia].
  eexists. rewrite E. split; [reflexivity |]. split; [reflexivity |].
  split.
  - intros ->. rewrite latest_between_numbers.
    replace (Z.min (- 0) (Py.len all_rows) + 1) with 1 by lia. reflexivity.
  - intros -> Hhead.
    replace (Z.min (- 0) (Py.len all_rows) + 1) with 1 by lia.
    unfold latest_between. rewrite range_cons by lia.
    cbn [flat_map]. unfold latest_at at 1, extractable.
    apply Z.leb_le in Hhead. rewrite Hhead. eexists. reflexivity.
Qed.

Lemma latest_submissions_nonpositive_limit_witness :
  exists header data,
    fst (Web.get_latest_submissions wide_env "sheet" 0 init)
    = Ret [Web.mkLatest header 1; Web.mkLatest data 2]
    /\ title header = "Title"%string.
Proof.
  destruct (latest_submissions_nonpositive_limit
              wide_env "sheet" 0 init wide_rows
              eq_refl ltac:(vm_compute; reflexivity)
              ltac:(vm_compute; discriminate))
    as (subs & E & S & _).
  exists (positional_submission wide_header), (positional_submission row_A).
  rewrite E, S. split; reflexivity.
Defined.

(** X3.  [get_latest_submissions] only reads: whatever the sheet service
    answers and whatever the limit, it returns normally after exactly one
    request, leaves the offset and the accumulator as they are, and neither
    posts, nor prepares a document entry, nor translates.  When the request
    raises it returns the empty list and logs the error; on a sheet of at
    most one row it returns the empty list. *)
Theorem latest_submissions_only_reads
        (env : Env) (sid : string) (limit : Z) (st : state) :
  exists subs tr,
    Web.get_latest_submissions env sid limit st
    = (Ret subs,
       mkState (last_processed_row st) (structured_data st) (S (calls st))
               (trace st ++ tr))
    /\ docs_of tr = [] /\ posts_of tr = [] /\ translated_of tr = []
    /\ handled_of tr = []
    /\ match sheets_client env (calls st) sid "Responses" with
       | Raise e =>
           subs = []
           /\ tr = [Log "ERROR" ("Error getting latest submissions: " ++ e)]
       | Ret all_rows => Py.len all_rows <= 1 -> subs = []
       end.
Proof.
  pose proof (get_latest_submissions_run env sid limit st) as H.
  destruct (sheets_client env (calls st) sid "Responses") as [all_rows|e].
  - destruct H as (tr & E & (D & P & R) & T).
    do 2 eexists. rewrite E. unfold advance.
    rewrite app_nil_r, Nat.add_1_r.
    split; [reflexivity |]. repeat split; try assumption.
    intros Hlen. apply Z.leb_le in Hlen. rewrite Hlen. reflexivity.
  - do 2 eexists. rewrite H. unfold advance.
    rewrite app_nil_r, Nat.add_1_r.
    split; [reflexivity |]. repeat split.
Qed.

(** ** Batches *)

Lemma Forall2_map_left {A B C : Type} (f : A -> B) (R : B -> C -> Prop)
      (l : list A) (l' : list C) :
  Forall2 (fun a c => R (f a) c) l l' -> Forall2 R (map f l) l'.
Proof. induction 1; cbn [map]; constructor; assumption. Qed.

Lemma starts_with_payload n data tq :
  starts_with (title_line n data ++ Py.LF)%string
              (discord_payload_content n data (quote data) tq).
Proof.
  exists (discord_message_content data (quote data) tq).
  unfold discord_payload_content. rewrite string_app_assoc. reflexivity.
Qed.

(** The loop of a batch over the submissions it was given. *)
Lemma process_all_run env subs :
  forall acc st,
    exists results recs k tr,
      Web.process_all env subs acc st
      = (Ret (acc ++ results), advance st recs k tr)
      /\ map sr_id recs
         = map (fun s => entry_id (Web.latest_row_number s)) subs
      /\ Forall2 (fun s r =>
                    exists sent rec,
                      r = App.Success (Web.latest_row_number s) true sent rec
                      /\ sr_id rec = entry_id (Web.latest_row_number s))
                 subs results
      /\ (Py.truthy (discord_webhook_url env) = true ->
          Forall2 (fun s post =>
                     fst post = discord_webhook_url env
                     /\ starts_with
                          (title_line (Web.latest_row_number s)
                                      (Web.latest_data s) ++ Py.LF)%string
                          (snd post))
                  subs (posts_of tr)).
Proof.
  induction subs as [|s subs IH]; intros acc st.
  - exists [], [], 0%nat, []. cbn [Web.process_all]. unfold ret.
    rewrite advance_nil, app_nil_r.
    split; [reflexivity |]. split; [reflexivity |].
    split; [constructor |]. intros _. constructor.
  - cbn [Web.process_all]. unfold bind at 1.
    destruct (app_process_submission_run
                env (Web.latest_data s) (Web.latest_row_number s) st)
      as (sent & r & k & tr & E & I & _ & On & _).
    rewrite E.
    destruct (IH (acc ++ [App.Success (Web.latest_row_number s) true sent r])
                 (advance st [r] k tr))
      as (results & recs & k' & tr' & E' & I' & F' & P').
    rewrite E', advance_advance, <- app_assoc.
    do 4 eexists. split; [reflexivity |].
    split; [rewrite map_app; cbn [map app]; rewrite I, I'; reflexivity |].
    split.
    + cbn [app]. constructor; [| exact F'].
      exists sent, r. split; [reflexivity | exact I].
    + intros U. rewrite posts_of_app.
      destruct (On U) as (tq & ->). cbn [app].
      constructor; [| exact (P' U)].
      cbn [fst snd]. split; [reflexivity | apply starts_with_payload].
Qed.

(** What a batch does on a sheet that has rows after its header. *)
Lemma batch_run env sid st all_rows :
  sheets_client env (calls st) sid "Responses" = Ret all_rows ->
  1 < Py.len all_rows ->
  let subs := latest_between all_rows (Z.max 2 (Py.len all_rows - 9)) in
  exists results timestamp recs k tr,
    Web.batch_process_submissions env sid true st
    = (Ret (Web.BatchDone (Py.len results) results timestamp),
       advance st recs k tr)
    /\ map sr_id recs
       = map (fun s => entry_id (Web.latest_row_number s)) subs
    /\ Forall2 (fun s r =>
                  exists sent rec,
                    r = App.Success (Web.latest_row_number s) true sent rec
                    /\ sr_id rec = entry_id (Web.latest_row_number s))
               subs results
    /\ (Py.truthy (discord_webhook_url env) = true ->
        Forall2 (fun s post =>
                   fst post = discord_webhook_url env
                   /\ starts_with
                        (title_line (Web.latest_row_number s)
                                    (Web.latest_data s) ++ Py.LF)%string
                        (snd post))
                subs (posts_of tr)).
Proof.
  intros Hfetch Hdata subs.
  pose proof (get_latest_submissions_run env sid 10 st) as H.
  rewrite Hfetch in H. destruct H as (tr0 & E0 & (_ & P0 & _) & _).
  destruct (Py.len all_rows <=? 1) eqn:H1; [apply Z.leb_le in H1; lia |].
  unfold window_start in E0. cbn [Z.leb Z.compare] in E0.
  replace (Py.len all_rows - 10 + 1) with (Py.len all_rows - 9) in E0 by lia.
  fold subs in E0.
  unfold Web.batch_process_submissions. cbn [negb]. unfold try_except.
  unfold bind at 1. rewrite E0.
  destruct (process_all_run env subs [] (advance st [] 1 tr0))
    as (results & recs & k & tr & E & I & F & P).
  unfold bind at 1. rewrite E. unfold now_isoformat. run.
  cbn [app]. do 5 eexists. split; [reflexivity |].
  split; [cbn [app]; rewrite app_nil_r; exact I |]. split; [exact F |].
  intros U. rewrite !posts_of_app, P0. cbn [app posts_of flat_map].
  rewrite app_nil_r. exact (P U).
Qed.

(** X4.  On a sheet that has rows after its header, the batch route handles
    the rows among the last ten after the header that have their eleven
    fields, in order: it answers with their count and one successful result
    for each, carrying the number of the row in the sheet, and appends one
    record for each, with the id [entry_] followed by that row number. *)
Theorem batch_handles_the_last_ten_rows
        (env : Env) (sid : string) (st : state)
        (all_rows : list (list string)) :
  sheets_client env (calls st) sid "Responses" = Ret all_rows ->
  1 < Py.len all_rows ->
  let rows :=
    filter (extractable all_rows)
           (Py.range (Z.max 2 (Py.len all_rows - 9)) (Py.len all_rows + 1)) in
  let st' := snd (Web.batch_process_submissions env sid true st) in
  exists results timestamp recs,
    fst (Web.batch_process_submissions env sid true st)
    = Ret (Web.BatchDone (Py.len rows) results timestamp)
    /\ Py.len rows <= 10
    /\ Forall2 (fun i r =>
                  exists sent rec,
                    r = App.Success i true sent rec
                    /\ sr_id rec = entry_id i)
               rows results
    /\ structured_data st' = structured_data st ++ recs
    /\ map sr_id recs = map entry_id rows
    /\ last_processed_row st' = last_processed_row st.
Proof.
  intros Hfetch Hdata rows st'.
  destruct (batch_run env sid st all_rows Hfetch Hdata)
    as (results & timestamp & recs & k & tr & E & I & F & _).
  subst st'. rewrite E. cbn [fst snd].
  rewrite <- (map_map Web.latest_row_number entry_id) in I.
  rewrite latest_between_numbers in I. fold rows in I.
  apply Forall2_map_left
    with (f := Web.latest_row_number)
         (R := fun i r => exists sent rec,
                   r = App.Success i true sent rec /\ sr_id rec = entry_id i)
    in F.
  rewrite latest_between_numbers in F. fold rows in F.
  exists results, timestamp, recs.
  split.
  { unfold Py.len. rewrite (Forall2_length F). reflexivity. }
  split.
  { subst rows. unfold Py.len at 1.
    pose proof (filter_length_le (extractable all_rows)
                  (Py.range (Z.max 2 (Py.len all_rows - 9))
                            (Py.len all_rows + 1))) as L.
    rewrite range_length in L. lia. }
  repeat split; assumption.
Qed.

Lemma batch_handles_the_last_ten_rows_witness :
  exists results timestamp,
    fst (Web.batch_process_submissions sheet_env "sheet" true init)
    = Ret (Web.BatchDone 1 results timestamp)
    /\ map sr_id
           (structured_data
              (snd (Web.batch_process_submissions sheet_env "sheet" true
                                                  init)))
       = ["entry_2"]%string.
Proof.
  destruct (batch_handles_the_last_ten_rows
              sheet_env "sheet" init sheet_rows eq_refl
              ltac:(vm_compute; reflexivity))
    as (results & timestamp & recs & E & _ & _ & S & I & _).
  exists results, timestamp. split; [exact E |].
  rewrite S. exact I.
Defined.

(** X5.  The batch route keeps no offset: a second batch on an unchanged
    sheet handles the same rows again, so that the accumulator ends with
    the ids of those rows twice. *)
Theorem batch_twice_appends_twice
        (env : Env) (sid : string) (st : state)
        (all_rows : list (list string)) :
  let st1 := snd (Web.batch_process_submissions env sid true st) in
  let st2 := snd (Web.batch_process_submissions env sid true st1) in
  let ids :=
    map entry_id
        (filter (extractable all_rows)
                (Py.range (Z.max 2 (Py.len all_rows - 9))
                          (Py.len all_rows + 1))) in
  sheets_client env (calls st) sid "Responses" = Ret all_rows ->
  sheets_client env (calls st1) sid "Responses" = Ret all_rows ->
  1 < Py.len all_rows ->
  map sr_id (structured_data st2)
  = map sr_id (structured_data st) ++ ids ++ ids.
Proof.
  intros st1 st2 ids Hfetch Hfetch1 Hdata.
  destruct (batch_run env sid st all_rows Hfetch Hdata)
    as (results & timestamp & recs & k & tr & E & I & _).
  destruct (batch_run env sid st1 all_rows Hfetch1 Hdata)
    as (results' & timestamp' & recs' & k' & tr' & E' & I' & _).
  rewrite <- (map_map Web.latest_row_number entry_id) in I, I'.
  rewrite latest_between_numbers in I, I'.
  subst st2. rewrite E'. cbn [snd advance structured_data].
  subst st1. rewrite E. cbn [snd advance structured_data].
  rewrite !map_app, I, I', <- app_assoc. reflexivity.
Qed.

Lemma batch_twice_appends_twice_witness :
  map sr_id
      (structured_data
         (snd (Web.batch_process_submissions
                 sheet_env "sheet" true
                 (snd (Web.batch_process_submissions sheet_env "sheet" true
                                                     init)))))
  = ["entry_2"; "entry_2"]%string.
Proof.
  exact (batch_twice_appends_twice sheet_env "sheet" init sheet_rows
                                   eq_refl eq_refl
                                   ltac:(vm_compute; reflexivity)).
Defined.

Lemma Forall2_and_left {A B : Type} (R : A -> B -> Prop) (Q : A -> Prop)
      (l : list A) (l' : list B) :
  Forall2 R l l' -> Forall Q l -> Forall2 (fun a b => Q a /\ R a b) l l'.
Proof.
  induction 1 as [|a b l l' Hab _ IH]; intros HQ; constructor.
  - split; [exact (Forall_inv HQ) | exact Hab].
  - apply IH. exact (Forall_inv_tail HQ).
Qed.

(** X6.  The batch route numbers what it shows by the row of the sheet, the
    header counted: with a webhook address set, it posts one notification
    for each row it handles, in order, and the notification of row [i]
    starts with the title line [i. <title> (<submitter>)] of that row, the
    number also used in the id of its record. *)
Theorem batch_shows_the_sheet_row_number
        (env : Env) (sid : string) (st : state)
        (all_rows : list (list string)) :
  sheets_client env (calls st) sid "Responses" = Ret all_rows ->
  1 < Py.len all_rows ->
  Py.truthy (discord_webhook_url env) = true ->
  let rows :=
    filter (extractable all_rows)
           (Py.range (Z.max 2 (Py.len all_rows - 9)) (Py.len all_rows + 1)) in
  let st' := snd (Web.batch_process_submissions env sid true st) in
  Forall2 (fun i post =>
             fst post = discord_webhook_url env
             /\ starts_with
                  (Py.str_of_int i ++ ". "
                   ++ title (positional_submission (row_at all_rows i))
                   ++ " ("
                   ++ submitter (positional_submission (row_at all_rows i))
                   ++ ")" ++ Py.LF)%string
                  (snd post))
          rows (posts_of (new_events st st'))
  /\ map sr_id (skipn (length (structured_data st)) (structured_data st'))
     = map (fun i => ("entry_" ++ Py.str_of_int i)%string) rows.
Proof.
  intros Hfetch Hdata U rows st'.
  destruct (batch_run env sid st all_rows Hfetch Hdata)
    as (results & timestamp & recs & k & tr & E & I & _ & P).
  subst st'. rewrite E. cbn [snd]. rewrite new_events_advance.
  cbn [advance structured_data].
  rewrite skipn_app, skipn_all, Nat.sub_diag. cbn [skipn app].
  rewrite <- (map_map Web.latest_row_number entry_id) in I.
  rewrite latest_between_numbers in I. fold rows in I.
  split; [| exact I].
  specialize (P U).
  assert (Q : Forall (fun s =>
                        Web.latest_data s
                        = positional_submission
                            (row_at all_rows (Web.latest_row_number s)))
                     (latest_between all_rows
                                     (Z.max 2 (Py.len all_rows - 9)))).
  { apply Forall_forall. intros s Hs.
    apply latest_between_In in Hs. apply Hs. }
  pose proof (Forall2_and_left _ _ _ _ P Q) as PQ.
  subst rows. rewrite <- latest_between_numbers.
  apply Forall2_map_left.
  eapply Forall2_impl; [| exact PQ].
  cbn beta. intros s post (D & F & S). split; [exact F |].
  rewrite <- D. unfold title_line in S.
  rewrite !string_app_assoc in S. exact S.
Qed.

Lemma batch_shows_the_sheet_row_number_witness :
  map sr_id
      (skipn (length (structured_data init))
             (structured_data
                (snd (Web.batch_process_submissions sheet_env "sheet" true
                                                    init))))
  = map (fun i => ("entry_" ++ Py.str_of_int i)%string) [2].
Proof.
  exact (proj2 (batch_shows_the_sheet_row_number
                  sheet_env "sheet" init sheet_rows eq_refl
                  ltac:(vm_compute; reflexivity) eq_refl)).
Defined.

(** ** The form webhook *)

Lemma first_answer_ok named_values key :
  no_answer named_values key = false ->
  Web.first_answer named_values key = Ret (answer named_values key).
Proof.
  unfold no_answer, Web.first_answer, answer.
  destruct (named_values key) as [[|first more]|];
    [discriminate | reflexivity | reflexivity].
Qed.

Lemma first_answer_raise named_values key :
  no_answer named_values key = true ->
  Web.first_answer named_values key = Raise "list index out of range".
Proof.
  unfold no_answer, Web.first_answer.
  destruct (named_values key) as [[|first more]|];
    [reflexivity | discriminate | discriminate].
Qed.

(** The webhook on a form none of whose questions has an empty list of
    answers. *)
Lemma webhook_accepts env named_values st :
  existsb (no_answer named_values) webhook_keys = false ->
  exists sent translated_title translated_quote processed_at k tr,
    let data :=
      positional_submission (map (answer named_values) webhook_keys) in
    let r :=
      mkStructuredRecord
        "entry_1" (timestamp data)
        (submitter data) (title data) translated_title
        (quote data) translated_quote
        (aff_tags data) (neg_tags data)
        (source_url data) (update_date data) (eng_source data)
        (attachment data) (remark data) processed_at in
    Web.form_submit_webhook env true (Web.JsonObject (Some named_values)) st
    = (Ret (Web.Processed (App.Success 1 true sent r)), advance st [r] k tr).
Proof.
  intros H. cbn [existsb webhook_keys] in H.
  repeat match type of H with
         | (_ || _)%bool = false =>
             let Hk := fresh "Hk" in
             apply orb_false_iff in H; destruct H as [Hk H];
             apply first_answer_ok in Hk
         end.
  unfold Web.form_submit_webhook. cbn [negb]. unfold try_except.
  unfold bind, lift.
  rewrite Hk, Hk0, Hk1, Hk2, Hk3, Hk4, Hk5, Hk6, Hk7, Hk8, Hk9.
  match goal with
  | |- context [App.extract_submission_data ?row st] =>
      rewrite (app_extract_long row st ltac:(vm_compute; discriminate));
      destruct (app_process_submission_record
                  env (positional_submission row) 1 st)
        as (sent & tt' & tq & at' & k & tr & E)
  end.
  cbv zeta in E. rewrite E.
  exists sent, tt', tq, at', k, tr. reflexivity.
Qed.

(** The webhook on a form one of whose questions has an empty list of
    answers. *)
Lemma webhook_rejects env named_values st :
  existsb (no_answer named_values) webhook_keys = true ->
  Web.form_submit_webhook env true (Web.JsonObject (Some named_values)) st
  = (Ret (Web.ErrorResponse 500 "list index out of range"),
     advance st [] 0
             [Log "ERROR"
                  "Error in form_submit_webhook: list index out of range"]).
Proof.
  intros H. cbn [existsb webhook_keys] in H.
  unfold Web.form_submit_webhook. cbn [negb]. unfold try_except.
  repeat match type of H with
         | (no_answer named_values ?key || _)%bool = true =>
             let Hk := fresh "Hk" in
             destruct (no_answer named_values key) eqn:Hk;
             [ apply first_answer_raise in Hk;
               unfold bind at 1; unfold lift at 1; rewrite Hk;
               run; reflexivity
             | apply first_answer_ok in Hk;
               unfold bind at 1; unfold lift at 1; rewrite Hk;
               cbn [orb] in H ]
         end.
  discriminate H.
Qed.

(** X7.  When no question of the form has an empty list of answers, the
    webhook succeeds: the row it builds has the first answer of each of the
    eleven questions, the empty string for a missing question; the
    submission is handled as entry 1; and the record appended holds those
    answers, the two tag answers split, under the id [entry_1]. *)
Theorem form_webhook_accepts
        (env : Env) (named_values : string -> option (list string))
        (st : state) :
  existsb (no_answer named_values) webhook_keys = false ->
  let run :=
    Web.form_submit_webhook env true (Web.JsonObject (Some named_values)) st in
  exists discord_sent r,
    fst run = Ret (Web.Processed (App.Success 1 true discord_sent r))
    /\ structured_data (snd run) = structured_data st ++ [r]
    /\ sr_id r = "entry_1"%string
    /\ sr_timestamp r = answer named_values "タイムスタンプ"
    /\ sr_submitter r = answer named_values "名前"
    /\ sr_title_original r = answer named_values "title"
    /\ sr_tags_affirmative r = parse_tags (answer named_values "AFF tags")
    /\ sr_tags_negative r = parse_tags (answer named_values "NEG tags")
    /\ sr_source_url r = answer named_values "URL of the Quotation"
    /\ sr_source_update_date r
       = answer named_values
                "The source, Update date, and Time(引用元・更新日時)"
    /\ sr_source_eng_source r = answer named_values "Eng Source"
    /\ sr_quote_original r = answer named_values "Quoted text(引用本文)"
    /\ sr_metadata_attachment r
       = answer named_values "Attachments(添付ファイル)"
    /\ sr_metadata_remark r = answer named_values "Remarks(備考)".
Proof.
  intros H run.
  destruct (webhook_accepts env named_values st H)
    as (sent & tt' & tq & at' & k & tr & E).
  cbv zeta in E. subst run. rewrite E. cbn [fst snd].
  do 2 eexists. split; [reflexivity |]. repeat split.
Qed.

Lemma form_webhook_accepts_witness :
  exists discord_sent r,
    fst (Web.form_submit_webhook failing_env true
           (Web.JsonObject (Some sample_form)) init)
    = Ret (Web.Processed (App.Success 1 true discord_sent r))
    /\ sr_id r = "entry_1"%string
    /\ sr_submitter r = "Alice"%string
    /\ sr_timestamp r = EmptyString
    /\ sr_tags_affirmative r = ["t1"; "t2"]%string.
Proof.
  destruct (form_webhook_accepts failing_env sample_form init eq_refl)
    as (sent & r & E & _ & I & T & S & _ & A & _).
  exists sent, r. repeat split; assumption.
Defined.

(** X8.  When a question of the form has an empty list of answers, the
    webhook answers 500 with the message of the index error, logs it, and
    does nothing else: no record, no post, no document entry, no
    translation, no request. *)
Theorem form_webhook_rejects_empty_answers
        (env : Env) (named_values : string -> option (list string))
        (st : state) :
  existsb (no_answer named_values) webhook_keys = true ->
  Web.form_submit_webhook env true (Web.JsonObject (Some named_values)) st
  = (Ret (Web.ErrorResponse 500 "list index out of range"),
     mkState (last_processed_row st) (structured_data st) (calls st)
             (trace st
              ++ [Log "ERROR"
                      "Error in form_submit_webhook: list index out of range"])).
Proof.
  intros H. rewrite (webhook_rejects env named_values st H).
  unfold advance. rewrite app_nil_r, Nat.add_0_r. reflexivity.
Qed.

Lemma form_webhook_rejects_empty_answers_witness :
  Web.form_submit_webhook failing_env true
                          (Web.JsonObject (Some broken_form)) init
  = (Ret (Web.ErrorResponse 500 "list index out of range"),
     mkState 0 [] 0
             [Log "ERROR"
                  "Error in form_submit_webhook: list index out of range"]).
Proof.
  exact (form_webhook_rejects_empty_answers failing_env broken_form init
                                            eq_refl).
Defined.

(** X10.  The webhook gives every form the same id: two forms accepted one
    after the other leave two records with the id [entry_1] at the end of
    the accumulator. *)
Theorem form_webhook_reuses_the_id
        (env : Env) (form1 form2 : string -> option (list string))
        (st : state) :
  existsb (no_answer form1) webhook_keys = false ->
  existsb (no_answer form2) webhook_keys = false ->
  let st1 :=
    snd (Web.form_submit_webhook env true (Web.JsonObject (Some form1)) st) in
  let st2 :=
    snd (Web.form_submit_webhook env true (Web.JsonObject (Some form2)) st1) in
  map sr_id (structured_data st2)
  = map sr_id (structured_data st) ++ ["entry_1"; "entry_1"]%string.
Proof.
  intros H1 H2 st1 st2.
  destruct (webhook_accepts env form1 st H1)
    as (sent & tt' & tq & at' & k & tr & E).
  cbv zeta in E.
  subst st2. subst st1. rewrite E. cbn [snd].
  match goal with
  | |- context [Web.form_submit_webhook env true _ ?s] =>
      destruct (webhook_accepts env form2 s H2)
        as (sent2 & tt2 & tq2 & at2 & k2 & tr2 & E2)
  end.
  cbv zeta in E2. rewrite E2. cbn [snd advance structured_data].
  rewrite !map_app, <- app_assoc. reflexivity.
Qed.

Lemma form_webhook_reuses_the_id_witness :
  map sr_id
      (structured_data
         (snd (Web.form_submit_webhook
                 failing_env true (Web.JsonObject (Some sample_form))
                 (snd (Web.form_submit_webhook
                         failing_env true (Web.JsonObject (Some sample_form))
                         init)))))
  = ["entry_1"; "entry_1"]%string.
Proof.
  exact (form_webhook_reuses_the_id failing_env sample_form sample_form init
                                    eq_refl eq_refl).
Defined.

(** * More on the polling script *)

(** ** A sheet that grows between two cycles *)

Lemma range_app a b c :
  a <= b -> b <= c -> Py.range a b ++ Py.range b c = Py.range a c.
Proof.
  intros Hab Hbc. unfold Py.range.
  replace (Z.to_nat (c - a))
    with (Z.to_nat (b - a) + Z.to_nat (c - b))%nat by lia.
  rewrite seq_app, map_app. f_equal. cbn [Nat.add].
  replace (seq (Z.to_nat (b - a)) (Z.to_nat (c - b)))
    with (map (fun k => (Z.to_nat (b - a) + k)%nat) (seq 0 (Z.to_nat (c - b)))).
  - rewrite map_map. apply map_ext. intros k. lia.
  - clear. generalize (Z.to_nat (c - b)) as n. generalize (Z.to_nat (b - a)).
    intros m n. revert m. induction n as [|n IH]; intros m; [reflexivity |].
    cbn [seq map]. f_equal; [lia |].
    rewrite <- seq_shift, map_map, <- (IH (S m)).
    apply map_ext. intros k. lia.
Qed.

Lemma row_at_prefix rows more i :
  1 <= i <= Py.len rows -> row_at (rows ++ more) i = row_at rows i.
Proof.
  unfold row_at, Py.len. intros H. apply app_nth1. lia.
Qed.

Lemma handled_rows_prefix rows more lo hi :
  1 <= lo -> hi <= Py.len rows + 1 ->
  map (fun i => (i, row_at rows i)) (Py.range lo hi)
  = map (fun i => (i, row_at (rows ++ more) i)) (Py.range lo hi).
Proof.
  intros Hlo Hhi. apply map_ext_in. intros i Hi. apply range_In in Hi.
  rewrite row_at_prefix by lia. reflexivity.
Qed.

(** What a cycle handles, in every case. *)
Lemma monitor_spreadsheet_handles env id name st all_rows :
  sheets_client env (calls st) id name = Ret all_rows ->
  exists st' tr,
    monitor_spreadsheet env id name st = (Ret tt, st')
    /\ trace st' = trace st ++ tr
    /\ handled_of tr
       = map (fun i => (i, row_at all_rows i))
             (Py.range (Z.max 2 (last_processed_row st + 1))
                       (Py.len all_rows + 1))
    /\ last_processed_row st'
       = (if (1 <? Py.len all_rows)
             && (last_processed_row st <? Py.len all_rows)
          then Py.len all_rows else last_processed_row st).
Proof.
  intros Hfetch.
  destruct (1 <? Py.len all_rows) eqn:H1;
    [apply Z.ltb_lt in H1 | apply Z.ltb_ge in H1];
    [destruct (last_processed_row st <? Py.len all_rows) eqn:H2;
     [apply Z.ltb_lt in H2 | apply Z.ltb_ge in H2] |]; cbn [andb].
  - destruct (monitor_spreadsheet_active env id name st all_rows
                Hfetch H1 H2) as (recs & k & tr & E & R & _).
    do 2 eexists. split; [exact E |]. cbn [trace last_processed_row].
    split; [reflexivity |]. split; [exact R | reflexivity].
  - destruct (monitor_spreadsheet_idle env id name st)
      as (tr & E & (_ & _ & R) & _).
    { rewrite Hfetch. right. exact H2. }
    do 2 eexists. split; [exact E |]. cbn [trace advance last_processed_row].
    split; [reflexivity |]. split; [| reflexivity].
    rewrite R, range_nil by lia. reflexivity.
  - destruct (monitor_spreadsheet_idle env id name st)
      as (tr & E & (_ & _ & R) & _).
    { rewrite Hfetch. left. exact H1. }
    do 2 eexists. split; [exact E |]. cbn [trace advance last_processed_row].
    split; [reflexivity |]. split; [| reflexivity].
    rewrite R, range_nil by lia. reflexivity.
Qed.

(** X11.  When rows are only added to the sheet between two cycles, the two
    cycles together handle every row after the offset they started from, up
    to the last row of the grown sheet and from row 2 on, each exactly once
    and in order, each with its content; and if there is such a row, the
    offset ends at the row count of the grown sheet. *)
Theorem growing_sheet_is_handled_once
        (env : Env) (id name : string) (st : state)
        (rows more : list (list string)) :
  let st1 := snd (monitor_spreadsheet env id name st) in
  let st2 := snd (monitor_spreadsheet env id name st1) in
  sheets_client env (calls st) id name = Ret rows ->
  sheets_client env (calls st1) id name = Ret (rows ++ more) ->
  handled_of (new_events st st2)
  = map (fun i => (i, row_at (rows ++ more) i))
        (Py.range (Z.max 2 (last_processed_row st + 1))
                  (Py.len (rows ++ more) + 1))
  /\ (2 <= Py.len (rows ++ more) ->
      last_processed_row st < Py.len (rows ++ more) ->
      last_processed_row st2 = Py.len (rows ++ more)).
Proof.
  intros st1 st2 Hfetch Hfetch1.
  destruct (monitor_spreadsheet_handles env id name st rows Hfetch)
    as (s1 & tr1 & E1 & T1 & R1 & L1).
  subst st2. subst st1. rewrite E1 in *. cbn [snd] in *.
  destruct (monitor_spreadsheet_handles env id name s1 (rows ++ more) Hfetch1)
    as (s2 & tr2 & E2 & T2 & R2 & L2).
  rewrite E2. cbn [snd].
  assert (Hlen : Py.len (rows ++ more) = Py.len rows + Py.len more).
  { unfold Py.len. rewrite length_app. lia. }
  assert (Hmore : 0 <= Py.len more) by (unfold Py.len; lia).
  assert (Hrows : 0 <= Py.len rows) by (unfold Py.len; lia).
  rewrite (new_events_app st s2 (tr1 ++ tr2))
    by (rewrite T2, T1, app_assoc; reflexivity).
  rewrite handled_of_app, R1, R2, L2, L1.
  destruct ((1 <? Py.len rows) && (last_processed_row st <? Py.len rows))
    eqn:A1.
  - apply andb_true_iff in A1. destruct A1 as [A B].
    apply Z.ltb_lt in A, B.
    rewrite (handled_rows_prefix rows more) by lia.
    rewrite <- map_app.
    replace (Z.max 2 (Py.len rows + 1)) with (Py.len rows + 1) by lia.
    rewrite range_app by lia.
    split; [reflexivity |]. intros _ _.
    destruct ((1 <? Py.len (rows ++ more))
              && (Py.len rows <? Py.len (rows ++ more))) eqn:A2;
      [reflexivity |].
    apply andb_false_iff in A2.
    destruct A2 as [A2|A2]; apply Z.ltb_ge in A2; lia.
  - assert (Hidle : Py.len rows <= 1 \/ Py.len rows <= last_processed_row st).
    { apply andb_false_iff in A1.
      destruct A1 as [A1|A1]; apply Z.ltb_ge in A1; lia. }
    rewrite (range_nil (Z.max 2 (last_processed_row st + 1))
                       (Py.len rows + 1)) by lia.
    cbn [map app]. split; [reflexivity |]. intros H2 Hnew.
    destruct ((1 <? Py.len (rows ++ more))
              && (last_processed_row st <? Py.len (rows ++ more))) eqn:A2;
      [reflexivity |].
    apply andb_false_iff in A2.
    destruct A2 as [A2|A2]; apply Z.ltb_ge in A2; lia.
Qed.

Lemma growing_sheet_is_handled_once_witness :
  handled_of
    (new_events init
       (snd (monitor_spreadsheet growing_env "sheet" "Responses"
               (snd (monitor_spreadsheet growing_env "sheet" "Responses"
                                         init)))))
  = [(2, row_A); (3, row_short); (4, row_A)]
  /\ last_processed_row
       (snd (monitor_spreadsheet growing_env "sheet" "Responses"
               (snd (monitor_spreadsheet growing_env "sheet" "Responses"
                                         init))))
     = 4.
Proof.
  assert (Hgrown :
            sheets_client growing_env
              (calls (snd (monitor_spreadsheet growing_env "sheet"
                                               "Responses" init)))
              "sheet" "Responses"
            = Ret (first_rows ++ added_rows))
    by (vm_compute; reflexivity).
  destruct (growing_sheet_is_handled_once
              growing_env "sheet" "Responses" init first_rows added_rows
              eq_refl Hgrown)
    as [Hhandled Hoffset].
  split.
  - rewrite Hhandled. vm_compute. reflexivity.
  - rewrite Hoffset; vm_compute; first [reflexivity | discriminate].
Defined.

(** ** The cost and the result of one row *)

Lemma translate_text_cost env text s t st :
  exists r tr,
    translate_text env text s t st
    = (Ret r, advance st [] (length (requests_of text)) tr)
    /\ quiet tr
    /\ translated_of tr = requests_of text
    /\ (translation_down env -> r = text).
Proof.
  unfold translate_text, requests_of. destruct (Py.blank text).
  - exists text, []. unfold ret. rewrite advance_nil. repeat split.
  - unfold translations_list. run. cbn [calls advance length].
    destruct (translate_service env (calls st + 0) s t text)
      as [[[[|[r|] l]|]]|e] eqn:A; cbn [translations]; run;
      do 2 eexists; (split; [reflexivity |]);
      (split; [repeat split |]); (split; [reflexivity |]);
      intros Hdown; try reflexivity.
    destruct (Hdown (calls st + 0)%nat s t text) as (e & He). congruence.
Qed.

(** Everything [process_submission] does with a row that has its eleven
    fields. *)
Lemma process_submission_full env row_data n st :
  11 <= Py.len row_data ->
  let data := positional_submission row_data in
  exists translated_title translated_quote processed_at tr,
    let r :=
      mkStructuredRecord
        ("entry_" ++ Py.str_of_int n) (timestamp data)
        (submitter data) (title data) translated_title
        (quote data) translated_quote
        (aff_tags data) (neg_tags data)
        (source_url data) (update_date data) (eng_source data)
        (attachment data) (remark data) processed_at in
    process_submission env row_data n st
    = (Ret tt,
       advance st [r]
               (3 * length (requests_of (quote data))
                + length (requests_of (title data)) + 2)
               tr)
    /\ translated_of tr
       = requests_of (quote data) ++ requests_of (quote data)
         ++ requests_of (title data) ++ requests_of (quote data)
    /\ (translation_down env ->
        translated_title = title data /\ translated_quote = quote data).
Proof.
  intros H data. unfold process_submission, bind, try_except.
  rewrite emit_advance, (extract_long _ _ H). fold data.
  destruct (translate_text_cost env (quote data) "ja" "en"
              (advance st [] 0 [Processing n row_data]))
    as (tq1 & tr1 & E1 & _ & T1 & _).
  rewrite (add_to_docs_run env (n - 1) data _ tq1 _ E1). run.
  match goal with
  | |- context [send_discord_notification env _ _ ?s] =>
      destruct (translate_text_cost env (quote data) "ja" "en" s)
        as (tq2 & tr2 & E2 & _ & T2 & _);
      destruct (send_discord_notification_run env (n - 1) data s tq2 _ E2)
        as (line & E3)
  end.
  rewrite E3. run. unfold prepare_structured_data, bind.
  match goal with
  | |- context [translate_text env (title data) _ _ ?s] =>
      destruct (translate_text_cost env (title data) "ja" "en" s)
        as (tt' & tr3 & E4 & _ & T3 & D3)
  end.
  rewrite E4. run.
  match goal with
  | |- context [translate_text env (quote data) _ _ ?s] =>
      destruct (translate_text_cost env (quote data) "ja" "en" s)
        as (tq3 & tr4 & E5 & _ & T4 & D4)
  end.
  rewrite E5. unfold now_isoformat. run.
  exists tt', tq3. do 2 eexists. cbv zeta. split; [| split].
  - cbn [app]. f_equal. unfold advance. f_equal; first [reflexivity | lia].
  - rewrite !translated_of_app, T1, T2, T3, T4. cbn [translated_of flat_map].
    rewrite !app_nil_r, <- !app_assoc. reflexivity.
  - intros Hdown. split; [exact (D3 Hdown) | exact (D4 Hdown)].
Qed.

(** X12.  Handling one row that has its eleven fields sends its quote to
    the translation service three times (for the document entry, for the
    notification and for the record) and its title once, in that order, a
    blank text not being sent at all; with the post and the reading of the
    clock that makes the number of translations plus two requests. *)
Theorem one_row_translates_its_quote_three_times
        (env : Env) (row_data : list string) (n : Z) (st : state) :
  11 <= Py.len row_data ->
  let data := positional_submission row_data in
  let st' := snd (process_submission env row_data n st) in
  translated_of (new_events st st')
  = requests_of (quote data) ++ requests_of (quote data)
    ++ requests_of (title data) ++ requests_of (quote data)
  /\ calls st'
     = (calls st + length (translated_of (new_events st st')) + 2)%nat
  /\ (Py.blank (quote data) = false ->
      Py.blank (title data) = false ->
      translated_of (new_events st st')
      = [quote data; quote data; title data; quote data]).
Proof.
  intros H data st'.
  destruct (process_submission_full env row_data n st H)
    as (tt' & tq & at' & tr & E & T & _).
  cbv zeta in E. fold data in E, T.
  subst st'. rewrite E. cbn [snd]. rewrite new_events_advance, T.
  split; [reflexivity |]. split.
  - cbn [advance calls]. rewrite !length_app. lia.
  - intros Bq Bt. unfold requests_of. rewrite Bq, Bt. reflexivity.
Qed.

Lemma one_row_translates_its_quote_three_times_witness :
  translated_of
    (new_events init (snd (process_submission failing_env row_A 2 init)))
  = ["原文"; "原文"; "Title1"; "原文"]%string.
Proof.
  exact (proj1 (one_row_translates_its_quote_three_times
                  failing_env row_A 2 init
                  ltac:(vm_compute; discriminate))).
Defined.

(** X13.  The record appended for a row that has its eleven fields holds
    the fields of the row by position: timestamp, submitter, title, the two
    tag fields split, url, update date, source label, quote, attachment and
    remark, under the id [entry_] followed by the row number.  When the
    translation service is down, the translated title and quote of the
    record are the originals. *)
Theorem record_holds_the_row
        (env : Env) (row_data : list string) (n : Z) (st : state) :
  11 <= Py.len row_data ->
  let st' := snd (process_submission env row_data n st) in
  exists translated_title translated_quote processed_at,
    structured_data st'
    = structured_data st
      ++ [mkStructuredRecord
            ("entry_" ++ Py.str_of_int n)
            (field row_data 0) (field row_data 1)
            (field row_data 2) translated_title
            (field row_data 8) translated_quote
            (parse_tags (field row_data 3)) (parse_tags (field row_data 4))
            (field row_data 5) (field row_data 6) (field row_data 7)
            (field row_data 9) (field row_data 10) processed_at]
    /\ (translation_down env ->
        translated_title = field row_data 2
        /\ translated_quote = field row_data 8).
Proof.
  intros H st'.
  destruct (process_submission_full env row_data n st H)
    as (tt' & tq & at' & tr & E & _ & D).
  cbv zeta in E. subst st'. rewrite E. cbn [snd].
  exists tt', tq, at'. split; [reflexivity | exact D].
Qed.

Lemma record_holds_the_row_witness :
  exists processed_at,
    structured_data (snd (process_submission failing_env row_A 2 init))
    = [mkStructuredRecord
         "entry_2" "2024-01-01" "Alice" "Title1" "Title1" "原文" "原文"
         ["t1"; "t2"]%string [] "http://x" "2024-01-01" "Src"
         EmptyString "備考" processed_at].
Proof.
  destruct (record_holds_the_row failing_env row_A 2 init
              ltac:(vm_compute; discriminate))
    as (tt' & tq & at' & S & D).
  destruct D as [-> ->].
  { intros k s t q. eexists. reflexivity. }
  exists at'. exact S.
Defined.

(** * The chat bot *)

(** ** Characters *)

Lemma char_len_nonneg s : 0 <= PyText.char_len s.
Proof.
  induction s as [|c s IH]; cbn [PyText.char_len]; [lia |].
  destruct (PyText.continuation c); lia.
Qed.

Lemma char_len_app s1 s2 :
  PyText.char_len (s1 ++ s2)%string
  = PyText.char_len s1 + PyText.char_len s2.
Proof.
  induction s1 as [|c s1 IH]; cbn [append PyText.char_len]; [reflexivity |].
  destruct (PyText.continuation c); lia.
Qed.

Lemma char_len_take n s :
  PyText.char_len (PyText.take_chars n s)
  = Z.min (Z.of_nat n) (PyText.char_len s).
Proof.
  revert n. induction s as [|c s IH]; intros n;
    cbn [PyText.take_chars PyText.char_len]; [lia |].
  pose proof (char_len_nonneg s) as Hs.
  destruct (PyText.continuation c) eqn:C.
  - cbn [PyText.char_len]. rewrite C. apply IH.
  - destruct n as [|n]; cbn [PyText.char_len]; [lia |].
    rewrite C, IH. lia.
Qed.

Lemma take_chars_all n s :
  PyText.char_len s <= Z.of_nat n -> PyText.take_chars n s = s.
Proof.
  revert n. induction s as [|c s IH]; intros n H;
    cbn [PyText.take_chars PyText.char_len] in *; [reflexivity |].
  pose proof (char_len_nonneg s) as Hs.
  destruct (PyText.continuation c).
  - rewrite IH by exact H. reflexivity.
  - destruct n as [|n]; [lia |]. rewrite IH by lia. reflexivity.
Qed.

Lemma quote_block_len text :
  PyText.char_len (Bot.quote_block text)
  = (if PyText.char_len text >? 1000 then 1009
     else PyText.char_len text + 6).
Proof.
  unfold Bot.quote_block. rewrite !char_len_app, char_len_take.
  rewrite Z.gtb_ltb.
  destruct (1000 <? PyText.char_len text) eqn:E;
    [apply Z.ltb_lt in E | apply Z.ltb_ge in E];
    change (PyText.char_len "```") with 3;
    change (PyText.char_len "...") with 3;
    change (PyText.char_len EmptyString) with 0;
    change (Z.of_nat 1000) with 1000; lia.
Qed.

(** ** The embed *)

Lemma quote_block_bounded text :
  PyText.char_len (Bot.quote_block text) <= 1009.
Proof.
  rewrite quote_block_len, Z.gtb_ltb.
  destruct (1000 <? PyText.char_len text) eqn:E;
    [lia | apply Z.ltb_ge in E; lia].
Qed.

(** The embed has a translation field exactly when the translation is not
    empty and differs from the original. *)
Lemma translation_field_present data original_quote translated_quote :
  In "English Translation"%string
     (map Bot.field_name
          (Bot.build_fields data original_quote translated_quote))
  <-> (translated_quote <> EmptyString
       /\ translated_quote <> original_quote).
Proof.
  assert (Hcond :
            Py.truthy translated_quote
            && negb (translated_quote =? original_quote)%string = true
            <-> (translated_quote <> EmptyString
                 /\ translated_quote <> original_quote)).
  { rewrite andb_true_iff, negb_true_iff, String.eqb_neq.
    destruct translated_quote; cbn [Py.truthy]; split;
      intros [A B]; split; congruence. }
  rewrite <- Hcond. unfold Bot.build_fields.
  destruct (Py.truthy translated_quote
            && negb (translated_quote =? original_quote)%string);
    destruct (Py.truthy (Bot.tags_text data));
    destruct (Py.truthy original_quote);
    destruct (Py.truthy (source_url data));
    destruct (Py.truthy (attachment data));
    destruct (Py.truthy (remark data));
    cbn [app map Bot.field_name In];
    (split; intros H;
     [ first [ reflexivity
             | repeat (destruct H as [H|H]; [discriminate H |]);
               contradiction ]
     | first [ discriminate H
             | repeat (first [left; reflexivity | right]) ] ]).
Qed.

(** ** Notifications of the bot *)

Lemma bot_translate_text_run env credentials text s t st :
  exists r k tr,
    Bot.translate_text env credentials text s t st
    = (Ret r, advance st [] k tr)
    /\ quiet tr
    /\ translated_of tr
       = (if Py.blank text || negb credentials then [] else [text])
    /\ (credentials = false \/ translation_down env -> r = text).
Proof.
  unfold Bot.translate_text.
  destruct (Py.blank text || negb credentials) eqn:G.
  - exists text, 0%nat, []. unfold ret. rewrite advance_nil. repeat split.
  - unfold translations_list. run. cbn [calls advance].
    destruct (translate_service env (calls st + 0) s t text)
      as [[[[|[r|] l]|]]|e] eqn:A; cbn [translations]; run;
      do 3 eexists; (split; [reflexivity |]);
      (split; [repeat split |]); (split; [reflexivity |]);
      intros Hdown; try reflexivity.
    destruct Hdown as [-> | Hdown].
    + rewrite orb_true_r in G. discriminate G.
    + destruct (Hdown (calls st + 0)%nat s t text) as (e & He). congruence.
Qed.

(** What [process_evidence_notification] does: it asks the channel for one
    embed, and for an error text when the channel refuses the embed. *)
Lemma notification_run env credentials channel_send n data bs :
  exists translated_quote timestamp k tr,
    let embed :=
      Bot.mkEmbed (Py.str_of_int n ++ ". " ++ title data)
                  ("**Submitter:** " ++ submitter data)
                  65280 timestamp
                  (Bot.build_fields data (quote data) translated_quote) in
    let st1 := advance (Bot.core bs) [] k tr in
    quiet tr
    /\ translated_of tr
       = (if Py.blank (quote data) || negb credentials then []
          else [quote data])
    /\ (credentials = false \/ translation_down env ->
        translated_quote = quote data)
    /\ Bot.process_evidence_notification env credentials channel_send
                                         n data bs
       = match channel_send (calls st1) (Bot.SendEmbed embed) with
         | Ret _ =>
             (Ret tt,
              Bot.mkBotState (advance st1 [] 1 [])
                             (Bot.outbox bs ++ [Bot.SendEmbed embed]))
         | Raise error =>
             let text :=
               Bot.SendText ("Error processing evidence notification: "
                             ++ error) in
             (channel_send (S (calls st1)) text,
              Bot.mkBotState
                (advance st1 [] 2
                         [Log "ERROR"
                              ("Error sending evidence notification: "
                               ++ error)])
                (Bot.outbox bs ++ [Bot.SendEmbed embed; text]))
         end.
Proof.
  destruct (bot_translate_text_run env credentials (quote data) "ja" "en"
              (Bot.core bs)) as (tq & k & tr & E & Q & T & D).
  exists tq, (datetime_now env (calls (Bot.core bs) + k)), (k + 1)%nat, tr.
  cbv zeta. split; [exact Q |]. split; [exact T |]. split; [exact D |].
  unfold Bot.process_evidence_notification, Bot.btry.
  unfold Bot.bbind at 1. unfold Bot.blift at 1. rewrite E.
  unfold Bot.bbind at 1. unfold Bot.blift at 1. cbn [Bot.core Bot.outbox].
  unfold Bot.now. rewrite request_advance, advance_advance.
  unfold Bot.send at 1. cbn [Bot.core Bot.outbox calls advance].
  rewrite !app_nil_r.
  destruct (channel_send (calls (Bot.core bs) + (k + 1))%nat
              (Bot.SendEmbed
                 (Bot.mkEmbed (Py.str_of_int n ++ ". " ++ title data)
                    ("**Submitter:** " ++ submitter data) 65280
                    (datetime_now env (calls (Bot.core bs) + k))
                    (Bot.build_fields data (quote data) tq))))
    as [[]|error].
  - unfold advance. cbn [last_processed_row structured_data calls trace].
    rewrite !app_nil_r. repeat f_equal; lia.
  - unfold Bot.bbind, Bot.blift, Bot.send, App.log, emit, advance.
    cbn [Bot.core Bot.outbox last_processed_row structured_data calls trace].
    rewrite !app_nil_r, <- !app_assoc.
    replace (calls (Bot.core bs) + (k + 1) + 2)%nat
      with (S (S (calls (Bot.core bs) + (k + 1)))) by lia.
    reflexivity.
Qed.

(** The value of a quote field is the text as it is shown. *)
Lemma quote_block_shown text : Bot.quote_block text = shown_quote text.
Proof.
  unfold Bot.quote_block, shown_quote. rewrite Z.gtb_ltb.
  destruct (1000 <? PyText.char_len text) eqn:E.
  - apply Z.ltb_lt in E.
    destruct (PyText.char_len text <=? 1000) eqn:E';
      [apply Z.leb_le in E'; lia | reflexivity].
  - apply Z.ltb_ge in E.
    destruct (PyText.char_len text <=? 1000) eqn:E';
      [| apply Z.leb_gt in E'; lia].
    rewrite take_chars_all by exact E. reflexivity.
Qed.

Lemma shown_quote_bounded text : PyText.char_len (shown_quote text) <= 1009.
Proof. rewrite <- quote_block_shown. apply quote_block_bounded. Qed.

(** The quote fields among the fields of the embed. *)
Lemma quote_fields_built data original_quote translated_quote embed :
  Bot.embed_fields embed
  = Bot.build_fields data original_quote translated_quote ->
  values_named "Original Quote (Japanese)" embed
  = (if Py.truthy original_quote then [shown_quote original_quote] else [])
  /\ values_named "English Translation" embed
     = (if Py.truthy translated_quote
           && negb (translated_quote =? original_quote)%string
        then [shown_quote translated_quote] else []).
Proof.
  intros E. unfold values_named. rewrite E. unfold Bot.build_fields.
  rewrite <- !quote_block_shown.
  destruct (Py.truthy (Bot.tags_text data));
    destruct (Py.truthy original_quote);
    destruct (Py.truthy translated_quote
              && negb (translated_quote =? original_quote)%string);
    destruct (Py.truthy (source_url data));
    destruct (Py.truthy (attachment data));
    destruct (Py.truthy (remark data));
    split; reflexivity.
Qed.

(** The embed that [process_evidence_notification] asks the channel for is
    built from the translation that [translate_text] returned. *)
Lemma notification_embed env credentials channel_send n data bs tq st1 :
  Bot.translate_text env credentials (quote data) "ja" "en" (Bot.core bs)
  = (Ret tq, st1) ->
  exists timestamp rest,
    Bot.outbox (snd (Bot.process_evidence_notification
                       env credentials channel_send n data bs))
    = Bot.outbox bs
      ++ Bot.SendEmbed
           (Bot.mkEmbed (Py.str_of_int n ++ ". " ++ title data)
                        ("**Submitter:** " ++ submitter data)
                        65280 timestamp
                        (Bot.build_fields data (quote data) tq))
         :: rest.
Proof.
  intros H.
  unfold Bot.process_evidence_notification, Bot.btry.
  unfold Bot.bbind at 1. unfold Bot.blift at 1. rewrite H.
  unfold Bot.bbind at 1. unfold Bot.blift at 1. cbn [Bot.core Bot.outbox].
  unfold Bot.now, request.
  unfold Bot.send at 1. cbn [Bot.core Bot.outbox calls].
  match goal with
  | |- context [match ?c with Ret _ => _ | Raise _ => _ end] =>
      destruct c as [[]|error]
  end.
  - cbn [snd Bot.outbox]. do 2 eexists. reflexivity.
  - unfold Bot.bbind, Bot.blift, Bot.send, App.log, emit.
    cbn [snd Bot.core Bot.outbox].
    rewrite <- app_assoc. do 2 eexists. reflexivity.
Qed.

(** X14.  In the embed that [process_evidence_notification] asks the
    channel for, the field of the original quote is there when the quote is
    not empty and holds the quote; the field of the translation is there
    when the translation that [translate_text] returned is not empty and
    differs from the quote, and holds that translation.  Each is shown
    between code fences, whole when it has at most 1000 characters and
    otherwise cut to its first 1000 characters followed by three dots; so
    neither field has more than 1009 characters, and a cut one has exactly
    1009. *)
Theorem quote_fields_are_bounded
        (env : Env) (credentials : bool)
        (channel_send : nat -> Bot.outgoing -> outcome unit)
        (n : Z) (data : Submission) (bs : Bot.bot_state) :
  let bs' :=
    snd (Bot.process_evidence_notification env credentials channel_send
                                           n data bs) in
  exists embed rest translated,
    Bot.outbox bs' = Bot.outbox bs ++ Bot.SendEmbed embed :: rest
    /\ fst (Bot.translate_text env credentials (quote data) "ja" "en"
                               (Bot.core bs))
       = Ret translated
    /\ values_named "Original Quote (Japanese)" embed
       = (if Py.truthy (quote data) then [shown_quote (quote data)] else [])
    /\ values_named "English Translation" embed
       = (if Py.truthy translated && negb (translated =? quote data)%string
          then [shown_quote translated] else [])
    /\ Forall (fun value => PyText.char_len value <= 1009)
              (values_named "Original Quote (Japanese)" embed
               ++ values_named "English Translation" embed)
    /\ (1000 < PyText.char_len (quote data) ->
        PyText.char_len (PyText.take_chars 1000 (quote data)) = 1000
        /\ map PyText.char_len
               (values_named "Original Quote (Japanese)" embed)
           = [1009]).
Proof.
  intros bs'.
  destruct (bot_translate_text_run env credentials (quote data) "ja" "en"
              (Bot.core bs)) as (tq & k & tr & E & _).
  destruct (notification_embed env credentials channel_send n data bs tq _ E)
    as (timestamp & rest & O).
  eexists. exists rest, tq. split; [exact O |].
  split; [rewrite E; reflexivity |].
  match goal with
  | |- values_named _ ?e = _ /\ _ =>
      destruct (quote_fields_built data (quote data) tq e eq_refl)
        as (Vo & Vt)
  end.
  rewrite Vo, Vt.
  split; [reflexivity |]. split; [reflexivity |]. split.
  - destruct (Py.truthy (quote data));
      destruct (Py.truthy tq && negb (tq =? quote data)%string);
      cbn [app];
      repeat (apply Forall_cons; [apply shown_quote_bounded |]);
      apply Forall_nil.
  - intros Hlong.
    split; [rewrite char_len_take; change (Z.of_nat 1000) with 1000; lia |].
    assert (Hq : Py.truthy (quote data) = true).
    { destruct (quote data); [cbn [PyText.char_len] in Hlong; lia |].
      reflexivity. }
    rewrite Hq. cbn [map]. rewrite <- quote_block_shown, quote_block_len.
    rewrite Z.gtb_ltb.
    destruct (1000 <? PyText.char_len (quote data)) eqn:C;
      [reflexivity | apply Z.ltb_ge in C; lia].
Qed.

Lemma quote_fields_are_bounded_witness :
  1000 < PyText.char_len long_quote
  /\ exists embed,
       Bot.outbox
         (snd (Bot.process_evidence_notification
                 failing_env true open_channel 2 data_long fresh_bot))
       = [Bot.SendEmbed embed]
       /\ values_named "Original Quote (Japanese)" embed
          = [("```" ++ flatten (repeat "引" 1000) ++ "...```")%string]
       /\ values_named "English Translation" embed = [].
Proof.
  split; [vm_compute; reflexivity |].
  destruct (quote_fields_are_bounded
              failing_env true open_channel 2 data_long fresh_bot)
    as (embed & rest & translated & O & T & Vo & Vt & _).
  vm_compute in T. injection T as <-.
  exists embed. split; [| split].
  - rewrite O. cbn [Bot.outbox fresh_bot app]. f_equal.
    assert (L : length
                  (Bot.outbox
                     (snd (Bot.process_evidence_notification
                             failing_env true open_channel 2 data_long
                             fresh_bot)))
                = 1%nat) by (vm_compute; reflexivity).
    rewrite O in L. cbn [Bot.outbox fresh_bot app length] in L.
    destruct rest; [reflexivity | discriminate L].
  - rewrite Vo. vm_compute. reflexivity.
  - rewrite Vt. vm_compute. reflexivity.
Defined.

(** X15.  Without credentials, or with a translation service that is down,
    the embed of a submission has no translation field: the translation
    falls back on the quote itself, and a translation equal to the original
    is not shown.  Without credentials no text is sent to the translation
    service at all. *)
Theorem bot_omits_an_unavailable_translation
        (env : Env) (credentials : bool)
        (channel_send : nat -> Bot.outgoing -> outcome unit)
        (n : Z) (data : Submission) (bs : Bot.bot_state) :
  credentials = false \/ translation_down env ->
  let bs' :=
    snd (Bot.process_evidence_notification env credentials channel_send
                                           n data bs) in
  exists embed rest,
    Bot.outbox bs' = Bot.outbox bs ++ Bot.SendEmbed embed :: rest
    /\ ~ In "English Translation"%string
           (map Bot.field_name (Bot.embed_fields embed))
    /\ (credentials = false ->
        translated_of (new_events (Bot.core bs) (Bot.core bs')) = []).
Proof.
  intros Hdown bs'.
  destruct (notification_run env credentials channel_send n data bs)
    as (tq & ts & k & tr & Q & T & D & E).
  cbv zeta in E. specialize (D Hdown). subst tq. subst bs'. rewrite E.
  match goal with
  | |- context [match ?c with Ret _ => _ | Raise _ => _ end] =>
      destruct c as [u|error]
  end; cbn [snd Bot.outbox Bot.core]; rewrite advance_advance,
    new_events_advance, translated_of_app, T;
    (do 2 eexists; split; [reflexivity |]; split;
     [ cbn [Bot.embed_fields]; rewrite translation_field_present;
       intros [_ Hne]; apply Hne; reflexivity
     | intros ->; rewrite orb_true_r; reflexivity ]).
Qed.

Lemma bot_omits_an_unavailable_translation_witness :
  exists embed,
    Bot.outbox
      (snd (Bot.process_evidence_notification
              failing_env true open_channel 2 data_both fresh_bot))
    = [Bot.SendEmbed embed]
    /\ map Bot.field_name (Bot.embed_fields embed)
       = ["Tags"; "Original Quote (Japanese)"; "Source"; "Update Date";
          "URL"]%string.
Proof.
  destruct (bot_omits_an_unavailable_translation
              failing_env true open_channel 2 data_both fresh_bot)
    as (embed & rest & O & _).
  { right. intros k s t q. eexists. reflexivity. }
  vm_compute in O. injection O as <- _.
  eexists. split; reflexivity.
Defined.

(** X16.  [process_evidence_notification] first asks the channel for one
    embed, titled with the entry number and the title.  If the channel
    accepts it, the method returns normally and asks nothing more.  If the
    channel refuses it, the method logs the error and asks for one text
    that carries the error; whether the method then returns or raises is
    what that second request does: a refusal of the error text is not
    caught. *)
Theorem bot_notification_error_path
        (env : Env) (credentials : bool)
        (channel_send : nat -> Bot.outgoing -> outcome unit)
        (n : Z) (data : Submission) (bs : Bot.bot_state) :
  let run :=
    Bot.process_evidence_notification env credentials channel_send
                                      n data bs in
  exists embed k,
    Bot.embed_title embed = (Py.str_of_int n ++ ". " ++ title data)%string
    /\ (forall u,
           channel_send k (Bot.SendEmbed embed) = Ret u ->
           fst run = Ret tt
           /\ Bot.outbox (snd run) = Bot.outbox bs ++ [Bot.SendEmbed embed])
    /\ (forall error,
           channel_send k (Bot.SendEmbed embed) = Raise error ->
           let text :=
             Bot.SendText ("Error processing evidence notification: "
                           ++ error) in
           Bot.outbox (snd run)
           = Bot.outbox bs ++ [Bot.SendEmbed embed; text]
           /\ fst run = channel_send (S k) text
           /\ In (Log "ERROR"
                      ("Error sending evidence notification: " ++ error))
                 (new_events (Bot.core bs) (Bot.core (snd run)))).
Proof.
  intros run.
  destruct (notification_run env credentials channel_send n data bs)
    as (tq & ts & k & tr & Q & T & D & E).
  cbv zeta in E. subst run. rewrite E.
  exists (Bot.mkEmbed (Py.str_of_int n ++ ". " ++ title data)
                      ("**Submitter:** " ++ submitter data)
                      65280 ts
                      (Bot.build_fields data (quote data) tq)),
         (calls (advance (Bot.core bs) [] k tr)).
  split; [reflexivity |]. split.
  - intros u Hsend. rewrite Hsend. split; reflexivity.
  - intros error Hsend. rewrite Hsend. cbv zeta. cbn [fst snd Bot.outbox].
    split; [reflexivity |]. split; [reflexivity |].
    cbn [Bot.core]. rewrite advance_advance, new_events_advance.
    apply in_or_app. right. left. reflexivity.
Qed.

Lemma bot_notification_error_path_witness :
  fst (Bot.process_evidence_notification
         failing_env true closed_channel 2 data_both fresh_bot)
  = Raise "Missing Permissions"
  /\ exists embed,
      Bot.outbox
        (snd (Bot.process_evidence_notification
                failing_env true closed_channel 2 data_both fresh_bot))
      = [Bot.SendEmbed embed;
         Bot.SendText
           "Error processing evidence notification: Missing Permissions"].
Proof.
  destruct (bot_notification_error_path
              failing_env true closed_channel 2 data_both fresh_bot)
    as (embed & k & _ & _ & R).
  destruct (R "Missing Permissions"%string eq_refl) as (O & F & _).
  split; [exact F |]. exists embed. exact O.
Defined.

(** ** The command [!latest] *)

Lemma notify_all_accepting env credentials channel_send subs :
  accepting channel_send ->
  forall bs,
    exists st' embeds,
      Bot.notify_all env credentials channel_send subs bs
      = (Ret tt,
         Bot.mkBotState st' (Bot.outbox bs ++ map Bot.SendEmbed embeds))
      /\ map Bot.embed_title embeds = map latest_title subs
      /\ last_processed_row st' = last_processed_row (Bot.core bs)
      /\ structured_data st' = structured_data (Bot.core bs).
Proof.
  intros Hopen. induction subs as [|s subs IH]; intros bs.
  - exists (Bot.core bs), []. cbn [Bot.notify_all map]. unfold Bot.bret.
    rewrite app_nil_r. destruct bs. cbn [Bot.core Bot.outbox].
    repeat split.
  - cbn [Bot.notify_all]. unfold Bot.bbind at 1.
    destruct (notification_run env credentials channel_send
                (Web.latest_row_number s) (Web.latest_data s) bs)
      as (tq & ts & k & tr & _ & _ & _ & E).
    cbv zeta in E. rewrite Hopen in E. rewrite E.
    match goal with
    | |- context [Bot.notify_all _ _ _ _ ?b] =>
        destruct (IH b) as (st' & embeds & E' & Ti & L & S)
    end.
    rewrite E'. cbn [Bot.core Bot.outbox] in *.
    eexists. eexists (_ :: embeds). rewrite <- app_assoc. cbn [map app].
    split; [reflexivity |]. rewrite Ti.
    split; [reflexivity |].
    cbn [advance calls last_processed_row structured_data] in *.
    rewrite !app_nil_r in S. repeat split; assumption.
Qed.

Lemma latest_between_length all_rows lo :
  Py.len (latest_between all_rows lo) <= Z.max 0 (Py.len all_rows + 1 - lo).
Proof.
  unfold Py.len at 1. rewrite <- (length_map Web.latest_row_number).
  rewrite latest_between_numbers.
  pose proof (filter_length_le (extractable all_rows)
                (Py.range lo (Py.len all_rows + 1))) as L.
  rewrite range_length in L. lia.
Qed.

(** X17.  The command [!latest] caps its limit at 10 but has no floor.  On
    a sheet that has rows after its header and with a channel that accepts
    everything, it shows the typing indicator and then sends one embed for
    each submission of the window of the capped limit, in order, titled
    with the number of the row in the sheet, or the not-found text when the
    window has none.  With a limit of at least 1 that is at most ten
    embeds; with a limit of 0 or less, the window is every row after the
    first [-limit], so that [!latest 0] sends the whole sheet. *)
Theorem latest_command_sends_the_window
        (env : Env) (channel_send : nat -> Bot.outgoing -> outcome unit)
        (sid : string) (limit : Z) (bs : Bot.bot_state)
        (all_rows : list (list string)) :
  accepting channel_send ->
  sheets_client env (S (calls (Bot.core bs))) sid "Responses" = Ret all_rows ->
  1 < Py.len all_rows ->
  let capped := if limit >? 10 then 10 else limit in
  let subs := latest_between all_rows (window_start all_rows capped) in
  let run := Bot.get_latest_evidence env true sid channel_send limit bs in
  fst run = Ret tt
  /\ (subs = [] ->
      Bot.outbox (snd run)
      = Bot.outbox bs
        ++ [Bot.Typing;
            Bot.SendText
              "No submissions found or Google Sheets access not configured."])
  /\ (subs <> [] ->
      exists embeds,
        Bot.outbox (snd run)
        = Bot.outbox bs ++ Bot.Typing :: map Bot.SendEmbed embeds
        /\ map Bot.embed_title embeds = map latest_title subs)
  /\ (1 <= limit -> Py.len subs <= 10)
  /\ (limit <= 0 ->
      subs = latest_between all_rows (Z.min (- limit) (Py.len all_rows) + 1)).
Proof.
  intros Hopen Hfetch Hdata capped subs run.
  assert (Hrun :
            exists st' tail,
              run = (Ret tt,
                     Bot.mkBotState st' (Bot.outbox bs ++ Bot.Typing :: tail))
              /\ (subs = [] ->
                  tail
                  = [Bot.SendText
                       "No submissions found or Google Sheets access not configured."])
              /\ (subs <> [] ->
                  exists embeds,
                    tail = map Bot.SendEmbed embeds
                    /\ map Bot.embed_title embeds = map latest_title subs)).
  { subst run. unfold Bot.get_latest_evidence. fold capped.
    unfold Bot.bbind at 1. unfold Bot.send at 1. rewrite Hopen.
    unfold Bot.bbind at 1. unfold Bot.blift at 1.
    unfold Bot.get_latest_submissions. cbn [negb Bot.core Bot.outbox].
    pose proof (get_latest_submissions_run
                  env sid capped
                  (mkState (last_processed_row (Bot.core bs))
                           (structured_data (Bot.core bs))
                           (S (calls (Bot.core bs))) (trace (Bot.core bs))))
      as H.
    cbn [calls] in H. rewrite Hfetch in H. destruct H as (tr & E & _).
    destruct (Py.len all_rows <=? 1) eqn:H1; [apply Z.leb_le in H1; lia |].
    fold subs in E. rewrite E.
    destruct subs as [|s subs'] eqn:Hsubs.
    - unfold Bot.send. rewrite Hopen.
      cbn [Bot.core Bot.outbox]. rewrite <- app_assoc.
      do 2 eexists. split; [reflexivity |].
      split; [reflexivity | intros C; contradiction C; reflexivity].
    - match goal with
      | |- context [Bot.notify_all _ _ _ _ ?b] =>
          destruct (notify_all_accepting env true channel_send (s :: subs')
                      Hopen b) as (st' & embeds & E' & Ti & _)
      end.
      rewrite E'. cbn [Bot.outbox]. rewrite <- app_assoc.
      do 2 eexists. split; [reflexivity |].
      split; [discriminate |]. intros _. exists embeds.
      split; [reflexivity | exact Ti]. }
  destruct Hrun as (st' & tail & -> & Hnone & Hsome). cbn [fst snd Bot.outbox].
  split; [reflexivity |].
  split.
  { intros Hs. rewrite (Hnone Hs). reflexivity. }
  split.
  { intros Hs. destruct (Hsome Hs) as (embeds & -> & Ti).
    exists embeds. split; [reflexivity | exact Ti]. }
  split.
  - intros Hlimit. subst subs. unfold window_start.
    assert (Hc : 1 <= capped <= 10).
    { subst capped. rewrite Z.gtb_ltb.
      destruct (10 <? limit) eqn:E;
        [lia | apply Z.ltb_ge in E; lia]. }
    destruct (capped <=? 0) eqn:E; [apply Z.leb_le in E; lia |].
    pose proof (latest_between_length
                  all_rows (Z.max 2 (Py.len all_rows - capped + 1))) as L.
    lia.
  - intros Hlimit. subst subs. unfold window_start.
    assert (Hc : capped = limit).
    { subst capped. rewrite Z.gtb_ltb.
      destruct (10 <? limit) eqn:E; [apply Z.ltb_lt in E; lia | reflexivity]. }
    rewrite Hc.
    destruct (limit <=? 0) eqn:E; [reflexivity | apply Z.leb_gt in E; lia].
Qed.

Lemma latest_command_sends_the_window_witness :
  exists embeds,
    Bot.outbox
      (snd (Bot.get_latest_evidence wide_env true "sheet" open_channel 0
                                    fresh_bot))
    = Bot.Typing :: map Bot.SendEmbed embeds
    /\ map Bot.embed_title embeds = ["1. Title"; "2. Title1"]%string.
Proof.
  destruct (latest_command_sends_the_window
              wide_env open_channel "sheet" 0 fresh_bot wide_rows
              ltac:(intros k x; reflexivity) eq_refl
              ltac:(vm_compute; reflexivity))
    as (_ & _ & S & _).
  destruct S as (embeds & O & T); [vm_compute; discriminate |].
  exists embeds. split; [exact O | exact T].
Defined.

(** X18.  Without credentials the command [!latest] reads no sheet: once the
    typing indicator is accepted, all it does, whatever the limit, is ask
    the channel for the not-found text, and its outcome is that of this
    request. *)
Theorem latest_command_without_credentials
        (env : Env) (channel_send : nat -> Bot.outgoing -> outcome unit)
        (sid : string) (limit : Z) (bs : Bot.bot_state) :
  channel_send (calls (Bot.core bs)) Bot.Typing = Ret tt ->
  let text :=
    Bot.SendText
      "No submissions found or Google Sheets access not configured." in
  Bot.get_latest_evidence env false sid channel_send limit bs
  = (channel_send (S (calls (Bot.core bs))) text,
     Bot.mkBotState
       (mkState (last_processed_row (Bot.core bs))
                (structured_data (Bot.core bs))
                (S (S (calls (Bot.core bs)))) (trace (Bot.core bs)))
       (Bot.outbox bs ++ [Bot.Typing; text])).
Proof.
  intros Htyping text.
  unfold Bot.get_latest_evidence, Bot.bbind, Bot.send, Bot.blift,
    Bot.get_latest_submissions.
  rewrite Htyping. cbn [negb]. unfold ret.
  cbn [Bot.core Bot.outbox last_processed_row structured_data calls trace].
  rewrite <- app_assoc. reflexivity.
Qed.

Lemma latest_command_without_credentials_witness :
  Bot.outbox
    (snd (Bot.get_latest_evidence wide_env false "sheet" open_channel 5
                                  fresh_bot))
  = [Bot.Typing;
     Bot.SendText
       "No submissions found or Google Sheets access not configured."].
Proof.
  rewrite (latest_command_without_credentials
             wide_env open_channel "sheet" 5 fresh_bot eq_refl).
  reflexivity.
Defined.
